(** * bprof: the line-level timing attribution engine of [demo.cpp]

    A shallow embedding of the C++ classes [BaseFunction], [Function],
    [LineState], [FrameState] and [Module], and the properties of the
    event-driven attribution they implement.

    Conventions.
    - [std::chrono::nanoseconds] is [Z] (its tick count); signed overflow
      is undefined in C++ and is not modelled.
    - [size_t] is [Z] reduced modulo [2^64] where the code computes with it.
    - [std::vector] is [list]; [vector::at] raises [out_of_range].
    - [std::unordered_map] is [gmap]; [unordered_map::at] raises
      [out_of_range] on a missing key, [emplace] keeps an existing entry.
    - [std::stack] is a [list] whose head is [top()].
    - a C++ exception, and the undefined behaviour of [top()] on an empty
      stack, end the run: they are the [Throw] results of the [result] monad.
      A [Throw] carries no object: what the members hold once an exception
      has left [profile] is not modelled.
    - [std::cout] is the list of the items written with [<<], in order. *)

From Stdlib Require Import ZArith Lia Ascii.
From stdpp Require Import base option list gmap strings.

Local Open Scope Z_scope.

(** ** Exceptions and the result monad *)

Inductive exn :=
  | out_of_range        (* vector::at, unordered_map::at *)
  | runtime_error       (* throw std::runtime_error("Should not get here") *)
  | empty_stack_top.    (* std::stack::top() on an empty stack: undefined *)

Inductive result (A : Type) :=
  | Ok (a : A)
  | Throw (e : exn).
Arguments Ok {A} a.
Arguments Throw {A} e.

Definition result_bind {A B} (f : A → result B) (r : result A) : result B :=
  match r with
  | Ok a => f a
  | Throw e => Throw e
  end.

#[global] Instance result_mbind : MBind result := @result_bind.
#[global] Instance result_mret : MRet result := @Ok.

Definition duration := Z.
Definition time_point := Z.

Definition size_t_modulus : Z := 2 ^ 64.
Definition to_size_t (z : Z) : Z := z mod size_t_modulus.

(** [std::vector<T>::at]: the index is compared with [size()] first. *)
Definition vector_at {A} (v : list A) (i : Z) : result A :=
  if decide (0 ≤ i < Z.of_nat (length v)) then
    match v !! Z.to_nat i with
    | Some x => Ok x
    | None => Throw out_of_range
    end
  else Throw out_of_range.

(** [std::unordered_map<K,V>::at] *)
Definition map_at `{Countable K} {V} (m : gmap K V) (k : K) : result V :=
  match m !! k with
  | Some x => Ok x
  | None => Throw out_of_range
  end.

(** [std::unordered_map<K,V>::emplace]: no effect when the key is taken. *)
Definition map_emplace `{Countable K} {V} (k : K) (v : V) (m : gmap K V)
  : gmap K V :=
  match m !! k with
  | Some _ => m
  | None => <[k := v]> m
  end.

(** ** Standard output

    [cout_seconds n] stands for the text of [n.count()/1e9], a [double]
    written with the stream's default formatting: a function of [n]. *)
Inductive cout_item :=
  | cout_string (s : string)
  | cout_seconds (count : Z)
  | cout_char (c : ascii)
  | cout_endl.

(** ** Python objects

    A [PyCodeObject*] and a [PyObject*] are addresses; a frame gives its
    code object and the line number [PyFrame_GetLineNumber] reports. *)
Abbreviation PyCodeObject := N (only parsing).
Abbreviation PyObject := N (only parsing).

Record PyFrameObject := {
  f_code : PyCodeObject;
  f_lineno : Z;
}.

(** [PyLong_AsUnsignedLongLong]: the value when it fits, otherwise
    [(unsigned long long)-1] (with a Python error the code does not read). *)
Definition PyLong_AsUnsignedLongLong (v : Z) : Z :=
  if decide (0 ≤ v < size_t_modulus) then v else size_t_modulus - 1.

(** The values of [what] a profile or trace hook receives. *)
Inductive PyTrace :=
  | PyTrace_CALL
  | PyTrace_EXCEPTION
  | PyTrace_LINE
  | PyTrace_RETURN
  | PyTrace_C_CALL
  | PyTrace_C_EXCEPTION
  | PyTrace_C_RETURN
  | PyTrace_OPCODE
  | PyTrace_other (what : Z).

(** ** class BaseFunction *)
Module BaseFunction.
Record t := mk {
    name_ : string;
    internal_time_ : duration;
  }.

Definition new (name : string) : t :=
    {| name_ := name; internal_time_ := 0 |}.

Definition name (f : t) : string := name_ f.
Definition overhead (f : t) : duration := internal_time_ f.

  (** Returns the updated object and what it wrote to [std::cout]. *)
Definition add_elapsed_internal (time : duration) (f : t)
    : t * list cout_item :=
    let internal_time := internal_time_ f + time in
    ({| name_ := name_ f; internal_time_ := internal_time |},
     [cout_string "Internal: "; cout_seconds internal_time; cout_endl]).
End BaseFunction.

(** ** class Function : public BaseFunction *)
Module Function.
Record t := mk {
    base : BaseFunction.t;
    code_ : PyCodeObject;
    lines_ : list string;
    line_time_ : list duration;
    line_time_internal_ : list duration;
  }.

  (** [vector::resize] on an empty vector value-initialises: all zero. *)
Definition new (name : string) (lines : list string) (code : PyCodeObject)
    : t :=
    let n_lines := length lines in
    {| base := BaseFunction.new name;
       code_ := code;
       lines_ := lines;
       line_time_ := replicate n_lines 0;
       line_time_internal_ := replicate n_lines 0 |}.

Definition name (f : t) : string := BaseFunction.name (base f).
Definition overhead (f : t) : duration := BaseFunction.overhead (base f).
Definition code (f : t) : PyCodeObject := code_ f.
Definition n_lines (f : t) : nat := length (lines_ f).
Definition lines (f : t) : list string := lines_ f.
Definition line_time (f : t) : list duration := line_time_ f.
Definition line_time_internal (f : t) : list duration :=
    line_time_internal_ f.

Definition add_elapsed (line_number : Z) (time : duration) (f : t)
    : result t :=
    old ← vector_at (line_time_ f) line_number;
    Ok {| base := base f; code_ := code_ f; lines_ := lines_ f;
          line_time_ := <[Z.to_nat line_number := old + time]> (line_time_ f);
          line_time_internal_ := line_time_internal_ f |}.

Definition add_elapsed_internal (line_number : Z) (time : duration) (f : t)
    : result t :=
    old ← vector_at (line_time_internal_ f) line_number;
    Ok {| base := base f; code_ := code_ f; lines_ := lines_ f;
          line_time_ := line_time_ f;
          line_time_internal_ :=
            <[Z.to_nat line_number := old + time]> (line_time_internal_ f) |}.

  (** [using BaseFunction::add_elapsed_internal]: the one-argument overload. *)
Definition base_add_elapsed_internal (time : duration) (f : t)
    : t * list cout_item :=
    let '(b, out) := BaseFunction.add_elapsed_internal time (base f) in
    ({| base := b; code_ := code_ f; lines_ := lines_ f;
        line_time_ := line_time_ f;
        line_time_internal_ := line_time_internal_ f |}, out).
End Function.

(** ** enum class Instruction *)
Inductive Instruction :=
  | kOrigin
  | kLine
  | kCall
  | kReturn
  | kException
  | kCCall
  | kCReturn
  | kCException
  | kInvalid.

(** ** class LineState *)
Module LineState.
Record t := mk {
    internal_ : duration;
    external_ : duration;
  }.

  (** The value-initialised element [vector::resize] creates. *)
Definition zero : t := {| internal_ := 0; external_ := 0 |}.

Definition add_internal (dur : duration) (l : t) : t :=
    {| internal_ := internal_ l + dur; external_ := external_ l |}.
Definition add_external (dur : duration) (l : t) : t :=
    {| internal_ := internal_ l; external_ := external_ l + dur |}.

Definition internal (l : t) : duration := internal_ l.
Definition external (l : t) : duration := external_ l.
End LineState.

(** ** class FrameState *)
Module FrameState.
Record t := mk {
    starting_line_ : Z;
    current_line_ : Z;
    function_key_ : PyCodeObject;
    lines_ : list LineState.t;
    internal_ : duration;
  }.

Definition new (code : PyCodeObject) (n_lines : nat) (starting_line : Z)
    : t :=
    {| starting_line_ := starting_line;
       current_line_ := 0;
       function_key_ := code;
       lines_ := replicate n_lines LineState.zero;
       internal_ := 0 |}.

Definition key (f : t) : PyCodeObject := function_key_ f.

  (** [for (auto&& line : lines_) { result += internal; result += external }] *)
Definition total_time (f : t) : duration :=
    foldl (λ result line,
             result + LineState.internal line + LineState.external line)
          0 (lines_ f).

  (** The index [current_line_-starting_line_-1], computed in [size_t]. *)
Definition current_index (f : t) : Z :=
    to_size_t (current_line_ f - starting_line_ f - 1).

  (** [current_line()]: a reference into [lines_], or [out_of_range]. *)
Definition current_line (f : t) : result LineState.t :=
    vector_at (lines_ f) (current_index f).

  (** Writing through the reference [current_line()] returned. *)
Definition update_current_line (g : LineState.t → LineState.t) (f : t)
    : result t :=
    line ← current_line f;
    Ok {| starting_line_ := starting_line_ f;
          current_line_ := current_line_ f;
          function_key_ := function_key_ f;
          lines_ := <[Z.to_nat (current_index f) := g line]> (lines_ f);
          internal_ := internal_ f |}.

Definition set_current_line (current_line : Z) (f : t) : t :=
    {| starting_line_ := starting_line_ f;
       current_line_ := current_line;
       function_key_ := function_key_ f;
       lines_ := lines_ f;
       internal_ := internal_ f |}.

Definition add_internal (dur : duration) (f : t) : t :=
    {| starting_line_ := starting_line_ f;
       current_line_ := current_line_ f;
       function_key_ := function_key_ f;
       lines_ := lines_ f;
       internal_ := internal_ f + dur |}.

Definition internal (f : t) : duration := internal_ f.
Definition lines (f : t) : list LineState.t := lines_ f.
End FrameState.


(** ** class Module

    The members [functions_], [c_functions_], [frame_stack_],
    [last_instruction_], the two time stamps and [last_c_name_], together
    with the process state its methods act on: [std::cout] and the two
    hooks [PyEval_SetProfile] and [PyEval_SetTrace] install. *)
Record Module_ := mkModule {
  functions_ : gmap N Function.t;
  c_functions_ : gmap string BaseFunction.t;
  frame_stack_ : list FrameState.t;
  last_instruction_ : Instruction;
  last_instruction_start_ : time_point;
  last_instruction_end_ : time_point;
  last_c_name_ : string;
  cout : list cout_item;
  c_profilefunc : bool;
  c_tracefunc : bool;
}.

Definition set_functions_ (v : gmap N Function.t) (s : Module_) : Module_ :=
  mkModule v (c_functions_ s) (frame_stack_ s) (last_instruction_ s)
    (last_instruction_start_ s) (last_instruction_end_ s) (last_c_name_ s)
    (cout s) (c_profilefunc s) (c_tracefunc s).

Definition set_c_functions_ (v : gmap string BaseFunction.t) (s : Module_)
  : Module_ :=
  mkModule (functions_ s) v (frame_stack_ s) (last_instruction_ s)
    (last_instruction_start_ s) (last_instruction_end_ s) (last_c_name_ s)
    (cout s) (c_profilefunc s) (c_tracefunc s).

Definition set_frame_stack_ (v : list FrameState.t) (s : Module_) : Module_ :=
  mkModule (functions_ s) (c_functions_ s) v (last_instruction_ s)
    (last_instruction_start_ s) (last_instruction_end_ s) (last_c_name_ s)
    (cout s) (c_profilefunc s) (c_tracefunc s).

Definition set_last_instruction_ (v : Instruction) (s : Module_) : Module_ :=
  mkModule (functions_ s) (c_functions_ s) (frame_stack_ s) v
    (last_instruction_start_ s) (last_instruction_end_ s) (last_c_name_ s)
    (cout s) (c_profilefunc s) (c_tracefunc s).

Definition set_last_instruction_start_ (v : time_point) (s : Module_)
  : Module_ :=
  mkModule (functions_ s) (c_functions_ s) (frame_stack_ s)
    (last_instruction_ s) v (last_instruction_end_ s) (last_c_name_ s)
    (cout s) (c_profilefunc s) (c_tracefunc s).

Definition set_last_instruction_end_ (v : time_point) (s : Module_)
  : Module_ :=
  mkModule (functions_ s) (c_functions_ s) (frame_stack_ s)
    (last_instruction_ s) (last_instruction_start_ s) v (last_c_name_ s)
    (cout s) (c_profilefunc s) (c_tracefunc s).

Definition set_last_c_name_ (v : string) (s : Module_) : Module_ :=
  mkModule (functions_ s) (c_functions_ s) (frame_stack_ s)
    (last_instruction_ s) (last_instruction_start_ s)
    (last_instruction_end_ s) v (cout s) (c_profilefunc s) (c_tracefunc s).

(** [std::cout << ...] *)
Definition write_cout (out : list cout_item) (s : Module_) : Module_ :=
  mkModule (functions_ s) (c_functions_ s) (frame_stack_ s)
    (last_instruction_ s) (last_instruction_start_ s)
    (last_instruction_end_ s) (last_c_name_ s) (cout s ++ out)
    (c_profilefunc s) (c_tracefunc s).

(** [PyEval_SetProfile] and [PyEval_SetTrace] *)
Definition set_hooks (profilefunc tracefunc : bool) (s : Module_) : Module_ :=
  mkModule (functions_ s) (c_functions_ s) (frame_stack_ s)
    (last_instruction_ s) (last_instruction_start_ s)
    (last_instruction_end_ s) (last_c_name_ s) (cout s)
    profilefunc tracefunc.

(** The object [module_exec] constructs, in a process that has written
    nothing and has no hook installed. *)
Definition Module_new : Module_ :=
  {| functions_ := ∅; c_functions_ := ∅; frame_stack_ := [];
     last_instruction_ := kInvalid;
     last_instruction_start_ := 0; last_instruction_end_ := 0;
     last_c_name_ := ""; cout := [];
     c_profilefunc := false; c_tracefunc := false |}.

Definition elapsed (s : Module_) : duration :=
  last_instruction_end_ s - last_instruction_start_ s.

(** The loop of [pop_frame]: [i] is declared before the loop and the body
    never changes it. *)
Fixpoint pop_frame_loop (i : Z) (lines : list LineState.t)
    (function : Function.t) : result Function.t :=
  match lines with
  | [] => Ok function
  | line :: lines =>
      function ← Function.add_elapsed i (LineState.external line) function;
      function ←
        Function.add_elapsed_internal i (LineState.internal line) function;
      pop_frame_loop i lines function
  end.

Definition pop_frame (s : Module_) : result Module_ :=
  match frame_stack_ s with
  | [] => Throw empty_stack_top
  | frame :: rest =>
      function ← map_at (functions_ s) (FrameState.key frame);
      let '(function, out) :=
        Function.base_add_elapsed_internal (FrameState.internal frame)
          function in
      let s := write_cout out s in
      let i := 0 in
      function ← pop_frame_loop i (FrameState.lines frame) function;
      let s :=
        set_functions_ (<[FrameState.key frame := function]> (functions_ s))
          s in
      let total := FrameState.total_time frame in
      match rest with
      | [] => Ok (set_frame_stack_ [] s)
      | top :: rest' =>
          top ←
            FrameState.update_current_line (LineState.add_external total) top;
          Ok (set_frame_stack_ (top :: rest') s)
      end
  end.

Definition add_c_function (name : string) (s : Module_) : Module_ :=
  set_c_functions_
    (map_emplace name (BaseFunction.new name) (c_functions_ s)) s.

Definition finish_origin (frame : PyFrameObject) (s : Module_) : Module_ := s.

Definition finish_call (frame : PyFrameObject) (s : Module_)
  : result Module_ :=
  function ← map_at (functions_ s) (f_code frame);
  let '(function, out) :=
    Function.base_add_elapsed_internal (elapsed s) function in
  Ok (write_cout out
        (set_functions_ (<[f_code frame := function]> (functions_ s)) s)).

Definition profile_line (frame : PyFrameObject) (s : Module_) : Module_ :=
  let s := set_last_instruction_ kLine s in
  match frame_stack_ s with
  | [] => s
  | top :: rest =>
      let line_number := f_lineno frame in
      set_frame_stack_
        (FrameState.set_current_line (to_size_t line_number) top :: rest) s
  end.

Definition finish_ccall (frame : PyFrameObject) (s : Module_)
  : result Module_ :=
  function ← map_at (c_functions_ s) (last_c_name_ s);
  let '(function, out) :=
    BaseFunction.add_elapsed_internal (elapsed s) function in
  let s :=
    write_cout out
      (set_c_functions_ (<[last_c_name_ s := function]> (c_functions_ s)) s) in
  match frame_stack_ s with
  | [] => Throw empty_stack_top
  | top :: rest =>
      top ←
        FrameState.update_current_line (LineState.add_external (elapsed s))
          top;
      Ok (set_frame_stack_ (top :: rest) s)
  end.

Definition finish_line (frame : PyFrameObject) (s : Module_)
  : result Module_ :=
  match frame_stack_ s with
  | [] => Ok s
  | top :: rest =>
      top ←
        FrameState.update_current_line (LineState.add_internal (elapsed s))
          top;
      Ok (set_frame_stack_ (top :: rest) s)
  end.

Definition profile_return (frame : PyFrameObject) (s : Module_) : Module_ :=
  set_last_instruction_ kReturn s.

Definition finish_return (frame : PyFrameObject) (s : Module_)
  : result Module_ :=
  match frame_stack_ s with
  | [] => Throw empty_stack_top
  | top :: rest =>
      pop_frame
        (set_frame_stack_ (FrameState.add_internal (elapsed s) top :: rest) s)
  end.

Definition profile_c_return (frame : PyFrameObject) (s : Module_) : Module_ :=
  set_last_instruction_ kCReturn s.

Definition finish_creturn (frame : PyFrameObject) (s : Module_)
  : result Module_ :=
  match frame_stack_ s with
  | [] => Throw empty_stack_top
  | top :: rest =>
      Ok (set_frame_stack_ (FrameState.add_internal (elapsed s) top :: rest) s)
  end.

Definition start (s : Module_) : Module_ :=
  set_hooks true true (set_last_instruction_ kOrigin s).

Definition stop (s : Module_) : Module_ :=
  set_hooks false false s.

(** The first [switch] of [profile], on [last_instruction_]. *)
Definition profile_finish (frame : PyFrameObject) (s : Module_)
  : result Module_ :=
  match last_instruction_ s with
  | kOrigin => Ok (finish_origin frame s)
  | kLine => finish_line frame s
  | kCall => finish_call frame s
  | kReturn => finish_return frame s
  | kException => Ok s
  | kCCall => finish_ccall frame s
  | kCReturn => finish_creturn frame s
  | kCException => Ok s
  | kInvalid => Ok s
  end.

(** The body of one line of the report [dump] writes, for each index of
    [indices] in turn. *)
Fixpoint dump_lines (function : Function.t) (indices : list nat)
  : result (list cout_item) :=
  match indices with
  | [] => Ok []
  | i :: indices =>
      external ← vector_at (Function.line_time function) (Z.of_nat i);
      internal ←
        vector_at (Function.line_time_internal function) (Z.of_nat i);
      line ← vector_at (Function.lines function) (Z.of_nat i);
      let total := external + internal in
      out ← dump_lines function indices;
      Ok ([cout_seconds total; cout_char "("%char; cout_seconds internal;
           cout_char "/"%char; cout_seconds external; cout_char ")"%char;
           cout_string ": "; cout_string line] ++ out)
  end.

Definition dump_function (function : Function.t) : result (list cout_item) :=
  out ←
    dump_lines function (seq 0 (length (Function.lines function)));
  Ok ([cout_string "Name: "; cout_string (Function.name function);
       cout_string ", "; cout_seconds (Function.overhead function);
       cout_endl] ++ out).

Fixpoint dump_functions (functions : list (N * Function.t))
  : result (list cout_item) :=
  match functions with
  | [] => Ok []
  | entry :: functions =>
      out ← dump_function (snd entry);
      rest ← dump_functions functions;
      Ok (out ++ rest)
  end.

Definition dump_c_function (function : BaseFunction.t) : list cout_item :=
  [cout_string "Name: "; cout_string (BaseFunction.name function);
   cout_string ", "; cout_seconds (BaseFunction.overhead function);
   cout_endl].

(** [dump]: the maps are visited in their iteration order, which C++
    leaves unspecified and [map_to_list] fixes here. *)
Definition dump (path : string) (s : Module_) : result (Module_ * Z) :=
  out ← dump_functions (map_to_list (functions_ s));
  let out_c :=
    concat (map (λ entry, dump_c_function (snd entry))
              (map_to_list (c_functions_ s))) in
  Ok (write_cout (out ++ out_c) s, 0).

(** *** The methods that read the Python runtime

    [inspect_getsourcelines py code] is what [inspect.getsourcelines(code)]
    returns: the source lines and the number of the first one;
    [co_name py code] is the text of [code->co_name]; [PyObject_Str py arg]
    is the text of [str(arg)]. *)
Record PyRuntime := mkPyRuntime {
  inspect_getsourcelines : N → list string * Z;
  co_name : N → string;
  PyObject_Str : N → string;
}.

Definition PyFrame_GetName (py : PyRuntime) (frame : PyFrameObject) : string :=
  co_name py (f_code frame).

(** [get_lines]: the loop starts at [i=1], so the first line is not
    copied. The second component is what is stored through [line_start]. *)
Definition get_lines (py : PyRuntime) (frame : PyFrameObject)
  : list string * Z :=
  let code := f_code frame in
  let result := inspect_getsourcelines py code in
  let lines_py := fst result in
  let line_start := PyLong_AsUnsignedLongLong (snd result) in
  (drop 1 lines_py, line_start).

Definition emplace_frame (py : PyRuntime) (frame : PyFrameObject)
    (s : Module_) : Module_ :=
  let '(lines, starting_line) := get_lines py frame in
  set_frame_stack_
    (FrameState.new (f_code frame) (length lines) starting_line
       :: frame_stack_ s) s.

Definition add_function (py : PyRuntime) (frame : PyFrameObject)
    (s : Module_) : Module_ :=
  let code := f_code frame in
  match functions_ s !! code with
  | Some _ => s
  | None =>
      let lines := fst (get_lines py frame) in
      set_functions_
        (map_emplace code
           (Function.new (PyFrame_GetName py frame) lines code)
           (functions_ s)) s
  end.

Definition profile_call (py : PyRuntime) (frame : PyFrameObject)
    (s : Module_) : Module_ :=
  let s := add_function py frame s in
  let s := emplace_frame py frame s in
  set_last_instruction_ kCall s.

Definition profile_c_call (py : PyRuntime) (frame : PyFrameObject) (arg : N)
    (s : Module_) : Module_ :=
  let s := set_last_c_name_ (PyObject_Str py arg) s in
  let s := add_c_function (last_c_name_ s) s in
  set_last_instruction_ kCCall s.

(** The second [switch] of [profile], on [what]. *)
Definition profile_begin (py : PyRuntime) (what : PyTrace)
    (frame : PyFrameObject) (arg : N) (s : Module_) : result Module_ :=
  match what with
  | PyTrace_LINE => Ok (profile_line frame s)
  | PyTrace_CALL => Ok (profile_call py frame s)
  | PyTrace_RETURN => Ok (profile_return frame s)
  | PyTrace_C_CALL => Ok (profile_c_call py frame arg s)
  | PyTrace_C_RETURN => Ok (profile_c_return frame s)
  | PyTrace_EXCEPTION => Ok s
  | PyTrace_C_EXCEPTION => Ok (profile_c_return frame s)
  | PyTrace_OPCODE => Ok s
  | PyTrace_other _ => Throw runtime_error
  end.

(** [profile]: [now0] and [now1] are the two readings of [clock::now()]. *)
Definition profile (py : PyRuntime) (now0 now1 : time_point) (what : PyTrace)
    (frame : PyFrameObject) (arg : N) (s : Module_) : result Module_ :=
  let s := set_last_instruction_end_ now0 s in
  s ← profile_finish frame s;
  s ← profile_begin py what frame arg s;
  Ok (set_last_instruction_start_ now1 s).

Definition profile_func (py : PyRuntime) (now0 now1 : time_point)
    (frame : PyFrameObject) (what : PyTrace) (arg : N) (s : Module_)
  : result Module_ :=
  profile py now0 now1 what frame arg s.

(** [trace_func]: only line events go on to [profile_func]. *)
Definition trace_func (py : PyRuntime) (now0 now1 : time_point)
    (frame : PyFrameObject) (what : PyTrace) (arg : N) (s : Module_)
  : result Module_ :=
  match what with
  | PyTrace_LINE => profile_func py now0 now1 frame what arg s
  | _ => Ok s
  end.

(** *** Event streams

    One delivery to [profile]: the two clock readings, [what], the frame
    and the argument. *)
Record Event := mkEvent {
  ev_now0 : time_point;
  ev_now1 : time_point;
  ev_what : PyTrace;
  ev_frame : PyFrameObject;
  ev_arg : N;
}.

Definition dispatch (py : PyRuntime) (e : Event) (s : Module_)
  : result Module_ :=
  profile py (ev_now0 e) (ev_now1 e) (ev_what e) (ev_frame e) (ev_arg e) s.

Fixpoint run (py : PyRuntime) (events : list Event) (s : Module_)
  : result Module_ :=
  match events with
  | [] => Ok s
  | e :: events => s ← dispatch py e s; run py events s
  end.

(** ** Notions the properties are stated with *)

(** What one invocation holds in its line accumulators. *)
Definition sum_internal (lines : list LineState.t) : duration :=
  foldr (λ line acc, LineState.internal line + acc) 0 lines.

Definition sum_external (lines : list LineState.t) : duration :=
  foldr (λ line acc, LineState.external line + acc) 0 lines.

(** The record store and the stack agree with the source metadata: every
    array has one cell per captured line, the captured lines being the
    source lines without the first. *)
Definition captured_lines (py : PyRuntime) (code : N) : list string :=
  drop 1 (fst (inspect_getsourcelines py code)).

Definition record_aligned (py : PyRuntime) (code : N) (f : Function.t)
  : Prop :=
  Function.lines_ f = captured_lines py code
  ∧ length (Function.line_time_ f) = length (captured_lines py code)
  ∧ length (Function.line_time_internal_ f)
    = length (captured_lines py code).

Definition frame_aligned (py : PyRuntime) (frame : FrameState.t) : Prop :=
  length (FrameState.lines_ frame)
  = length (captured_lines py (FrameState.key frame)).

Definition lines_aligned (py : PyRuntime) (s : Module_) : Prop :=
  (∀ code f, functions_ s !! code = Some f → record_aligned py code f)
  ∧ Forall (frame_aligned py) (frame_stack_ s).

(** Every invocation on the stack has its record in [functions_]. *)
Definition frames_registered (s : Module_) : Prop :=
  Forall (λ frame, is_Some (functions_ s !! FrameState.key frame))
    (frame_stack_ s).

(** Call/return nesting of a stream of event kinds: the number of calls
    not yet returned from, or [None] when a return has no call. *)
Definition nesting_step (depth : nat) (what : PyTrace) : option nat :=
  match what with
  | PyTrace_CALL => Some (S depth)
  | PyTrace_RETURN =>
      match depth with
      | O => None
      | S depth' => Some depth'
      end
  | _ => Some depth
  end.

Fixpoint nesting (depth : nat) (whats : list PyTrace) : option nat :=
  match whats with
  | [] => Some depth
  | what :: whats =>
      match nesting_step depth what with
      | Some depth' => nesting depth' whats
      | None => None
      end
  end.

(** The kinds whose begin rule assigns [last_instruction_]. *)
Definition records_kind (what : PyTrace) : bool :=
  match what with
  | PyTrace_LINE | PyTrace_CALL | PyTrace_RETURN
  | PyTrace_C_CALL | PyTrace_C_RETURN | PyTrace_C_EXCEPTION => true
  | _ => false
  end.

(** A return whose frame is still on the stack: popped by the next
    dispatch. *)
Definition pending_pop (s : Module_) : nat :=
  match last_instruction_ s with
  | kReturn => 1
  | _ => 0
  end.

Definition depth (s : Module_) : nat := length (frame_stack_ s).

(** Reading the accumulators. *)
Definition record_overhead (s : Module_) (code : N) : option duration :=
  Function.overhead <$> functions_ s !! code.


Definition line_of (frame : FrameState.t) (i : nat) : option LineState.t :=
  FrameState.lines_ frame !! i.

(** The line of [frame] that [current_line()] selects, as a position. *)
Definition current_pos (frame : FrameState.t) : nat :=
  Z.to_nat (FrameState.current_index frame).

Definition has_current_line (frame : FrameState.t) : Prop :=
  is_Some (line_of frame (current_pos frame)).

(** ** A small program to run the engine on

    [main] (code object 1, source at line 10) calls [helper] (code object
    2, source at line 20); objects 100 and 101 are two native callables
    that print alike, 102 prints differently. *)
Definition ms : duration := 1000000.

Definition demo_sourcelines (code : N) : list string * Z :=
  match code with
  | 1%N => (["def main():"; "    setup()"; "    helper()"; "    return 0"], 10)
  | 2%N => (["def helper():"; "    x = len(data)"; "    return x"], 20)
  | _ => ([], 0)
  end.

Definition demo_co_name (code : N) : string :=
  match code with
  | 1%N => "main"
  | 2%N => "helper"
  | _ => "<module>"
  end.

Definition demo_str (arg : N) : string :=
  match arg with
  | 102%N => "<built-in function abs>"
  | _ => "<built-in function len>"
  end.

Definition demo_py : PyRuntime :=
  mkPyRuntime demo_sourcelines demo_co_name demo_str.

(** An event whose two clock readings coincide. *)
Definition at_time (now : time_point) (what : PyTrace) (code : N)
    (lineno : Z) (arg : N) : Event :=
  mkEvent now now what {| f_code := code; f_lineno := lineno |} arg.

(** [main] has been entered and is at its line 12. *)
Definition demo_in_main : result Module_ :=
  run demo_py
    [at_time 0 PyTrace_CALL 1 10 0; at_time (1 * ms) PyTrace_LINE 1 12 0]
    (start Module_new).

(** The states the engine can be in: constructed by [module_exec], then
    any interleaving of [start], [stop], [dump] and delivered events. *)
Inductive reachable (py : PyRuntime) : Module_ → Prop :=
  | reachable_new : reachable py Module_new
  | reachable_start s : reachable py s → reachable py (start s)
  | reachable_stop s : reachable py s → reachable py (stop s)
  | reachable_dump path s s' status :
      reachable py s → dump path s = Ok (s', status) → reachable py s'
  | reachable_dispatch e s s' :
      reachable py s → dispatch py e s = Ok s' → reachable py s'.

(** The state a successful run ends in. *)
Definition state_of (r : result Module_) : Module_ :=
  match r with
  | Ok s => s
  | Throw _ => Module_new
  end.

(** [main] is called, runs its line 11 and returns. *)
Definition demo_call_return : list Event :=
  [at_time 0 PyTrace_CALL 1 10 0;
   at_time (1 * ms) PyTrace_LINE 1 11 0;
   at_time (2 * ms) PyTrace_RETURN 1 11 0].

(** [helper] is entered and calls a native routine before any of its
    lines has been reported. *)
Definition demo_foreign_call_first : list Event :=
  [at_time 0 PyTrace_CALL 2 20 0;
   at_time (1 * ms) PyTrace_C_CALL 2 20 100;
   at_time (4 * ms) PyTrace_C_RETURN 2 20 100].

(** [helper] is entered, spends 1ms on its line 21 and 3ms on its line 22,
    and returns. *)
Definition demo_two_lines : list Event :=
  [at_time 0 PyTrace_CALL 2 20 0;
   at_time (1 * ms) PyTrace_LINE 2 21 0;
   at_time (2 * ms) PyTrace_LINE 2 22 0;
   at_time (5 * ms) PyTrace_RETURN 2 22 0].

(** The arrays [dump] reads side by side have the same size. *)
Definition arrays_sized (s : Module_) : Prop :=
  ∀ code f,
    functions_ s !! code = Some f →
    length (Function.line_time_ f) = length (Function.lines_ f)
    ∧ length (Function.line_time_internal_ f) = length (Function.lines_ f).

(** Every record of [s] is still in [s'], under its key and its name. *)
Definition store_kept (s s' : Module_) : Prop :=
  (∀ code f,
     functions_ s !! code = Some f →
     ∃ f', functions_ s' !! code = Some f'
           ∧ Function.name f' = Function.name f
           ∧ Function.lines f' = Function.lines f)
  ∧ (∀ name f,
       c_functions_ s !! name = Some f →
       ∃ f', c_functions_ s' !! name = Some f'
             ∧ BaseFunction.name f' = BaseFunction.name f).

(** From [demo_in_main], whose last dispatch read the clock at 1ms:
    [helper] is called 10ms later, reports its line 22 after 5ms more and
    returns 2ms after that. *)
Definition demo_call_helper : list Event :=
  [at_time (11 * ms) PyTrace_CALL 2 20 0;
   at_time (16 * ms) PyTrace_LINE 2 22 0;
   at_time (18 * ms) PyTrace_RETURN 2 22 0].

(** [main] has just been entered. *)
Definition demo_entered_main : result Module_ :=
  run demo_py [at_time 0 PyTrace_CALL 1 10 0] (start Module_new).

(** In [main] at line 12, a native call has just been dispatched, at 2ms. *)
Definition demo_in_foreign_call : result Module_ :=
  profile demo_py (2 * ms) (2 * ms) PyTrace_C_CALL
    {| f_code := 1%N; f_lineno := 12 |} 100 (state_of demo_in_main).

(** In [main] at line 12, a native routine has just raised, at 2ms. *)
Definition demo_in_foreign_exception : result Module_ :=
  profile demo_py (2 * ms) (2 * ms) PyTrace_C_EXCEPTION
    {| f_code := 1%N; f_lineno := 12 |} 100 (state_of demo_in_main).

(** The invocation of [main] in [demo_in_main]. *)
Definition demo_main_frame : FrameState.t :=
  FrameState.mk 10 12 1%N [LineState.zero; LineState.zero; LineState.zero] 0.

Definition demo_frame_main_12 : PyFrameObject :=
  {| f_code := 1%N; f_lineno := 12 |}.

Definition demo_main_state : Module_ := state_of demo_in_main.
Definition demo_foreign_state : Module_ := state_of demo_in_foreign_call.
Definition demo_raised_state : Module_ := state_of demo_in_foreign_exception.
Definition demo_returned_state : Module_ :=
  state_of (run demo_py demo_call_return (start Module_new)).

Definition demo_entered_state : Module_ := state_of demo_entered_main.

(** The invocation of [main] once the 1ms spent on line 12 is booked. *)
Definition demo_main_frame_1ms : FrameState.t :=
  FrameState.mk 10 12 1%N
    [LineState.zero; LineState.mk (1 * ms) 0; LineState.zero] 0.

(** ** Further notions *)

(** The kind [profile] leaves in [last_instruction_], by [what] and the
    kind recorded before; [None] where [profile] throws. *)
Definition recorded_kind (what : PyTrace) (previous : Instruction)
  : option Instruction :=
  match what with
  | PyTrace_LINE => Some kLine
  | PyTrace_CALL => Some kCall
  | PyTrace_RETURN => Some kReturn
  | PyTrace_C_CALL => Some kCCall
  | PyTrace_C_RETURN | PyTrace_C_EXCEPTION => Some kCReturn
  | PyTrace_EXCEPTION | PyTrace_OPCODE => Some previous
  | PyTrace_other _ => None
  end.

(** Events of one kind only. *)
Definition all_of_kind (what : PyTrace) (events : list Event) : Prop :=
  Forall (λ e, ev_what e = what) events.

(** Every record is filed under its own identity: an interpreted record
    under the code object it was built for, with that code object's name;
    a foreign record under its name. *)
Definition records_filed (py : PyRuntime) (s : Module_) : Prop :=
  (∀ code f,
     functions_ s !! code = Some f →
     Function.code f = code ∧ Function.name f = co_name py code)
  ∧ (∀ name b,
       c_functions_ s !! name = Some b → BaseFunction.name b = name).

(** The code objects of the invocations on the stack, top first. *)
Definition stack_keys (s : Module_) : list N :=
  FrameState.key <$> frame_stack_ s.

(** All the time a record holds, and all the time an invocation holds. *)
Definition sum_durations (l : list duration) : duration := foldr Z.add 0 l.

Definition record_total (f : Function.t) : duration :=
  Function.overhead f + sum_durations (Function.line_time f)
  + sum_durations (Function.line_time_internal f).

Definition invocation_total (frame : FrameState.t) : duration :=
  FrameState.internal frame + FrameState.total_time frame.






(** The recorded kinds whose finish rule updates an overhead through
    [BaseFunction::add_elapsed_internal], which prints. *)
Definition finish_rule_prints (kind : Instruction) : bool :=
  match kind with
  | kCall | kCCall | kReturn => true
  | _ => false
  end.

(** More of the small program: [helper] with 1ms and 3ms on its two
    lines, before its return is folded; the report written in
    [demo_main_state]; two line events of the code that called [start()]. *)
Definition demo_helper_state : Module_ :=
  state_of (run demo_py demo_two_lines (start Module_new)).

Definition demo_helper_frame : FrameState.t :=
  FrameState.mk 20 22 2%N [LineState.mk (1 * ms) 0; LineState.mk (3 * ms) 0] 0.

Definition demo_helper_record : Function.t :=
  Function.mk (BaseFunction.mk "helper" (1 * ms)) 2%N
    ["    x = len(data)"; "    return x"] [0; 0] [0; 0].

Definition demo_dumped : Module_ * Z :=
  match dump "report.txt" demo_main_state with
  | Ok r => r
  | Throw _ => (Module_new, -1)
  end.

Definition demo_top_level_lines : list Event :=
  [at_time (1 * ms) PyTrace_LINE 1 12 0; at_time (2 * ms) PyTrace_LINE 1 13 0].

(** ** What two stores hold together *)

(** A record with every accumulator at zero, and the engine with every
    record so: the same records, lines, stack and stamps, nothing counted. *)
Definition cleared_record (f : Function.t) : Function.t :=
  Function.mk (BaseFunction.mk (Function.name f) 0) (Function.code_ f)
    (Function.lines_ f)
    (replicate (length (Function.line_time_ f)) 0)
    (replicate (length (Function.line_time_internal_ f)) 0).

Definition cleared_c_record (b : BaseFunction.t) : BaseFunction.t :=
  BaseFunction.mk (BaseFunction.name b) 0.

Definition cleared (s : Module_) : Module_ :=
  set_c_functions_ (cleared_c_record <$> c_functions_ s)
    (set_functions_ (cleared_record <$> functions_ s) s).

(** [f] is the record [f0] with what [ft] holds added to it: the same
    name, code object and lines, and every accumulator of [f] the sum of
    the two, cell by cell. *)
Definition record_sum (f0 ft f : Function.t) : Prop :=
  Function.name f = Function.name f0
  ∧ Function.name ft = Function.name f0
  ∧ Function.code f = Function.code f0
  ∧ Function.code ft = Function.code f0
  ∧ Function.lines f = Function.lines f0
  ∧ Function.lines ft = Function.lines f0
  ∧ Function.overhead f = Function.overhead f0 + Function.overhead ft
  ∧ length (Function.line_time ft) = length (Function.line_time f0)
  ∧ Function.line_time f
    = zip_with Z.add (Function.line_time f0) (Function.line_time ft)
  ∧ length (Function.line_time_internal ft)
    = length (Function.line_time_internal f0)
  ∧ Function.line_time_internal f
    = zip_with Z.add (Function.line_time_internal f0)
        (Function.line_time_internal ft).

Definition c_record_sum (b0 bt b : BaseFunction.t) : Prop :=
  BaseFunction.name b = BaseFunction.name b0
  ∧ BaseFunction.name bt = BaseFunction.name b0
  ∧ BaseFunction.overhead b
    = BaseFunction.overhead b0 + BaseFunction.overhead bt.

(** The store of [s] is the store of [s0] with the store of [t] added:
    a record of [s0] is in [t] and in [s], and [s] holds the sum; a record
    that is not in [s0] is the same in [t] and in [s], or in neither. *)
Definition store_sum (s0 t s : Module_) : Prop :=
  (∀ code,
     match functions_ s0 !! code with
     | Some f0 =>
         ∃ ft f, functions_ t !! code = Some ft
                 ∧ functions_ s !! code = Some f
                 ∧ record_sum f0 ft f
     | None => functions_ s !! code = functions_ t !! code
     end)
  ∧ (∀ name,
       match c_functions_ s0 !! name with
       | Some b0 =>
           ∃ bt b, c_functions_ t !! name = Some bt
                   ∧ c_functions_ s !! name = Some b
                   ∧ c_record_sum b0 bt b
       | None => c_functions_ s !! name = c_functions_ t !! name
       end).

(** The same for one record, [o0] being what the first store has for it. *)
Definition record_added (o0 : option Function.t) (ft f : Function.t)
  : Prop :=
  match o0 with
  | Some f0 => record_sum f0 ft f
  | None => f = ft
  end.

Definition c_record_added (o0 : option BaseFunction.t)
    (bt b : BaseFunction.t) : Prop :=
  match o0 with
  | Some b0 => c_record_sum b0 bt b
  | None => b = bt
  end.

(** Two engines with the same stack, recorded kind, stamps and pending
    foreign name. *)
Definition same_control (s t : Module_) : Prop :=
  frame_stack_ s = frame_stack_ t
  ∧ last_instruction_ s = last_instruction_ t
  ∧ last_instruction_start_ s = last_instruction_start_ t
  ∧ last_instruction_end_ s = last_instruction_end_ t
  ∧ last_c_name_ s = last_c_name_ t.

Ltac same_control_tac :=
  unfold same_control in *; cbn in *; destruct_and?; split_and!; congruence.

(** In [demo_main_state], where [main] has 1ms of overhead: after a
    restart [main] is called again at 11ms and reports its line 11 at
    13ms. *)
Definition demo_after_restart : list Event :=
  [at_time (11 * ms) PyTrace_CALL 1 10 0;
   at_time (13 * ms) PyTrace_LINE 1 11 0].

Definition demo_main_record : Function.t :=
  Function.mk (BaseFunction.mk "main" (1 * ms)) 1%N
    ["    setup()"; "    helper()"; "    return 0"] [0; 0; 0] [0; 0; 0].

Definition demo_restarted_state : Module_ :=
  state_of (run demo_py demo_after_restart (start (stop demo_main_state))).

Definition demo_restarted_cleared_state : Module_ :=
  state_of
    (run demo_py demo_after_restart (start (stop (cleared demo_main_state)))).

(** ** How much the accumulators hold *)









(** ** Vectors, maps and the result monad *)

Lemma bind_Ok {A B} (f : A → result B) (a : A) : (Ok a ≫= f) = f a.
Proof. reflexivity. Qed.

Lemma bind_Ok_inv {A B} (f : A → result B) (r : result A) (b : B) :
  (r ≫= f) = Ok b → ∃ a, r = Ok a ∧ f a = Ok b.
Proof. destruct r as [a|e]; [eauto | discriminate]. Qed.

Lemma vector_at_lookup {A} (v : list A) (i : Z) (x : A) :
  0 ≤ i → v !! Z.to_nat i = Some x → vector_at v i = Ok x.
Proof.
  intros Hi Hx. unfold vector_at.
  apply lookup_lt_Some in Hx as Hlt.
  destruct (decide _) as [_|Hn]; [by rewrite Hx | lia].
Qed.

Lemma vector_at_Ok {A} (v : list A) (i : Z) (x : A) :
  vector_at v i = Ok x → 0 ≤ i ∧ v !! Z.to_nat i = Some x.
Proof.
  unfold vector_at. destruct (decide _) as [[H0 _]|]; [|discriminate].
  destruct (v !! Z.to_nat i); [|discriminate].
  intros [= ->]. done.
Qed.

Lemma vector_at_ge {A} (v : list A) (i : Z) :
  Z.of_nat (length v) ≤ i → vector_at v i = Throw out_of_range.
Proof. intros Hi. unfold vector_at. destruct (decide _); [lia | done]. Qed.

Lemma map_at_lookup `{Countable K} {V} (m : gmap K V) (k : K) (x : V) :
  m !! k = Some x → map_at m k = Ok x.
Proof. intros Hx. unfold map_at. by rewrite Hx. Qed.

Lemma map_at_Ok `{Countable K} {V} (m : gmap K V) (k : K) (x : V) :
  map_at m k = Ok x → m !! k = Some x.
Proof. unfold map_at. destruct (m !! k); [by intros [= ->] | discriminate]. Qed.

Lemma map_emplace_taken `{Countable K} {V} (m : gmap K V) (k : K) (v : V) :
  is_Some (m !! k) → map_emplace k v m = m.
Proof. intros [x Hx]. unfold map_emplace. by rewrite Hx. Qed.

Lemma map_emplace_is_Some `{Countable K} {V} (m : gmap K V) (k : K) (v : V) :
  is_Some (map_emplace k v m !! k).
Proof.
  unfold map_emplace. destruct (m !! k) eqn:Hk; [by rewrite Hk|].
  rewrite lookup_insert_eq. eauto.
Qed.

Lemma map_emplace_other `{Countable K} {V} (m : gmap K V) (k k' : K) (v : V) :
  k ≠ k' → map_emplace k v m !! k' = m !! k'.
Proof.
  intros Hne. unfold map_emplace. destruct (m !! k); [done|].
  by rewrite lookup_insert_ne.
Qed.

Lemma to_size_t_range (z : Z) : 0 ≤ to_size_t z < size_t_modulus.
Proof. unfold to_size_t, size_t_modulus. apply Z.mod_pos_bound. lia. Qed.

Lemma to_size_t_small (z : Z) : 0 ≤ z < size_t_modulus → to_size_t z = z.
Proof. intros Hz. unfold to_size_t. by apply Z.mod_small. Qed.

(** ** [FrameState]: the current line *)

Lemma current_index_nonneg (f : FrameState.t) : 0 ≤ FrameState.current_index f.
Proof. unfold FrameState.current_index. apply to_size_t_range. Qed.

Lemma update_current_line_Ok (g : LineState.t → LineState.t)
    (f : FrameState.t) (l : LineState.t) :
  FrameState.lines_ f !! Z.to_nat (FrameState.current_index f) = Some l →
  FrameState.update_current_line g f =
    Ok (FrameState.mk (FrameState.starting_line_ f)
          (FrameState.current_line_ f) (FrameState.function_key_ f)
          (<[Z.to_nat (FrameState.current_index f) := g l]>
             (FrameState.lines_ f))
          (FrameState.internal_ f)).
Proof.
  intros Hl. unfold FrameState.update_current_line, FrameState.current_line.
  rewrite (vector_at_lookup _ _ l); [done | apply current_index_nonneg | done].
Qed.

Lemma update_current_line_inv (g : LineState.t → LineState.t)
    (f f' : FrameState.t) :
  FrameState.update_current_line g f = Ok f' →
  ∃ l, FrameState.lines_ f !! Z.to_nat (FrameState.current_index f) = Some l
       ∧ f' = FrameState.mk (FrameState.starting_line_ f)
                (FrameState.current_line_ f) (FrameState.function_key_ f)
                (<[Z.to_nat (FrameState.current_index f) := g l]>
                   (FrameState.lines_ f))
                (FrameState.internal_ f).
Proof.
  unfold FrameState.update_current_line, FrameState.current_line.
  intros (l & Hat & [= <-])%bind_Ok_inv.
  apply vector_at_Ok in Hat as [_ Hl]. eauto.
Qed.

(** Before any line event [current_line_] is [0]: for a callable whose
    lines fit below [2^64] the index wraps around and the lookup fails. *)
Lemma current_line_unset (code : N) (n_lines : nat) (starting_line : Z) :
  0 ≤ starting_line →
  starting_line + Z.of_nat n_lines < size_t_modulus →
  FrameState.current_line (FrameState.new code n_lines starting_line)
  = Throw out_of_range.
Proof.
  intros H0 Hfit. unfold FrameState.current_line. apply vector_at_ge.
  unfold FrameState.current_index. cbn [FrameState.new FrameState.lines_
    FrameState.current_line_ FrameState.starting_line_].
  rewrite length_replicate. unfold to_size_t.
  replace (0 - starting_line - 1)
    with (size_t_modulus - starting_line - 1 + (-1) * size_t_modulus) by lia.
  rewrite Z.mod_add by (unfold size_t_modulus; lia).
  rewrite Z.mod_small; lia.
Qed.

(** ** The fold of [pop_frame] *)

Lemma alter_head_add_0 (l : list Z) : alter (λ t, t + 0) 0%nat l = l.
Proof. destruct l as [|t ts]; [done|]. cbn. f_equal. lia. Qed.

Lemma vector_at_head {A} (x : A) (xs : list A) : vector_at (x :: xs) 0 = Ok x.
Proof. apply vector_at_lookup; [lia | done]. Qed.

(** The loop adds every line of the invocation to cell [0] of the record. *)
Lemma pop_frame_loop_sums (lines : list LineState.t) (f : Function.t) :
  (lines ≠ [] →
   Function.line_time_ f ≠ [] ∧ Function.line_time_internal_ f ≠ []) →
  pop_frame_loop 0 lines f =
    Ok (Function.mk (Function.base f) (Function.code_ f) (Function.lines_ f)
          (alter (λ t, t + sum_external lines) 0%nat (Function.line_time_ f))
          (alter (λ t, t + sum_internal lines) 0%nat
             (Function.line_time_internal_ f))).
Proof.
  revert f. induction lines as [|line lines IH]; intros f Hne.
  - cbn. rewrite !alter_head_add_0. by destruct f.
  - destruct Hne as [Hlt Hlti]; [done|].
    destruct f as [b c ls [|t ts] [|u us]]; cbn in Hlt, Hlti; try done.
    cbn [pop_frame_loop].
    unfold Function.add_elapsed, Function.add_elapsed_internal.
    cbn. rewrite vector_at_head. cbn. rewrite vector_at_head. cbn.
    rewrite IH by (cbn; done).
    change (Z.to_nat 0) with 0%nat. cbn. unfold sum_external, sum_internal.
    do 2 f_equal; f_equal; lia.
Qed.

(** What the loop keeps, whatever [i] and whether or not it succeeds on
    every line. *)
Lemma add_elapsed_inv (i : Z) (time : duration) (f f' : Function.t) :
  Function.add_elapsed i time f = Ok f' →
  Function.base f' = Function.base f ∧ Function.code_ f' = Function.code_ f
  ∧ Function.lines_ f' = Function.lines_ f
  ∧ length (Function.line_time_ f') = length (Function.line_time_ f)
  ∧ Function.line_time_internal_ f' = Function.line_time_internal_ f.
Proof.
  unfold Function.add_elapsed. intros (old & _ & [= <-])%bind_Ok_inv. cbn.
  by rewrite length_insert.
Qed.

Lemma add_elapsed_internal_inv (i : Z) (time : duration) (f f' : Function.t) :
  Function.add_elapsed_internal i time f = Ok f' →
  Function.base f' = Function.base f ∧ Function.code_ f' = Function.code_ f
  ∧ Function.lines_ f' = Function.lines_ f
  ∧ Function.line_time_ f' = Function.line_time_ f
  ∧ length (Function.line_time_internal_ f')
    = length (Function.line_time_internal_ f).
Proof.
  unfold Function.add_elapsed_internal.
  intros (old & _ & [= <-])%bind_Ok_inv. cbn. by rewrite length_insert.
Qed.

Lemma pop_frame_loop_inv (i : Z) (lines : list LineState.t)
    (f f' : Function.t) :
  pop_frame_loop i lines f = Ok f' →
  Function.base f' = Function.base f ∧ Function.code_ f' = Function.code_ f
  ∧ Function.lines_ f' = Function.lines_ f
  ∧ length (Function.line_time_ f') = length (Function.line_time_ f)
  ∧ length (Function.line_time_internal_ f')
    = length (Function.line_time_internal_ f).
Proof.
  revert f. induction lines as [|line lines IH]; intros f; cbn.
  - by intros [= ->].
  - intros (f1 & H1 & (f2 & H2 & Hrec)%bind_Ok_inv)%bind_Ok_inv.
    apply add_elapsed_inv in H1 as (Hb1 & Hc1 & Hl1 & Ht1 & Hi1).
    apply add_elapsed_internal_inv in H2 as (Hb2 & Hc2 & Hl2 & Ht2 & Hi2).
    apply IH in Hrec as (Hb & Hc & Hl & Ht & Hi).
    repeat split; congruence.
Qed.

Lemma base_add_elapsed_internal_fst (time : duration) (f : Function.t) :
  (Function.base_add_elapsed_internal time f).1
  = Function.mk
      (BaseFunction.mk (BaseFunction.name_ (Function.base f))
         (BaseFunction.internal_time_ (Function.base f) + time))
      (Function.code_ f) (Function.lines_ f) (Function.line_time_ f)
      (Function.line_time_internal_ f).
Proof. reflexivity. Qed.

(** ** The steps of [profile], read backwards from a successful result *)

Lemma pop_frame_inv (s s' : Module_) :
  pop_frame s = Ok s' →
  ∃ frame rest function function',
    frame_stack_ s = frame :: rest
    ∧ functions_ s !! FrameState.key frame = Some function
    ∧ pop_frame_loop 0 (FrameState.lines frame)
        (Function.base_add_elapsed_internal (FrameState.internal frame)
           function).1 = Ok function'
    ∧ functions_ s' = <[FrameState.key frame := function']> (functions_ s)
    ∧ c_functions_ s' = c_functions_ s
    ∧ last_instruction_ s' = last_instruction_ s
    ∧ match rest with
      | [] => frame_stack_ s' = []
      | top :: rest' =>
          ∃ top',
            FrameState.update_current_line
              (LineState.add_external (FrameState.total_time frame)) top
            = Ok top'
            ∧ frame_stack_ s' = top' :: rest'
      end.
Proof.
  unfold pop_frame. destruct (frame_stack_ s) as [|frame rest] eqn:Hst;
    [discriminate|].
  intros (function & Hf%map_at_Ok & H)%bind_Ok_inv.
  cbn in H. apply bind_Ok_inv in H as (function' & Hloop & H).
  exists frame, rest, function, function'.
  split; [done|]. split; [done|]. split; [done|].
  destruct rest as [|top rest'].
  - injection H as <-. by cbn.
  - apply bind_Ok_inv in H as (top' & Htop & [= <-]). cbn.
    repeat split; eauto.
Qed.

(** ** The arrays agree with the source metadata *)

Section Aligned.
Context (py : PyRuntime).

Lemma update_current_line_aligned (g : LineState.t → LineState.t)
    (f f' : FrameState.t) :
  FrameState.update_current_line g f = Ok f' →
  frame_aligned py f → frame_aligned py f'.
Proof.
  intros (l & _ & ->)%update_current_line_inv. unfold frame_aligned. cbn.
  by rewrite length_insert.
Qed.

Lemma add_internal_aligned (dur : duration) (f : FrameState.t) :
  frame_aligned py f → frame_aligned py (FrameState.add_internal dur f).
Proof. done. Qed.

Lemma set_current_line_aligned (line : Z) (f : FrameState.t) :
  frame_aligned py f → frame_aligned py (FrameState.set_current_line line f).
Proof. done. Qed.

Lemma new_frame_aligned (frame : PyFrameObject) :
  frame_aligned py
    (FrameState.new (f_code frame) (length (get_lines py frame).1)
       (get_lines py frame).2).
Proof. unfold frame_aligned. cbn. by rewrite length_replicate. Qed.

Lemma new_record_aligned (frame : PyFrameObject) :
  record_aligned py (f_code frame)
    (Function.new (PyFrame_GetName py frame) (get_lines py frame).1
       (f_code frame)).
Proof.
  unfold record_aligned. cbn. by rewrite !length_replicate.
Qed.

Lemma insert_record_aligned (s : Module_) (code : N) (f : Function.t) :
  (∀ code f, functions_ s !! code = Some f → record_aligned py code f) →
  record_aligned py code f →
  ∀ code' f',
    <[code := f]> (functions_ s) !! code' = Some f' →
    record_aligned py code' f'.
Proof.
  intros Hall Hf code' f'. rewrite lookup_insert.
  case_decide as Heq; [intros [= <-]; by subst | apply Hall].
Qed.

Lemma pop_frame_aligned (s s' : Module_) :
  lines_aligned py s → pop_frame s = Ok s' → lines_aligned py s'.
Proof.
  intros [Hrec Hst] (frame & rest & function & function' & Hstack & Hf
                     & Hloop & Hfs & _ & _ & Hrest)%pop_frame_inv.
  rewrite Hstack in Hst. apply Forall_cons in Hst as [_ Hst].
  split.
  - rewrite Hfs. apply insert_record_aligned; [done|].
    apply pop_frame_loop_inv in Hloop as (_ & _ & Hl & Ht & Hi).
    destruct (Hrec _ _ Hf) as (Hl0 & Ht0 & Hi0).
    unfold record_aligned. rewrite Hl, Ht, Hi. done.
  - destruct rest as [|top rest'].
    + rewrite Hrest. constructor.
    + destruct Hrest as (top' & Htop & ->).
      apply Forall_cons in Hst as [Ht Hst]. constructor; [|done].
      by eapply update_current_line_aligned.
Qed.

Lemma profile_finish_aligned (frame : PyFrameObject) (s s' : Module_) :
  lines_aligned py s → profile_finish frame s = Ok s' → lines_aligned py s'.
Proof.
  intros Hal. pose proof Hal as [Hrec Hst]. unfold profile_finish.
  destruct (last_instruction_ s).
  - by intros [= <-].
  - unfold finish_line. destruct (frame_stack_ s) as [|top rest] eqn:Hs.
    + by intros [= <-].
    + intros (top' & Htop & [= <-])%bind_Ok_inv.
      apply Forall_cons in Hst as [Ht Hst].
      split; [done|]. cbn. constructor; [|done].
      by eapply update_current_line_aligned.
  - unfold finish_call.
    intros (function & Hf%map_at_Ok & [= <-])%bind_Ok_inv.
    split; [|done]. cbn. apply insert_record_aligned; [done|].
    apply (Hrec _ _ Hf).
  - unfold finish_return. destruct (frame_stack_ s) as [|top rest] eqn:Hs;
      [discriminate|].
    apply pop_frame_aligned. split; [done|]. cbn.
    apply Forall_cons in Hst as [Ht Hst]. by constructor.
  - by intros [= <-].
  - unfold finish_ccall.
    intros (function & _ & H)%bind_Ok_inv. cbn in H.
    destruct (frame_stack_ s) as [|top rest] eqn:Hs; [discriminate|].
    apply bind_Ok_inv in H as (top' & Htop & [= <-]).
    apply Forall_cons in Hst as [Ht Hst].
    split; [done|]. cbn. constructor; [|done].
    by eapply update_current_line_aligned.
  - unfold finish_creturn.
    destruct (frame_stack_ s) as [|top rest] eqn:Hs; [discriminate|].
    intros [= <-]. apply Forall_cons in Hst as [Ht Hst].
    split; [done|]. cbn. by constructor.
  - by intros [= <-].
  - by intros [= <-].
Qed.

Lemma add_function_aligned (frame : PyFrameObject) (s : Module_) :
  lines_aligned py s → lines_aligned py (add_function py frame s).
Proof.
  intros [Hrec Hst]. unfold add_function.
  destruct (functions_ s !! f_code frame) eqn:Hf; [done|].
  split; [|done]. cbn. unfold map_emplace. rewrite Hf.
  apply insert_record_aligned; [done|]. apply new_record_aligned.
Qed.

Lemma emplace_frame_eq (frame : PyFrameObject) (s : Module_) :
  emplace_frame py frame s
  = set_frame_stack_
      (FrameState.new (f_code frame) (length (get_lines py frame).1)
         (get_lines py frame).2 :: frame_stack_ s) s.
Proof. reflexivity. Qed.

Lemma profile_begin_aligned (what : PyTrace) (frame : PyFrameObject)
    (arg : N) (s s' : Module_) :
  lines_aligned py s → profile_begin py what frame arg s = Ok s' →
  lines_aligned py s'.
Proof.
  intros Hal. pose proof Hal as [Hrec Hst].
  destruct what; cbn; try (by intros [= <-]); try discriminate.
  - intros [= <-]. unfold profile_call. rewrite emplace_frame_eq.
    pose proof (add_function_aligned frame s Hal) as [Hrec' Hst'].
    split; [exact Hrec'|].
    unfold set_last_instruction_, set_frame_stack_. cbn [frame_stack_].
    constructor; [apply new_frame_aligned | exact Hst'].
  - intros [= <-]. unfold profile_line. cbn.
    destruct (frame_stack_ s) as [|top rest] eqn:Hs.
    + split; [done|]. cbn. rewrite Hs. constructor.
    + apply Forall_cons in Hst as [Ht Hst]. split; [done|]. cbn.
      by constructor.
Qed.

Lemma profile_aligned (now0 now1 : time_point) (what : PyTrace)
    (frame : PyFrameObject) (arg : N) (s s' : Module_) :
  lines_aligned py s → profile py now0 now1 what frame arg s = Ok s' →
  lines_aligned py s'.
Proof.
  intros Hal. unfold profile.
  intros (s1 & H1 & (s2 & H2 & [= <-])%bind_Ok_inv)%bind_Ok_inv.
  eapply profile_finish_aligned in H1; [|done].
  by eapply profile_begin_aligned in H2.
Qed.

Lemma run_aligned (events : list Event) (s s' : Module_) :
  lines_aligned py s → run py events s = Ok s' → lines_aligned py s'.
Proof.
  revert s. induction events as [|e events IH]; intros s Hal; cbn.
  - by intros [= <-].
  - intros (s1 & H1 & Hrun)%bind_Ok_inv.
    eapply IH; [|done]. by eapply profile_aligned.
Qed.

Lemma Module_new_aligned : lines_aligned py Module_new.
Proof.
  split; [|constructor]. intros code f. cbn. by rewrite lookup_empty.
Qed.

Lemma start_aligned (s : Module_) :
  lines_aligned py s → lines_aligned py (start s).
Proof. done. Qed.

Lemma stop_aligned (s : Module_) :
  lines_aligned py s → lines_aligned py (stop s).
Proof. done. Qed.

End Aligned.

Lemma dump_aligned (py : PyRuntime) (path : string) (s s' : Module_)
    (status : Z) :
  lines_aligned py s → dump path s = Ok (s', status) → lines_aligned py s'.
Proof.
  intros Hal. unfold dump. intros (out & _ & [= <- _])%bind_Ok_inv. done.
Qed.

Lemma reachable_aligned (py : PyRuntime) (s : Module_) :
  reachable py s → lines_aligned py s.
Proof.
  induction 1 as [|s _ IH|s _ IH|path s s' status _ IH Hd|e s s' _ IH Hd].
  - apply Module_new_aligned.
  - by apply start_aligned.
  - by apply stop_aligned.
  - by eapply dump_aligned.
  - by eapply profile_aligned.
Qed.

Lemma reachable_run (py : PyRuntime) (events : list Event) (s s' : Module_) :
  reachable py s → run py events s = Ok s' → reachable py s'.
Proof.
  revert s. induction events as [|e events IH]; intros s Hs; cbn.
  - by intros [= <-].
  - intros (s1 & H1 & Hrun)%bind_Ok_inv.
    eapply IH; [|done]. by eapply reachable_dispatch.
Qed.

(** C10. In every state the engine can reach, the record of a callable
    holds the source lines without the first one ([lines[i]] is source
    line [i+1]), its two accumulator arrays and the line array of every
    invocation of it on the stack have one cell per captured line, that
    is one less than the number of source lines, and an invocation reaches
    its cells through the index [current_line_-starting_line_-1]. *)
Theorem line_arrays_drop_first_source_line (py : PyRuntime) (s : Module_) :
  reachable py s →
  (∀ code f,
     functions_ s !! code = Some f →
     let source := fst (inspect_getsourcelines py code) in
     (∀ i, Function.lines f !! i = source !! S i)
     ∧ Function.n_lines f = (length source - 1)%nat
     ∧ length (Function.line_time f) = (length source - 1)%nat
     ∧ length (Function.line_time_internal f) = (length source - 1)%nat)
  ∧ (∀ frame,
       frame ∈ frame_stack_ s →
       let source :=
         fst (inspect_getsourcelines py (FrameState.key frame)) in
       length (FrameState.lines frame) = (length source - 1)%nat
       ∧ FrameState.current_line frame
         = vector_at (FrameState.lines frame)
             (to_size_t
                (FrameState.current_line_ frame
                 - FrameState.starting_line_ frame - 1))).
Proof.
  intros [Hrec Hst]%reachable_aligned. split.
  - intros code f Hf source. destruct (Hrec _ _ Hf) as (Hl & Ht & Hi).
    unfold Function.lines, Function.n_lines, Function.line_time,
      Function.line_time_internal.
    rewrite Hl, Ht, Hi. unfold captured_lines. fold source.
    rewrite length_drop. repeat split; try done.
    intros i. by rewrite lookup_drop.
  - intros frame Hin source. rewrite Forall_forall in Hst.
    specialize (Hst _ Hin). unfold frame_aligned, captured_lines in Hst.
    rewrite length_drop in Hst. done.
Qed.

(** ** Stack discipline *)

Lemma update_current_line_is_Some (g : LineState.t → LineState.t)
    (f f' : FrameState.t) :
  FrameState.update_current_line g f = Ok f' → has_current_line f.
Proof. intros (l & Hl & _)%update_current_line_inv. by exists l. Qed.

(** The finish rule pops exactly when the recorded kind is [kReturn], and
    then exactly one frame; it never changes the recorded kind. *)
Lemma profile_finish_depth (frame : PyFrameObject) (s s' : Module_) :
  profile_finish frame s = Ok s' →
  depth s = (depth s' + pending_pop s)%nat
  ∧ last_instruction_ s' = last_instruction_ s.
Proof.
  unfold profile_finish, finish_origin, depth, pending_pop.
  destruct (last_instruction_ s) eqn:Hlast.
  - intros [= <-]. split; [lia | done].
  - unfold finish_line. destruct (frame_stack_ s) as [|top rest] eqn:Hs.
    + intros [= <-]. rewrite Hs. split; [lia | done].
    + intros (top' & _ & [= <-])%bind_Ok_inv. cbn. split; [lia | done].
  - unfold finish_call. intros (function & _ & [= <-])%bind_Ok_inv. cbn.
    split; [lia | done].
  - unfold finish_return. destruct (frame_stack_ s) as [|top rest] eqn:Hs;
      [discriminate|].
    intros (frame' & rest0 & function & function' & Hstack & _ & _ & _ & _
            & Hl & Hrest)%pop_frame_inv.
    cbn in Hstack, Hl. injection Hstack as _ <-. split; [|congruence].
    destruct rest as [|top1 rest1].
    + rewrite Hrest. done.
    + destruct Hrest as (top' & _ & ->). cbn. lia.
  - intros [= <-]. split; [lia | done].
  - unfold finish_ccall. intros (function & _ & H)%bind_Ok_inv. cbn in H.
    destruct (frame_stack_ s) as [|top rest] eqn:Hs; [discriminate|].
    apply bind_Ok_inv in H as (top' & _ & [= <-]). cbn. split; [lia | done].
  - unfold finish_creturn.
    destruct (frame_stack_ s) as [|top rest] eqn:Hs; [discriminate|].
    intros [= <-]. cbn. split; [lia | done].
  - intros [= <-]. split; [lia | done].
  - intros [= <-]. split; [lia | done].
Qed.

Lemma depth_profile_line (frame : PyFrameObject) (s : Module_) :
  depth (profile_line frame s) = depth s.
Proof.
  unfold profile_line, depth. cbn.
  destruct (frame_stack_ s) as [|top rest] eqn:Hs; cbn; by rewrite ?Hs.
Qed.

Lemma last_instruction_profile_line (frame : PyFrameObject) (s : Module_) :
  last_instruction_ (profile_line frame s) = kLine.
Proof.
  unfold profile_line. cbn. by destruct (frame_stack_ s).
Qed.

Lemma frame_stack_add_function (py : PyRuntime) (frame : PyFrameObject)
    (s : Module_) :
  frame_stack_ (add_function py frame s) = frame_stack_ s.
Proof. unfold add_function. by destruct (functions_ s !! f_code frame). Qed.

Lemma frame_stack_profile_call (py : PyRuntime) (frame : PyFrameObject)
    (s : Module_) :
  frame_stack_ (profile_call py frame s)
  = FrameState.new (f_code frame) (length (get_lines py frame).1)
      (get_lines py frame).2 :: frame_stack_ s.
Proof.
  unfold profile_call. cbn. by rewrite frame_stack_add_function.
Qed.

(** The begin rule of a call pushes exactly one frame, that of a return
    leaves the stack as it is and records the pending pop. *)
Lemma profile_begin_depth (py : PyRuntime) (what : PyTrace)
    (frame : PyFrameObject) (arg : N) (s s' : Module_) (d d' : nat) :
  records_kind what = true →
  nesting_step d what = Some d' →
  depth s = d →
  profile_begin py what frame arg s = Ok s' →
  depth s' = (d' + pending_pop s')%nat.
Proof.
  intros Hrec Hstep Hd.
  destruct what; try discriminate; cbn in Hstep |- *; intros [= <-].
  - injection Hstep as <-. unfold depth, pending_pop in *.
    rewrite frame_stack_profile_call. cbn. lia.
  - injection Hstep as <-. rewrite depth_profile_line.
    unfold pending_pop. rewrite last_instruction_profile_line. lia.
  - destruct d as [|d0]; [discriminate|]. injection Hstep as <-.
    unfold depth, pending_pop in *. cbn. lia.
  - injection Hstep as <-. unfold depth, pending_pop in *. cbn. lia.
  - injection Hstep as <-. unfold depth, pending_pop in *. cbn. lia.
  - injection Hstep as <-. unfold depth, pending_pop in *. cbn. lia.
Qed.

Lemma dispatch_depth (py : PyRuntime) (e : Event) (s s' : Module_)
    (d d' : nat) :
  records_kind (ev_what e) = true →
  nesting_step d (ev_what e) = Some d' →
  depth s = (d + pending_pop s)%nat →
  dispatch py e s = Ok s' →
  depth s' = (d' + pending_pop s')%nat.
Proof.
  intros Hrec Hstep Hd. unfold dispatch, profile.
  intros (s1 & H1 & (s2 & H2 & [= <-])%bind_Ok_inv)%bind_Ok_inv.
  apply profile_finish_depth in H1 as [Hd1 _].
  change (depth s2 = (d' + pending_pop s2)%nat).
  eapply profile_begin_depth; [done.. | | done].
  change (depth s = (depth s1 + pending_pop s)%nat) in Hd1. lia.
Qed.

Lemma run_depth (py : PyRuntime) (events : list Event) (s s' : Module_)
    (d d' : nat) :
  Forall (λ e, records_kind (ev_what e) = true) events →
  nesting d (ev_what <$> events) = Some d' →
  depth s = (d + pending_pop s)%nat →
  run py events s = Ok s' →
  depth s' = (d' + pending_pop s')%nat.
Proof.
  revert s d. induction events as [|e events IH]; intros s d Hall Hn Hd; cbn.
  - intros [= <-]. cbn in Hn. by injection Hn as <-.
  - apply Forall_cons in Hall as [He Hall]. cbn in Hn.
    destruct (nesting_step d (ev_what e)) as [d1|] eqn:Hstep; [|discriminate].
    intros (s1 & H1 & Hrun)%bind_Ok_inv.
    eapply IH; [done.. | | done]. by eapply dispatch_depth.
Qed.

(** C7, as stated, fails: after a fully nested sequence has been processed
    the frame of its last return is still on the stack. *)
Lemma depth_not_zero_after_final_return :
  ¬ (∀ (py : PyRuntime) (events : list Event) (s' : Module_),
       nesting 0 (ev_what <$> events) = Some 0%nat →
       run py events (start Module_new) = Ok s' →
       depth s' = 0%nat).
Proof.
  intros H.
  pose (s' := state_of (run demo_py demo_call_return (start Module_new))).
  assert (Hrun : run demo_py demo_call_return (start Module_new) = Ok s')
    by (vm_compute; reflexivity).
  specialize (H demo_py demo_call_return s' eq_refl Hrun).
  vm_compute in H. discriminate.
Qed.

(** C7 (amended). For a call/return-nested sequence of events of the kinds
    that record themselves, processed without error from an empty stack
    with no return pending: a call dispatch pushes exactly one frame in
    its begin rule; a return dispatch leaves the stack as it is and its
    frame is popped, exactly one, by the finish rule of the next dispatch;
    so the depth after the sequence is the nesting depth, plus one while
    the last return is pending (1 after a fully nested sequence that ends
    with its return), and it is the nesting depth (0) after one further
    line event. *)
Theorem stack_depth_follows_nesting (py : PyRuntime) (events : list Event)
    (s s' : Module_) (d : nat) :
  frame_stack_ s = [] →
  last_instruction_ s ≠ kReturn →
  Forall (λ e, records_kind (ev_what e) = true) events →
  nesting 0 (ev_what <$> events) = Some d →
  run py events s = Ok s' →
  depth s' = (d + pending_pop s')%nat
  ∧ (∀ e s'', ev_what e = PyTrace_LINE → dispatch py e s' = Ok s'' →
              depth s'' = d)
  ∧ (∀ frame arg s0 s1,
       profile_begin py PyTrace_CALL frame arg s0 = Ok s1 →
       depth s1 = S (depth s0))
  ∧ (∀ frame arg s0 s1,
       profile_begin py PyTrace_RETURN frame arg s0 = Ok s1 →
       depth s1 = depth s0 ∧ pending_pop s1 = 1%nat)
  ∧ (∀ frame s0 s1,
       profile_finish frame s0 = Ok s1 →
       depth s0 = (depth s1 + pending_pop s0)%nat).
Proof.
  intros Hempty Hlast Hall Hnest Hrun.
  assert (Hd0 : depth s = (0 + pending_pop s)%nat).
  { unfold depth, pending_pop. rewrite Hempty.
    by destruct (last_instruction_ s). }
  pose proof (run_depth py events s s' 0 d Hall Hnest Hd0 Hrun) as Hd.
  split; [done|]. split.
  - intros e s'' He Hdisp.
    pose proof (dispatch_depth py e s' s'' d d) as Hstep.
    rewrite He in Hstep. specialize (Hstep eq_refl eq_refl Hd Hdisp).
    unfold dispatch, profile in Hdisp. rewrite He in Hdisp.
    apply bind_Ok_inv in Hdisp as (s1 & _ & (s2 & [= <-] & [= <-])%bind_Ok_inv).
    revert Hstep. unfold pending_pop. cbn.
    rewrite last_instruction_profile_line. lia.
  - split; [|split].
    + intros frame arg s0 s1 [= <-]. unfold depth.
      by rewrite frame_stack_profile_call.
    + intros frame arg s0 s1 [= <-]. done.
    + intros frame s0 s1 H. by apply profile_finish_depth in H as [-> _].
Qed.

(** ** The finish rules, run forwards *)

(** A frame with one line cell and the overhead replaced. *)
Lemma finish_line_Ok (frame : PyFrameObject) (s : Module_)
    (top : FrameState.t) (rest : list FrameState.t) (line : LineState.t) :
  frame_stack_ s = top :: rest →
  line_of top (current_pos top) = Some line →
  finish_line frame s
  = Ok (set_frame_stack_
          (FrameState.mk (FrameState.starting_line_ top)
             (FrameState.current_line_ top) (FrameState.function_key_ top)
             (<[current_pos top := LineState.add_internal (elapsed s) line]>
                (FrameState.lines_ top))
             (FrameState.internal_ top) :: rest) s).
Proof.
  intros Hs Hl. unfold finish_line. rewrite Hs.
  by rewrite (update_current_line_Ok _ _ line Hl).
Qed.

Lemma finish_call_Ok (frame : PyFrameObject) (s : Module_) (f : Function.t) :
  functions_ s !! f_code frame = Some f →
  finish_call frame s
  = Ok (write_cout
          [cout_string "Internal: ";
           cout_seconds (Function.overhead f + elapsed s); cout_endl]
          (set_functions_
             (<[f_code frame :=
                  Function.mk
                    (BaseFunction.mk (Function.name f)
                       (Function.overhead f + elapsed s))
                    (Function.code_ f) (Function.lines_ f)
                    (Function.line_time_ f) (Function.line_time_internal_ f)]>
                (functions_ s)) s)).
Proof.
  intros Hf. unfold finish_call. by rewrite (map_at_lookup _ _ f Hf).
Qed.

Lemma finish_ccall_Ok (frame : PyFrameObject) (s : Module_)
    (f : BaseFunction.t) (top : FrameState.t) (rest : list FrameState.t)
    (line : LineState.t) :
  c_functions_ s !! last_c_name_ s = Some f →
  frame_stack_ s = top :: rest →
  line_of top (current_pos top) = Some line →
  finish_ccall frame s
  = Ok (set_frame_stack_
          (FrameState.mk (FrameState.starting_line_ top)
             (FrameState.current_line_ top) (FrameState.function_key_ top)
             (<[current_pos top := LineState.add_external (elapsed s) line]>
                (FrameState.lines_ top))
             (FrameState.internal_ top) :: rest)
          (write_cout
             [cout_string "Internal: ";
              cout_seconds (BaseFunction.overhead f + elapsed s); cout_endl]
             (set_c_functions_
                (<[last_c_name_ s :=
                     BaseFunction.mk (BaseFunction.name f)
                       (BaseFunction.overhead f + elapsed s)]>
                   (c_functions_ s)) s))).
Proof.
  intros Hf Hs Hl. unfold finish_ccall.
  rewrite (map_at_lookup _ _ f Hf). cbn. rewrite Hs.
  by rewrite (update_current_line_Ok _ _ line Hl).
Qed.

Lemma finish_creturn_Ok (frame : PyFrameObject) (s : Module_)
    (top : FrameState.t) (rest : list FrameState.t) :
  frame_stack_ s = top :: rest →
  finish_creturn frame s
  = Ok (set_frame_stack_ (FrameState.add_internal (elapsed s) top :: rest) s).
Proof. intros Hs. unfold finish_creturn. by rewrite Hs. Qed.

(** What a dispatched foreign call leaves behind. *)
Lemma profile_C_CALL_inv (py : PyRuntime) (now0 now1 : time_point)
    (frame : PyFrameObject) (arg : N) (s s1 : Module_) :
  profile py now0 now1 PyTrace_C_CALL frame arg s = Ok s1 →
  last_instruction_ s1 = kCCall
  ∧ last_c_name_ s1 = PyObject_Str py arg
  ∧ is_Some (c_functions_ s1 !! PyObject_Str py arg)
  ∧ last_instruction_start_ s1 = now1.
Proof.
  unfold profile.
  intros (s0 & _ & (s2 & [= <-] & [= <-])%bind_Ok_inv)%bind_Ok_inv.
  cbn. repeat split. apply map_emplace_is_Some.
Qed.

(** ** Foreign calls *)


(** The dispatch that follows a foreign call. *)
Lemma dispatch_after_foreign_call (py : PyRuntime) (now now' : time_point)
    (what : PyTrace) (frame : PyFrameObject) (arg : N) (s1 : Module_)
    (f : BaseFunction.t) (top : FrameState.t) (rest : list FrameState.t) :
  what = PyTrace_C_RETURN ∨ what = PyTrace_C_EXCEPTION →
  last_instruction_ s1 = kCCall →
  c_functions_ s1 !! last_c_name_ s1 = Some f →
  frame_stack_ s1 = top :: rest →
  has_current_line top →
  ∃ s2 top2,
    profile py now now' what frame arg s1 = Ok s2
    ∧ c_functions_ s2
      = <[last_c_name_ s1 :=
            BaseFunction.mk (BaseFunction.name f)
              (BaseFunction.overhead f + (now - last_instruction_start_ s1))]>
          (c_functions_ s1)
    ∧ functions_ s2 = functions_ s1
    ∧ last_instruction_ s2 = kCReturn
    ∧ last_instruction_start_ s2 = now'
    ∧ frame_stack_ s2 = top2 :: rest
    ∧ has_current_line top2.
Proof.
  intros Hwhat Hlast Hf Hstack [line Hline].
  destruct s1 as [fs cfs st li t0 t1 nm co pf tf]. cbn in *. subst.
  eexists _, _. split.
  { unfold profile, profile_finish. cbn.
    erewrite finish_ccall_Ok; [| cbn; eassumption | cbn; reflexivity
                               | eassumption].
    destruct Hwhat as [-> | ->]; cbn; reflexivity. }
  cbn. repeat split. unfold has_current_line, line_of, current_pos. cbn.
  fold (current_pos top). rewrite list_lookup_insert_eq; [eauto|].
  by eapply lookup_lt_Some.
Qed.

(** The foreign call that follows a foreign return. *)
Lemma foreign_call_after_foreign_return (py : PyRuntime)
    (now now' : time_point) (frame : PyFrameObject) (arg : N) (s2 : Module_)
    (top : FrameState.t) (rest : list FrameState.t) :
  last_instruction_ s2 = kCReturn →
  frame_stack_ s2 = top :: rest →
  has_current_line top →
  ∃ s3 top3,
    profile py now now' PyTrace_C_CALL frame arg s2 = Ok s3
    ∧ c_functions_ s3
      = map_emplace (PyObject_Str py arg)
          (BaseFunction.new (PyObject_Str py arg)) (c_functions_ s2)
    ∧ functions_ s3 = functions_ s2
    ∧ last_instruction_ s3 = kCCall
    ∧ last_c_name_ s3 = PyObject_Str py arg
    ∧ last_instruction_start_ s3 = now'
    ∧ frame_stack_ s3 = top3 :: rest
    ∧ has_current_line top3.
Proof.
  intros Hlast Hstack Hline.
  destruct s2 as [fs cfs st li t0 t1 nm co pf tf]. cbn in *. subst.
  eexists _, _. split.
  { unfold profile, profile_finish. cbn. reflexivity. }
  cbn. repeat split. done.
Qed.

Lemma add_c_function_registered (name : string) (s : Module_) :
  is_Some (c_functions_ s !! name) → add_c_function name s = s.
Proof.
  intros Hn. unfold add_c_function. rewrite map_emplace_taken by done.
  by destruct s.
Qed.

(** C6. Two foreign calls in a row, each followed by its return, under an
    invocation whose current line is observed. When the two targets print
    alike (even if they are different objects) both intervals are added
    to the one record kept under that text, and no record is created by
    the second call; when they print differently each interval goes to
    the record under its own text. Registering a name that is already
    there leaves the store, and so the accumulated overhead, as it is. *)
Theorem foreign_records_keyed_by_printed_name (py : PyRuntime)
    (now0 now1 now2 now2' now3 now3' now4 now4' : time_point)
    (frame1 frame2 frame3 frame4 : PyFrameObject)
    (arg1 arg2 arg_ret2 arg_ret4 : N) (s s1 : Module_)
    (top : FrameState.t) (rest : list FrameState.t) :
  profile py now0 now1 PyTrace_C_CALL frame1 arg1 s = Ok s1 →
  frame_stack_ s1 = top :: rest →
  has_current_line top →
  let name1 := PyObject_Str py arg1 in
  let name2 := PyObject_Str py arg2 in
  let d1 := now2 - now1 in
  let d2 := now4 - now3' in
  ∃ s2 s3 s4 f1,
    profile py now2 now2' PyTrace_C_RETURN frame2 arg_ret2 s1 = Ok s2
    ∧ profile py now3 now3' PyTrace_C_CALL frame3 arg2 s2 = Ok s3
    ∧ profile py now4 now4' PyTrace_C_RETURN frame4 arg_ret4 s3 = Ok s4
    ∧ c_functions_ s1 !! name1 = Some f1
    ∧ (name1 = name2 →
       c_functions_ s3 = c_functions_ s2
       ∧ c_functions_ s4 !! name1
         = Some (BaseFunction.mk (BaseFunction.name f1)
                   (BaseFunction.overhead f1 + d1 + d2))
       ∧ dom (c_functions_ s4) = dom (c_functions_ s1))
    ∧ (name1 ≠ name2 →
       c_functions_ s4 !! name1
       = Some (BaseFunction.mk (BaseFunction.name f1)
                 (BaseFunction.overhead f1 + d1))
       ∧ ∃ f2, c_functions_ s3 !! name2 = Some f2
               ∧ c_functions_ s4 !! name2
                 = Some (BaseFunction.mk (BaseFunction.name f2)
                           (BaseFunction.overhead f2 + d2)))
    ∧ (∀ name s0, is_Some (c_functions_ s0 !! name) →
                  add_c_function name s0 = s0).
Proof.
  intros Hcall Hstack Hline name1 name2 d1 d2.
  apply profile_C_CALL_inv in Hcall as (Hlast & Hname & [f1 Hf1] & Hstart).
  destruct (dispatch_after_foreign_call py now2 now2' PyTrace_C_RETURN
              frame2 arg_ret2 s1 f1 top rest)
    as (s2 & top2 & H2 & Hc2 & _ & Hl2 & Ht2 & Hs2 & Hline2);
    [by left | done | by rewrite Hname | done | done |].
  destruct (foreign_call_after_foreign_return py now3 now3' frame3 arg2 s2
              top2 rest)
    as (s3 & top3 & H3 & Hc3 & _ & Hl3 & Hn3 & Ht3 & Hs3 & Hline3);
    [done..|].
  fold name2 in Hc3, Hn3.
  destruct (map_emplace_is_Some (c_functions_ s2) name2
              (BaseFunction.new name2)) as [f2 Hf2].
  rewrite <- Hc3 in Hf2.
  destruct (dispatch_after_foreign_call py now4 now4' PyTrace_C_RETURN
              frame4 arg_ret4 s3 f2 top3 rest)
    as (s4 & top4 & H4 & Hc4 & _ & _ & _ & _ & _);
    [by left | done | by rewrite Hn3 | done | done |].
  rewrite Hn3, Ht3 in Hc4. rewrite Hname, Hstart in Hc2.
  fold name1 d1 in Hc2. fold d2 in Hc4.
  exists s2, s3, s4, f1. repeat (split; [done|]). split; [|split].
  - intros Heq. rewrite <- Heq in *.
    assert (Hsame : c_functions_ s3 = c_functions_ s2).
    { rewrite Hc3. apply map_emplace_taken. rewrite Hc2, lookup_insert_eq.
      eauto. }
    split; [done|].
    rewrite Hsame, Hc2, lookup_insert_eq in Hf2. injection Hf2 as <-.
    rewrite Hc4, Hsame, Hc2. split.
    + rewrite lookup_insert_eq. cbn. done.
    + rewrite dom_insert_lookup_L by (rewrite lookup_insert_eq; eauto).
      by rewrite dom_insert_lookup_L by eauto.
  - intros Hne. split.
    + rewrite Hc4, lookup_insert_ne by done.
      rewrite Hc3, map_emplace_other by done.
      by rewrite Hc2, lookup_insert_eq.
    + exists f2. split; [done|]. by rewrite Hc4, lookup_insert_eq.
  - apply add_c_function_registered.
Qed.

(** ** Exception events *)

(** C3, as stated, fails: the interval that follows a foreign exception is
    added to the overhead of the top invocation. *)
Lemma interval_after_foreign_exception_is_attributed :
  ¬ (∀ (py : PyRuntime) (what : PyTrace) (now0 now1 now2 : time_point)
       (frame frame' : PyFrameObject) (arg : N) (s s1 s2 : Module_),
       what = PyTrace_EXCEPTION ∨ what = PyTrace_C_EXCEPTION →
       profile py now0 now1 what frame arg s = Ok s1 →
       profile_finish frame' (set_last_instruction_end_ now2 s1) = Ok s2 →
       functions_ s2 = functions_ s1
       ∧ c_functions_ s2 = c_functions_ s1
       ∧ frame_stack_ s2 = frame_stack_ s1).
Proof.
  intros H.
  pose (frame := {| f_code := 1%N; f_lineno := 12 |}).
  pose (s := state_of demo_in_main).
  pose (s1 := state_of (profile demo_py (2 * ms) (2 * ms)
                          PyTrace_C_EXCEPTION frame 0%N s)).
  pose (s2 := state_of (profile_finish frame
                          (set_last_instruction_end_ (6 * ms) s1))).
  assert (H1 : profile demo_py (2 * ms) (2 * ms) PyTrace_C_EXCEPTION frame
                 0%N s = Ok s1) by (vm_compute; reflexivity).
  assert (H2 : profile_finish frame (set_last_instruction_end_ (6 * ms) s1)
               = Ok s2) by (vm_compute; reflexivity).
  destruct (H demo_py PyTrace_C_EXCEPTION _ _ _ _ _ _ _ _ _
              (or_intror eq_refl) H1 H2) as (_ & _ & Hstack).
  vm_compute in Hstack. discriminate.
Qed.

(** The same holds for a plain exception event: its kind is not recorded,
    so the rule of the kind recorded before it runs again. *)
Lemma interval_after_exception_is_attributed :
  let frame := {| f_code := 1%N; f_lineno := 12 |} in
  let s := state_of demo_in_main in
  ∃ s1 s2,
    profile demo_py (2 * ms) (2 * ms) PyTrace_EXCEPTION frame 0%N s = Ok s1
    ∧ profile demo_py (6 * ms) (6 * ms) PyTrace_LINE frame 0%N s1 = Ok s2
    ∧ last_instruction_ s1 = kLine
    ∧ (LineState.internal <$> (frame_stack_ s !! 0%nat ≫= λ f, line_of f 1))
      = Some 0
    ∧ (LineState.internal <$> (frame_stack_ s1 !! 0%nat ≫= λ f, line_of f 1))
      = Some (1 * ms)
    ∧ (LineState.internal <$> (frame_stack_ s2 !! 0%nat ≫= λ f, line_of f 1))
      = Some (5 * ms).
Proof.
  intros frame s.
  exists (state_of (profile demo_py (2 * ms) (2 * ms) PyTrace_EXCEPTION
                      frame 0%N s)).
  exists (state_of (run demo_py
                      [at_time (2 * ms) PyTrace_EXCEPTION 1 12 0;
                       at_time (6 * ms) PyTrace_LINE 1 12 0] s)).
  split_and!; vm_compute; reflexivity.
Qed.

(** C3 (amended). Exception and foreign-exception events are accepted and
    their begin rules update no accumulator: that of an exception changes
    nothing at all, that of a foreign exception only records the kind, and
    records it as a foreign return. So the interval that ends at the
    dispatch after a foreign exception is added to the overhead of the top
    invocation. The finish rules of the two exception kinds themselves
    attribute nothing. *)
Theorem exception_events_attribution (py : PyRuntime)
    (now0 now1 now2 : time_point) (frame frame' : PyFrameObject) (arg : N)
    (s s1 : Module_) (top : FrameState.t) (rest : list FrameState.t) :
  profile py now0 now1 PyTrace_C_EXCEPTION frame arg s = Ok s1 →
  frame_stack_ s1 = top :: rest →
  profile_begin py PyTrace_EXCEPTION frame arg s = Ok s
  ∧ profile_begin py PyTrace_C_EXCEPTION frame arg s
    = Ok (set_last_instruction_ kCReturn s)
  ∧ last_instruction_ s1 = kCReturn
  ∧ profile_finish frame' (set_last_instruction_end_ now2 s1)
    = Ok (set_frame_stack_
            (FrameState.add_internal (now2 - now1) top :: rest)
            (set_last_instruction_end_ now2 s1))
  ∧ (∀ s0, last_instruction_ s0 = kException
           ∨ last_instruction_ s0 = kCException →
           profile_finish frame' s0 = Ok s0).
Proof.
  intros Hexc Hstack. unfold profile in Hexc.
  apply bind_Ok_inv in Hexc as (s0 & _ & (s' & [= <-] & [= <-])%bind_Ok_inv).
  cbn in Hstack.
  split; [done|]. split; [done|]. split; [done|]. split.
  - unfold profile_finish. cbn. unfold finish_creturn. cbn. rewrite Hstack.
    reflexivity.
  - intros s1 [Hl | Hl]; unfold profile_finish; by rewrite Hl.
Qed.

(** ** The unguarded current line *)

Lemma foreign_call_on_fresh_engine (py : PyRuntime) (now0 now1 : time_point)
    (frame : PyFrameObject) (arg : N) :
  profile py now0 now1 PyTrace_C_CALL frame arg (start Module_new)
  = Ok (mkModule ∅
          (map_emplace (PyObject_Str py arg)
             (BaseFunction.new (PyObject_Str py arg)) ∅)
          [] kCCall now1 now0 (PyObject_Str py arg) [] true true).
Proof. reflexivity. Qed.

Lemma foreign_return_on_empty_stack (py : PyRuntime) (now now' : time_point)
    (what : PyTrace) (frame : PyFrameObject) (arg : N) (s : Module_) :
  last_instruction_ s = kCCall →
  frame_stack_ s = [] →
  is_Some (c_functions_ s !! last_c_name_ s) →
  profile py now now' what frame arg s = Throw empty_stack_top.
Proof.
  intros Hlast Hstack [f Hf].
  destruct s as [fs cfs st li t0 t1 nm co pf tf]. cbn in *. subst.
  unfold profile, profile_finish. cbn. unfold finish_ccall. cbn.
  by rewrite (map_at_lookup _ _ f Hf).
Qed.

(** C4 fails on the code. A foreign call dispatched before any line event
    of the invocation makes the next dispatch look up the wrapped index
    [0 - 20 - 1] and raise [out_of_range]; with no invocation at all the
    same rule takes [top()] of the empty stack. *)
Theorem foreign_call_finish_is_unguarded :
  run demo_py demo_foreign_call_first (start Module_new)
  = Throw out_of_range
  ∧ (∀ py now0 now1 now2 now3 frame1 frame2 arg1 arg2,
       run py
         [mkEvent now0 now1 PyTrace_C_CALL frame1 arg1;
          mkEvent now2 now3 PyTrace_C_RETURN frame2 arg2]
         (start Module_new)
       = Throw empty_stack_top).
Proof.
  split; [vm_compute; reflexivity|].
  intros. cbn [run]. unfold dispatch. cbn [ev_now0 ev_now1 ev_what ev_frame
    ev_arg].
  rewrite foreign_call_on_fresh_engine, bind_Ok.
  rewrite foreign_return_on_empty_stack; [done..|].
  apply map_emplace_is_Some.
Qed.

(** ** The fold on return *)

(** C1 fails on the code. An invocation of [helper] holds 1ms for its
    first captured line and 3ms for its second; the fold leaves cell 1 of
    the record at zero and puts the 4ms into cell 0. *)
Theorem pop_frame_folds_every_line_into_cell_0 :
  ∃ s4 s5,
    run demo_py demo_two_lines (start Module_new) = Ok s4
    ∧ dispatch demo_py (at_time (6 * ms) PyTrace_LINE 1 13 0) s4 = Ok s5
    ∧ (fmap LineState.internal ∘ FrameState.lines <$> frame_stack_ s4)
      = [[1 * ms; 3 * ms]]
    ∧ (Function.line_time_internal <$> functions_ s4 !! 2%N)
      = Some [0; 0]
    ∧ (Function.line_time_internal <$> functions_ s5 !! 2%N)
      = Some [4 * ms; 0]
    ∧ frame_stack_ s5 = [].
Proof.
  exists (state_of (run demo_py demo_two_lines (start Module_new))).
  exists (state_of (run demo_py
                      (demo_two_lines
                       ++ [at_time (6 * ms) PyTrace_LINE 1 13 0])
                      (start Module_new))).
  split_and!; vm_compute; reflexivity.
Qed.

(** ** The report *)

Lemma vector_at_of_nat {A} (v : list A) (i : nat) (x : A) :
  v !! i = Some x → vector_at v (Z.of_nat i) = Ok x.
Proof. intros Hx. apply vector_at_lookup; [lia | by rewrite Nat2Z.id]. Qed.

Lemma dump_lines_Ok (f : Function.t) (indices : list nat) :
  Forall (λ i, (i < length (Function.lines_ f))%nat) indices →
  length (Function.line_time_ f) = length (Function.lines_ f) →
  length (Function.line_time_internal_ f) = length (Function.lines_ f) →
  ∃ out, dump_lines f indices = Ok out.
Proof.
  intros Hall Ht Hi. induction Hall as [|i indices Hlt _ [out IH]]; cbn.
  - eauto.
  - unfold Function.line_time, Function.line_time_internal, Function.lines.
    destruct (lookup_lt_is_Some_2 (Function.line_time_ f) i) as [e He];
      [lia|].
    destruct (lookup_lt_is_Some_2 (Function.line_time_internal_ f) i)
      as [n Hn]; [lia|].
    destruct (lookup_lt_is_Some_2 (Function.lines_ f) i) as [l Hl]; [lia|].
    rewrite (vector_at_of_nat _ _ _ He), (vector_at_of_nat _ _ _ Hn),
      (vector_at_of_nat _ _ _ Hl).
    cbn. rewrite IH. cbn. eauto.
Qed.

Lemma dump_functions_Ok (functions : list (N * Function.t)) :
  Forall (λ entry,
            length (Function.line_time_ entry.2)
            = length (Function.lines_ entry.2)
            ∧ length (Function.line_time_internal_ entry.2)
              = length (Function.lines_ entry.2)) functions →
  ∃ out, dump_functions functions = Ok out.
Proof.
  induction 1 as [|entry functions [Ht Hi] _ [rest IH]]; cbn.
  - eauto.
  - unfold dump_function.
    destruct (dump_lines_Ok entry.2
                (seq 0 (length (Function.lines entry.2)))) as [out Hout];
      [|done..|].
    { apply Forall_forall. intros i Hin%elem_of_seq.
      unfold Function.lines in Hin. lia. }
    rewrite Hout. cbn. rewrite IH. cbn. eauto.
Qed.

(** C9. [dump] does not read [path]: for two destinations and one engine
    state it gives the same result, exception included. In a state whose
    records have arrays of matching sizes (every reachable state) it
    returns 0 and changes nothing but [std::cout], to which it appends the
    same items whatever the destination. *)
Theorem dump_ignores_destination (path1 path2 : string) (s : Module_) :
  dump path1 s = dump path2 s
  ∧ (arrays_sized s →
     ∃ out, dump path1 s = Ok (write_cout out s, 0)
            ∧ dump path2 s = Ok (write_cout out s, 0)).
Proof.
  split; [reflexivity|]. intros Hsized. unfold dump.
  destruct (dump_functions_Ok (map_to_list (functions_ s))) as [out Hout].
  { apply Forall_forall. intros [code f] Hin%elem_of_map_to_list.
    by apply (Hsized code f). }
  rewrite Hout. cbn. eauto.
Qed.

Lemma reachable_arrays_sized (py : PyRuntime) (s : Module_) :
  reachable py s → arrays_sized s.
Proof.
  intros [Hrec _]%reachable_aligned code f Hf.
  destruct (Hrec _ _ Hf) as (Hl & Ht & Hi). by rewrite Hl, Ht, Hi.
Qed.

(** ** Records are never dropped or reset *)

Lemma store_kept_refl (s : Module_) : store_kept s s.
Proof. split; eauto. Qed.

Lemma store_kept_trans (s1 s2 s3 : Module_) :
  store_kept s1 s2 → store_kept s2 s3 → store_kept s1 s3.
Proof.
  intros [Hf12 Hc12] [Hf23 Hc23]. split.
  - intros code f Hf. destruct (Hf12 _ _ Hf) as (f2 & H2 & Hn2 & Hl2).
    destruct (Hf23 _ _ H2) as (f3 & H3 & Hn3 & Hl3).
    exists f3. repeat split; congruence.
  - intros name f Hf. destruct (Hc12 _ _ Hf) as (f2 & H2 & Hn2).
    destruct (Hc23 _ _ H2) as (f3 & H3 & Hn3).
    exists f3. split; congruence.
Qed.

Lemma store_kept_same (s s' : Module_) :
  functions_ s' = functions_ s → c_functions_ s' = c_functions_ s →
  store_kept s s'.
Proof. intros Hf Hc. split; rewrite ?Hf, ?Hc; eauto. Qed.

Lemma store_kept_insert_function (s s' : Module_) (code : N)
    (f f' : Function.t) :
  functions_ s !! code = Some f →
  Function.name f' = Function.name f →
  Function.lines f' = Function.lines f →
  functions_ s' = <[code := f']> (functions_ s) →
  c_functions_ s' = c_functions_ s →
  store_kept s s'.
Proof.
  intros Hf Hn Hl Hfs Hcs. split; [|rewrite Hcs; eauto].
  intros code0 f0 Hf0. rewrite Hfs, lookup_insert.
  case_decide as Heq; [|eauto]. subst code0.
  rewrite Hf in Hf0. injection Hf0 as <-. eauto.
Qed.

Lemma store_kept_insert_c_function (s s' : Module_) (name : string)
    (f f' : BaseFunction.t) :
  c_functions_ s !! name = Some f →
  BaseFunction.name f' = BaseFunction.name f →
  functions_ s' = functions_ s →
  c_functions_ s' = <[name := f']> (c_functions_ s) →
  store_kept s s'.
Proof.
  intros Hf Hn Hfs Hcs. split; [rewrite Hfs; eauto|].
  intros name0 f0 Hf0. rewrite Hcs, lookup_insert.
  case_decide as Heq; [|eauto]. subst name0.
  rewrite Hf in Hf0. injection Hf0 as <-. eauto.
Qed.

Lemma profile_finish_store_kept (frame : PyFrameObject) (s s' : Module_) :
  profile_finish frame s = Ok s' → store_kept s s'.
Proof.
  unfold profile_finish. destruct (last_instruction_ s).
  - intros [= <-]. apply store_kept_refl.
  - unfold finish_line. destruct (frame_stack_ s) as [|top rest].
    + intros [= <-]. apply store_kept_refl.
    + intros (top' & _ & [= <-])%bind_Ok_inv. by apply store_kept_same.
  - unfold finish_call.
    intros (function & Hf%map_at_Ok & [= <-])%bind_Ok_inv.
    eapply (store_kept_insert_function _ _ (f_code frame) function);
      [exact Hf | | | cbn; reflexivity | cbn; reflexivity]; reflexivity.
  - unfold finish_return. destruct (frame_stack_ s) as [|top rest];
      [discriminate|].
    intros (frame' & rest0 & function & function' & _ & Hf & Hloop & Hfs
            & Hcs & _)%pop_frame_inv.
    apply pop_frame_loop_inv in Hloop as (Hb & _ & Hl & _).
    cbn in Hf, Hfs, Hcs. eapply store_kept_insert_function; [done | | | done..].
    + unfold Function.name. by rewrite Hb.
    + unfold Function.lines. by rewrite Hl.
  - intros [= <-]. apply store_kept_refl.
  - unfold finish_ccall.
    intros (function & Hf%map_at_Ok & H)%bind_Ok_inv. cbn in H.
    destruct (frame_stack_ s) as [|top rest]; [discriminate|].
    apply bind_Ok_inv in H as (top' & _ & [= <-]).
    eapply (store_kept_insert_c_function _ _ (last_c_name_ s) function);
      [exact Hf | | cbn; reflexivity | cbn; reflexivity]; reflexivity.
  - unfold finish_creturn. destruct (frame_stack_ s) as [|top rest];
      [discriminate|].
    intros [= <-]. by apply store_kept_same.
  - intros [= <-]. apply store_kept_refl.
  - intros [= <-]. apply store_kept_refl.
Qed.

Lemma functions_add_function (py : PyRuntime) (frame : PyFrameObject)
    (s : Module_) :
  is_Some (functions_ (add_function py frame s) !! f_code frame)
  ∧ (∀ code f, functions_ s !! code = Some f →
               functions_ (add_function py frame s) !! code = Some f)
  ∧ c_functions_ (add_function py frame s) = c_functions_ s.
Proof.
  unfold add_function. destruct (functions_ s !! f_code frame) eqn:Hc.
  - rewrite Hc. eauto.
  - cbn. split; [apply map_emplace_is_Some|]. split; [|done].
    intros code f Hf. rewrite map_emplace_other; [done | congruence].
Qed.

(** A begin rule leaves every record that exists exactly as it is. *)
Lemma profile_begin_records (py : PyRuntime) (what : PyTrace)
    (frame : PyFrameObject) (arg : N) (s s' : Module_) :
  profile_begin py what frame arg s = Ok s' →
  (∀ code f, functions_ s !! code = Some f → functions_ s' !! code = Some f)
  ∧ (∀ name f, c_functions_ s !! name = Some f →
               c_functions_ s' !! name = Some f).
Proof.
  destruct what; cbn; try discriminate; intros [= <-]; try done.
  - destruct (functions_add_function py frame s) as (_ & Hf & Hc).
    split.
    + intros code f Hcode. apply Hf in Hcode. exact Hcode.
    + intros name f Hname. unfold profile_call. cbn. rewrite Hc. exact Hname.
  - unfold profile_line. cbn. by destruct (frame_stack_ s).
  - split; [done|]. intros name f Hf. cbn.
    destruct (decide (PyObject_Str py arg = name)) as [<-|Hne].
    + rewrite map_emplace_taken; eauto.
    + by rewrite map_emplace_other.
Qed.

Lemma profile_begin_store_kept (py : PyRuntime) (what : PyTrace)
    (frame : PyFrameObject) (arg : N) (s s' : Module_) :
  profile_begin py what frame arg s = Ok s' → store_kept s s'.
Proof.
  intros [Hf Hc]%profile_begin_records. split; eauto.
Qed.

Lemma dispatch_store_kept (py : PyRuntime) (e : Event) (s s' : Module_) :
  dispatch py e s = Ok s' → store_kept s s'.
Proof.
  unfold dispatch, profile.
  intros (s1 & H1 & (s2 & H2 & [= <-])%bind_Ok_inv)%bind_Ok_inv.
  apply profile_finish_store_kept in H1.
  apply profile_begin_store_kept in H2.
  exact (store_kept_trans _ _ _ H1 H2).
Qed.

Lemma run_store_kept (py : PyRuntime) (events : list Event) (s s' : Module_) :
  run py events s = Ok s' → store_kept s s'.
Proof.
  revert s. induction events as [|e events IH]; intros s; cbn.
  - intros [= <-]. apply store_kept_refl.
  - intros (s1 & H1 & Hrun)%bind_Ok_inv.
    eapply store_kept_trans; [by eapply dispatch_store_kept | by apply IH].
Qed.

(** ** Events add to what the store holds *)

Lemma zip_with_add_zeros (l : list Z) :
  zip_with Z.add l (replicate (length l) 0) = l.
Proof. induction l as [|x l IH]; cbn; [done|]. f_equal; [lia | done]. Qed.

Lemma record_sum_cleared (f : Function.t) : record_sum f (cleared_record f) f.
Proof.
  unfold record_sum, cleared_record, Function.name, Function.code,
    Function.lines, Function.overhead, Function.line_time,
    Function.line_time_internal, BaseFunction.name, BaseFunction.overhead.
  cbn. rewrite !length_replicate, !zip_with_add_zeros.
  split_and!; try done. lia.
Qed.

Lemma store_sum_cleared (s : Module_) :
  store_sum s (start (stop (cleared s))) (start (stop s)).
Proof.
  split.
  - intros code. cbn. rewrite lookup_fmap.
    destruct (functions_ s !! code) as [f|]; cbn; [|done].
    exists (cleared_record f), f. split_and!; try done.
    apply record_sum_cleared.
  - intros name. cbn. rewrite lookup_fmap.
    destruct (c_functions_ s !! name) as [b|]; cbn; [|done].
    exists (cleared_c_record b), b. split_and!; try done.
    unfold c_record_sum, cleared_c_record, BaseFunction.overhead,
      BaseFunction.name. cbn. split_and!; [done | done | lia].
Qed.

Lemma same_control_cleared (s : Module_) :
  same_control (start (stop s)) (start (stop (cleared s))).
Proof. by unfold same_control. Qed.

(** A line add goes through on the summed record exactly when it does
    on the added one, and keeps the sum. *)
Lemma vector_at_zip_with_add (l0 lt : list Z) (i : Z) (old : Z) :
  vector_at (zip_with Z.add l0 lt) i = Ok old →
  ∃ x y, old = x + y ∧ l0 !! Z.to_nat i = Some x ∧ vector_at lt i = Ok y.
Proof.
  intros [Hi Hold]%vector_at_Ok.
  apply lookup_zip_with_Some in Hold as (x & y & -> & Hx & Hy).
  exists x, y. split_and!; [done | done |]. by apply vector_at_lookup.
Qed.

Lemma insert_zip_with_add (l0 lt : list Z) (n : nat) (x y t : Z) :
  l0 !! n = Some x →
  <[n := x + y + t]> (zip_with Z.add l0 lt)
  = zip_with Z.add l0 (<[n := y + t]> lt).
Proof.
  intros Hx. replace (x + y + t) with (x + (y + t)) by lia.
  rewrite insert_zip_with. by rewrite (list_insert_id l0 n x).
Qed.

Lemma add_elapsed_sum (i : Z) (time : duration) (f0 ft f f' : Function.t) :
  record_sum f0 ft f →
  Function.add_elapsed i time f = Ok f' →
  ∃ ft', Function.add_elapsed i time ft = Ok ft' ∧ record_sum f0 ft' f'.
Proof.
  unfold record_sum, Function.name, Function.code, Function.lines,
    Function.overhead, Function.line_time, Function.line_time_internal.
  intros (Hn & Hnt & Hc & Hct & Hl & Hlt & Ho & Hlen & Ht & Hleni & Hi).
  unfold Function.add_elapsed.
  intros (old & Hat & [= <-])%bind_Ok_inv. rewrite Ht in Hat.
  apply vector_at_zip_with_add in Hat as (x & y & -> & Hx & Hy).
  unfold duration in *. rewrite Hy. cbn. eexists. split; [reflexivity|]. cbn.
  split_and!; try done.
  - by rewrite length_insert.
  - rewrite Ht. by apply insert_zip_with_add.
Qed.

Lemma add_elapsed_internal_sum (i : Z) (time : duration)
    (f0 ft f f' : Function.t) :
  record_sum f0 ft f →
  Function.add_elapsed_internal i time f = Ok f' →
  ∃ ft', Function.add_elapsed_internal i time ft = Ok ft'
         ∧ record_sum f0 ft' f'.
Proof.
  unfold record_sum, Function.name, Function.code, Function.lines,
    Function.overhead, Function.line_time, Function.line_time_internal.
  intros (Hn & Hnt & Hc & Hct & Hl & Hlt & Ho & Hlen & Ht & Hleni & Hi).
  unfold Function.add_elapsed_internal.
  intros (old & Hat & [= <-])%bind_Ok_inv. rewrite Hi in Hat.
  apply vector_at_zip_with_add in Hat as (x & y & -> & Hx & Hy).
  unfold duration in *. rewrite Hy. cbn. eexists. split; [reflexivity|]. cbn.
  split_and!; try done.
  - by rewrite length_insert.
  - rewrite Hi. by apply insert_zip_with_add.
Qed.

Lemma pop_frame_loop_sum (i : Z) (lines : list LineState.t)
    (f0 ft f f' : Function.t) :
  record_sum f0 ft f →
  pop_frame_loop i lines f = Ok f' →
  ∃ ft', pop_frame_loop i lines ft = Ok ft' ∧ record_sum f0 ft' f'.
Proof.
  revert ft f. induction lines as [|line lines IH]; intros ft f Hsum; cbn.
  - intros [= <-]. eauto.
  - intros (f1 & H1 & (f2 & H2 & Hrec)%bind_Ok_inv)%bind_Ok_inv.
    destruct (add_elapsed_sum _ _ _ _ _ _ Hsum H1) as (ft1 & E1 & Hsum1).
    destruct (add_elapsed_internal_sum _ _ _ _ _ _ Hsum1 H2)
      as (ft2 & E2 & Hsum2).
    destruct (IH ft2 f2 Hsum2 Hrec) as (ft' & E & Hsum').
    exists ft'. split; [|done]. by rewrite E1, bind_Ok, E2, bind_Ok.
Qed.

Lemma base_add_elapsed_internal_sum (time : duration)
    (f0 ft f : Function.t) :
  record_sum f0 ft f →
  record_sum f0 (Function.base_add_elapsed_internal time ft).1
    (Function.base_add_elapsed_internal time f).1.
Proof.
  unfold record_sum, Function.name, Function.code, Function.lines,
    Function.overhead, Function.line_time, Function.line_time_internal,
    BaseFunction.name, BaseFunction.overhead.
  intros (Hn & Hnt & Hc & Hct & Hl & Hlt & Ho & Hlen & Ht & Hleni & Hi).
  cbn. split_and!; try done. lia.
Qed.
Lemma store_sum_lookup (s0 t s : Module_) (code : N) (f : Function.t) :
  store_sum s0 t s →
  functions_ s !! code = Some f →
  ∃ ft, functions_ t !! code = Some ft
        ∧ record_added (functions_ s0 !! code) ft f.
Proof.
  intros [Hsum _] Hf. specialize (Hsum code). unfold record_added.
  destruct (functions_ s0 !! code) as [f0|].
  - destruct Hsum as (ft & f' & Ht & Hs & Hr).
    rewrite Hf in Hs. injection Hs as <-. eauto.
  - rewrite Hf in Hsum. eauto.
Qed.

Lemma store_sum_c_lookup (s0 t s : Module_) (name : string)
    (b : BaseFunction.t) :
  store_sum s0 t s →
  c_functions_ s !! name = Some b →
  ∃ bt, c_functions_ t !! name = Some bt
        ∧ c_record_added (c_functions_ s0 !! name) bt b.
Proof.
  intros [_ Hsum] Hb. specialize (Hsum name). unfold c_record_added.
  destruct (c_functions_ s0 !! name) as [b0|].
  - destruct Hsum as (bt & b' & Ht & Hs & Hr).
    rewrite Hb in Hs. injection Hs as <-. eauto.
  - rewrite Hb in Hsum. eauto.
Qed.

Lemma store_sum_insert (s0 t s t' s' : Module_) (code : N)
    (ft' f' : Function.t) :
  store_sum s0 t s →
  record_added (functions_ s0 !! code) ft' f' →
  functions_ t' = <[code := ft']> (functions_ t) →
  functions_ s' = <[code := f']> (functions_ s) →
  c_functions_ t' = c_functions_ t →
  c_functions_ s' = c_functions_ s →
  store_sum s0 t' s'.
Proof.
  intros [Hf Hc] Hadd Et Es Ect Ecs. split; [|by rewrite Ect, Ecs].
  intros k. rewrite Et, Es, !lookup_insert.
  case_decide as Hk; [subst k | apply Hf].
  unfold record_added in Hadd.
  destruct (functions_ s0 !! code); [eauto | by subst].
Qed.

Lemma store_sum_c_insert (s0 t s t' s' : Module_) (name : string)
    (bt' b' : BaseFunction.t) :
  store_sum s0 t s →
  c_record_added (c_functions_ s0 !! name) bt' b' →
  c_functions_ t' = <[name := bt']> (c_functions_ t) →
  c_functions_ s' = <[name := b']> (c_functions_ s) →
  functions_ t' = functions_ t →
  functions_ s' = functions_ s →
  store_sum s0 t' s'.
Proof.
  intros [Hf Hc] Hadd Et Es Eft Efs. split; [by rewrite Eft, Efs|].
  intros k. rewrite Et, Es, !lookup_insert.
  case_decide as Hk; [subst k | apply Hc].
  unfold c_record_added in Hadd.
  destruct (c_functions_ s0 !! name); [eauto | by subst].
Qed.

Lemma store_sum_same (s0 t s t' s' : Module_) :
  store_sum s0 t s →
  functions_ t' = functions_ t → functions_ s' = functions_ s →
  c_functions_ t' = c_functions_ t → c_functions_ s' = c_functions_ s →
  store_sum s0 t' s'.
Proof.
  intros [Hf Hc] Eft Efs Ect Ecs. split.
  - by rewrite Eft, Efs.
  - by rewrite Ect, Ecs.
Qed.

Lemma record_added_overhead (o0 : option Function.t) (time : duration)
    (ft f : Function.t) :
  record_added o0 ft f →
  record_added o0 (Function.base_add_elapsed_internal time ft).1
    (Function.base_add_elapsed_internal time f).1.
Proof.
  destruct o0 as [f0|]; cbn.
  - apply base_add_elapsed_internal_sum.
  - by intros ->.
Qed.

Lemma record_added_loop (o0 : option Function.t) (i : Z)
    (lines : list LineState.t) (ft f f' : Function.t) :
  record_added o0 ft f →
  pop_frame_loop i lines f = Ok f' →
  ∃ ft', pop_frame_loop i lines ft = Ok ft' ∧ record_added o0 ft' f'.
Proof.
  destruct o0 as [f0|]; cbn.
  - apply pop_frame_loop_sum.
  - intros -> Hloop. eauto.
Qed.

(** The fold of a return on two engines under the same control: it goes
    through on both or on neither, and keeps the sum. *)
Lemma pop_frame_sum (s0 t s s' : Module_) :
  same_control s t →
  store_sum s0 t s →
  pop_frame s = Ok s' →
  ∃ t', pop_frame t = Ok t' ∧ same_control s' t' ∧ store_sum s0 t' s'.
Proof.
  intros (Est & Eli & Et0 & Et1 & Enm) Hsum.
  unfold pop_frame. rewrite <- Est.
  destruct (frame_stack_ s) as [|frame rest]; [discriminate|].
  intros (f & Hf%map_at_Ok & H)%bind_Ok_inv.
  destruct (store_sum_lookup _ _ _ _ _ Hsum Hf) as (ft & Hft & Hadd).
  rewrite (map_at_lookup _ _ ft Hft), bind_Ok.
  apply (record_added_overhead _ (FrameState.internal frame)) in Hadd.
  destruct (Function.base_add_elapsed_internal _ f) as [g out].
  destruct (Function.base_add_elapsed_internal _ ft) as [gt outt].
  cbn [fst] in Hadd. cbn in H. apply bind_Ok_inv in H as (f' & Hloop & H).
  destruct (record_added_loop _ _ _ _ _ _ Hadd Hloop)
    as (ft' & Hloopt & Hadd').
  cbn. rewrite Hloopt, bind_Ok.
  destruct rest as [|top rest'].
  - injection H as <-. eexists. split; [reflexivity|]. split.
    + by unfold same_control.
    + by eapply (store_sum_insert s0 t s _ _ (FrameState.key frame) ft' f').
  - apply bind_Ok_inv in H as (top' & Htop & [= <-]).
    rewrite Htop, bind_Ok. eexists. split; [reflexivity|]. split.
    + by unfold same_control.
    + by eapply (store_sum_insert s0 t s _ _ (FrameState.key frame) ft' f').
Qed.

Lemma same_control_elapsed (s t : Module_) :
  same_control s t → elapsed s = elapsed t.
Proof. intros (_ & _ & E0 & E1 & _). unfold elapsed. by rewrite E0, E1. Qed.

Lemma profile_finish_sum (frame : PyFrameObject) (s0 t s s' : Module_) :
  same_control s t →
  store_sum s0 t s →
  profile_finish frame s = Ok s' →
  ∃ t', profile_finish frame t = Ok t' ∧ same_control s' t'
        ∧ store_sum s0 t' s'.
Proof.
  intros Hctl Hsum. pose proof (same_control_elapsed _ _ Hctl) as Hel.
  pose proof Hctl as (Est & Eli & Et0 & Et1 & Enm).
  unfold profile_finish. rewrite <- Eli. destruct (last_instruction_ s) eqn:Hli.
  - intros [= <-]. eauto.
  - unfold finish_line. rewrite <- Est, <- Hel.
    destruct (frame_stack_ s) as [|top rest] eqn:Hst.
    + intros [= <-]. eauto.
    + intros (top' & Htop & [= <-])%bind_Ok_inv. rewrite Htop, bind_Ok.
      eexists. split; [reflexivity|]. split; [same_control_tac|].
      by eapply store_sum_same.
  - unfold finish_call. rewrite <- Hel.
    intros (f & Hf%map_at_Ok & H)%bind_Ok_inv.
    destruct (store_sum_lookup _ _ _ _ _ Hsum Hf) as (ft & Hft & Hadd).
    rewrite (map_at_lookup _ _ ft Hft), bind_Ok.
    apply (record_added_overhead _ (elapsed s)) in Hadd.
    destruct (Function.base_add_elapsed_internal _ f) as [g out].
    destruct (Function.base_add_elapsed_internal _ ft) as [gt outt].
    cbn [fst] in Hadd. injection H as <-.
    eexists. split; [reflexivity|]. split; [same_control_tac|].
    by eapply (store_sum_insert s0 t s _ _ (f_code frame) gt g).
  - unfold finish_return. rewrite <- Est, <- Hel.
    destruct (frame_stack_ s) as [|top rest] eqn:Hst; [discriminate|].
    apply pop_frame_sum.
    + same_control_tac.
    + by eapply store_sum_same.
  - intros [= <-]. eauto.
  - unfold finish_ccall. rewrite <- Enm.
    intros (b & Hb%map_at_Ok & H)%bind_Ok_inv.
    destruct (store_sum_c_lookup _ _ _ _ _ Hsum Hb) as (bt & Hbt & Hadd).
    rewrite (map_at_lookup _ _ bt Hbt), bind_Ok.
    unfold elapsed in *. cbn in H |- *. rewrite <- Est, <- Et0, <- Et1.
    destruct (frame_stack_ s) as [|top rest] eqn:Hst; [discriminate|].
    apply bind_Ok_inv in H as (top' & Htop & [= <-]).
    rewrite Htop, bind_Ok.
    eexists. split; [reflexivity|]. split; [same_control_tac|].
    eapply (store_sum_c_insert s0 t s _ _ (last_c_name_ s));
      [exact Hsum | | cbn; reflexivity | cbn; reflexivity
       | reflexivity | reflexivity].
    unfold c_record_added in *. destruct (c_functions_ s0 !! last_c_name_ s).
    + unfold c_record_sum, BaseFunction.name, BaseFunction.overhead in *.
      cbn. destruct Hadd as (Hn & Hnt & Ho). split_and!; [done | done | lia].
    + by subst.
  - unfold finish_creturn. rewrite <- Est, <- Hel.
    destruct (frame_stack_ s) as [|top rest] eqn:Hst; [discriminate|].
    intros [= <-]. eexists. split; [reflexivity|].
    split; [same_control_tac|]. by eapply store_sum_same.
  - intros [= <-]. eauto.
  - intros [= <-]. eauto.
Qed.

Lemma profile_begin_sum (py : PyRuntime) (what : PyTrace)
    (frame : PyFrameObject) (arg : N) (s0 t s s' : Module_) :
  same_control s t →
  store_sum s0 t s →
  profile_begin py what frame arg s = Ok s' →
  ∃ t', profile_begin py what frame arg t = Ok t' ∧ same_control s' t'
        ∧ store_sum s0 t' s'.
Proof.
  intros Hctl Hsum. pose proof Hctl as (Est & Eli & Et0 & Et1 & Enm).
  destruct what; cbn; try discriminate; intros [= <-];
    (eexists; split; [reflexivity|]).
  - (* PyTrace_CALL *)
    unfold profile_call, emplace_frame, add_function.
    destruct (get_lines py frame) as [lines starting_line] eqn:Hlines.
    pose proof Hsum as [Hf Hc]. specialize (Hf (f_code frame)).
    destruct (functions_ s !! f_code frame) as [f|] eqn:Hs;
      destruct (functions_ t !! f_code frame) as [ft|] eqn:Ht.
    + split; [same_control_tac|].
      by eapply store_sum_same.
    + destruct (functions_ s0 !! f_code frame);
        [destruct Hf as (? & ? & ? & ? & ?)|]; congruence.
    + destruct (functions_ s0 !! f_code frame);
        [destruct Hf as (? & ? & ? & ? & ?)|]; congruence.
    + split; [same_control_tac|].
      unfold map_emplace. cbn. rewrite Hs, Ht.
      destruct (functions_ s0 !! f_code frame) as [f0|] eqn:H0;
        [destruct Hf as (? & ? & ? & ? & ?); congruence|].
      eapply (store_sum_insert s0 t s _ _ (f_code frame));
        [exact Hsum | | cbn; reflexivity | cbn; reflexivity
         | reflexivity | reflexivity].
      unfold record_added. by rewrite H0.
  - (* PyTrace_EXCEPTION *) done.
  - (* PyTrace_LINE *)
    unfold profile_line. cbn. rewrite <- Est.
    destruct (frame_stack_ s) eqn:Hst.
    + split; [same_control_tac|]. by eapply store_sum_same.
    + split; [same_control_tac|]. by eapply store_sum_same.
  - (* PyTrace_RETURN *)
    split; [same_control_tac|]. by eapply store_sum_same.
  - (* PyTrace_C_CALL *)
    unfold profile_c_call, add_c_function. cbn.
    split; [same_control_tac|].
    pose proof Hsum as [Hf Hc]. specialize (Hc (PyObject_Str py arg)).
    unfold map_emplace.
    destruct (c_functions_ s !! PyObject_Str py arg) as [b|] eqn:Hs;
      destruct (c_functions_ t !! PyObject_Str py arg) as [bt|] eqn:Ht.
    + by eapply store_sum_same.
    + destruct (c_functions_ s0 !! PyObject_Str py arg);
        [destruct Hc as (? & ? & ? & ? & ?)|]; congruence.
    + destruct (c_functions_ s0 !! PyObject_Str py arg);
        [destruct Hc as (? & ? & ? & ? & ?)|]; congruence.
    + destruct (c_functions_ s0 !! PyObject_Str py arg) as [b0|] eqn:H0;
        [destruct Hc as (? & ? & ? & ? & ?); congruence|].
      eapply (store_sum_c_insert s0 t s _ _ (PyObject_Str py arg));
        [exact Hsum | | cbn; reflexivity | cbn; reflexivity
         | reflexivity | reflexivity].
      unfold c_record_added. by rewrite H0.
  - (* PyTrace_C_EXCEPTION *)
    split; [same_control_tac|]. by eapply store_sum_same.
  - (* PyTrace_C_RETURN *)
    split; [same_control_tac|]. by eapply store_sum_same.
  - (* PyTrace_OPCODE *) done.
Qed.

Lemma dispatch_sum (py : PyRuntime) (e : Event) (s0 t s s' : Module_) :
  same_control s t →
  store_sum s0 t s →
  dispatch py e s = Ok s' →
  ∃ t', dispatch py e t = Ok t' ∧ same_control s' t' ∧ store_sum s0 t' s'.
Proof.
  intros Hctl Hsum. unfold dispatch, profile.
  intros (s1 & H1 & (s2 & H2 & [= <-])%bind_Ok_inv)%bind_Ok_inv.
  apply (profile_finish_sum _ s0 (set_last_instruction_end_ (ev_now0 e) t))
    in H1 as (t1 & -> & Hctl1 & Hsum1);
    [| same_control_tac
     | by eapply store_sum_same].
  rewrite bind_Ok.
  apply (profile_begin_sum _ _ _ _ s0 t1) in H2 as (t2 & -> & Hctl2 & Hsum2);
    [| done | done].
  rewrite bind_Ok. eexists. split; [reflexivity|]. split.
  - same_control_tac.
  - by eapply store_sum_same.
Qed.

Lemma run_sum (py : PyRuntime) (events : list Event) (s0 t s s' : Module_) :
  same_control s t →
  store_sum s0 t s →
  run py events s = Ok s' →
  ∃ t', run py events t = Ok t' ∧ same_control s' t' ∧ store_sum s0 t' s'.
Proof.
  revert t s. induction events as [|e events IH]; intros t s Hctl Hsum; cbn.
  - intros [= <-]. eauto.
  - intros (s1 & H1 & Hrun)%bind_Ok_inv.
    destruct (dispatch_sum _ _ _ _ _ _ Hctl Hsum H1)
      as (t1 & -> & Hctl1 & Hsum1).
    rewrite bind_Ok. by apply (IH t1 s1).
Qed.

(** ** What the first events after a restart add *)

(** A begin rule on an engine that has the record of the frame's code
    object: it goes through for every kind the hooks deliver and leaves
    the interpreted records alone. *)
Lemma profile_begin_known (py : PyRuntime) (what : PyTrace)
    (frame : PyFrameObject) (arg : N) (s : Module_) :
  (∀ other, what ≠ PyTrace_other other) →
  is_Some (functions_ s !! f_code frame) →
  ∃ s', profile_begin py what frame arg s = Ok s'
        ∧ functions_ s' = functions_ s
        ∧ (∀ name b, c_functions_ s !! name = Some b →
                     c_functions_ s' !! name = Some b).
Proof.
  intros Hwhat [f Hf].
  destruct what; cbn; try (by destruct (Hwhat what));
    (eexists; split; [reflexivity|]).
  - unfold profile_call, emplace_frame, add_function. rewrite Hf.
    by destruct (get_lines py frame).
  - done.
  - unfold profile_line. cbn. by destruct (frame_stack_ s).
  - done.
  - cbn. split; [done|]. intros name b Hb.
    destruct (decide (PyObject_Str py arg = name)) as [<-|Hne].
    + rewrite map_emplace_taken; eauto.
    + by rewrite map_emplace_other.
  - done.
  - done.
  - done.
Qed.

(** A call of a callable that has a record, on a started engine. *)
Lemma call_of_known_callable (py : PyRuntime) (now now' : time_point)
    (frame : PyFrameObject) (arg : N) (s : Module_) :
  last_instruction_ s = kOrigin →
  is_Some (functions_ s !! f_code frame) →
  ∃ s1,
    profile py now now' PyTrace_CALL frame arg s = Ok s1
    ∧ functions_ s1 = functions_ s
    ∧ c_functions_ s1 = c_functions_ s
    ∧ last_instruction_ s1 = kCall
    ∧ last_instruction_start_ s1 = now'.
Proof.
  intros Hlast [f Hf].
  destruct s as [fs cfs st li t0 t1 nm co pf tf]. cbn in *. subst.
  unfold profile, profile_finish. cbn.
  unfold profile_call, add_function, emplace_frame. cbn. rewrite Hf.
  eexists. split; [reflexivity|]. done.
Qed.

(** The dispatch that follows a call, in the callee. *)
Lemma dispatch_after_call (py : PyRuntime) (now now' : time_point)
    (what : PyTrace) (frame : PyFrameObject) (arg : N) (s1 : Module_)
    (f : Function.t) :
  (∀ other, what ≠ PyTrace_other other) →
  last_instruction_ s1 = kCall →
  functions_ s1 !! f_code frame = Some f →
  ∃ s2,
    profile py now now' what frame arg s1 = Ok s2
    ∧ functions_ s2
      = <[f_code frame :=
            Function.mk
              (BaseFunction.mk (Function.name f)
                 (Function.overhead f + (now - last_instruction_start_ s1)))
              (Function.code_ f) (Function.lines_ f) (Function.line_time_ f)
              (Function.line_time_internal_ f)]> (functions_ s1)
    ∧ (∀ name b, c_functions_ s1 !! name = Some b →
                 c_functions_ s2 !! name = Some b).
Proof.
  intros Hwhat Hlast Hf.
  destruct s1 as [fs cfs st li t0 t1 nm co pf tf]. cbn in *. subst.
  unfold profile, profile_finish. cbn.
  erewrite finish_call_Ok; [|cbn; exact Hf]. rewrite bind_Ok.
  match goal with
  | |- context [profile_begin py what frame arg ?s] =>
      destruct (profile_begin_known py what frame arg s Hwhat)
        as (s2 & -> & Hfs & Hcs)
  end.
  { cbn. rewrite lookup_insert_eq. eauto. }
  rewrite bind_Ok. eexists. split; [reflexivity|]. split.
  - cbn. rewrite Hfs. reflexivity.
  - intros name b Hb. cbn. by apply Hcs.
Qed.

(** After a restart, a call of a callable that has a record and the
    event that follows it in the callee: the interval between the two is
    added to the overhead the record had before the stop. *)
Lemma call_after_restart_adds_overhead (py : PyRuntime) (e1 e2 : Event)
    (s : Module_) (f : Function.t) :
  ev_what e1 = PyTrace_CALL →
  f_code (ev_frame e2) = f_code (ev_frame e1) →
  (∀ other, ev_what e2 ≠ PyTrace_other other) →
  functions_ s !! f_code (ev_frame e1) = Some f →
  ∃ s2,
    run py [e1; e2] (start (stop s)) = Ok s2
    ∧ functions_ s2
      = <[f_code (ev_frame e1) :=
            Function.mk
              (BaseFunction.mk (Function.name f)
                 (Function.overhead f + (ev_now0 e2 - ev_now1 e1)))
              (Function.code_ f) (Function.lines_ f) (Function.line_time_ f)
              (Function.line_time_internal_ f)]> (functions_ s).
Proof.
  intros Hcall Hcode Hwhat Hf.
  destruct (call_of_known_callable py (ev_now0 e1) (ev_now1 e1) (ev_frame e1)
              (ev_arg e1) (start (stop s)))
    as (s1 & H1 & Hfs1 & _ & Hlast1 & Hstart1); [done | by eauto |].
  rewrite <- Hcode in Hf.
  destruct (dispatch_after_call py (ev_now0 e2) (ev_now1 e2) (ev_what e2)
              (ev_frame e2) (ev_arg e2) s1 f)
    as (s2 & H2 & Hfs2 & _); [done | done | by rewrite Hfs1 |].
  exists s2. split.
  - unfold run, dispatch. rewrite Hcall, H1, bind_Ok, H2. reflexivity.
  - rewrite Hfs2, Hstart1, Hfs1, Hcode. reflexivity.
Qed.

Lemma profile_begin_total (py : PyRuntime) (what : PyTrace)
    (frame : PyFrameObject) (arg : N) (s : Module_) :
  (∀ other, what ≠ PyTrace_other other) →
  ∃ s', profile_begin py what frame arg s = Ok s'.
Proof.
  intros Hwhat. destruct what; cbn; try (by destruct (Hwhat what)); eauto.
Qed.

(** A foreign call under a name that has a record, on a started engine. *)
Lemma foreign_call_of_known_name (py : PyRuntime) (now now' : time_point)
    (frame : PyFrameObject) (arg : N) (s : Module_) :
  last_instruction_ s = kOrigin →
  is_Some (c_functions_ s !! PyObject_Str py arg) →
  ∃ s1,
    profile py now now' PyTrace_C_CALL frame arg s = Ok s1
    ∧ functions_ s1 = functions_ s
    ∧ c_functions_ s1 = c_functions_ s
    ∧ frame_stack_ s1 = frame_stack_ s
    ∧ last_instruction_ s1 = kCCall
    ∧ last_c_name_ s1 = PyObject_Str py arg
    ∧ last_instruction_start_ s1 = now'.
Proof.
  intros Hlast Hb.
  destruct s as [fs cfs st li t0 t1 nm co pf tf]. cbn in *. subst.
  unfold profile, profile_finish. cbn.
  eexists. split; [reflexivity|]. cbn.
  by rewrite map_emplace_taken.
Qed.

(** The dispatch that follows a foreign call, whatever it is. *)
Lemma dispatch_after_foreign_call_adds (py : PyRuntime)
    (now now' : time_point) (what : PyTrace) (frame : PyFrameObject)
    (arg : N) (s1 : Module_) (b : BaseFunction.t) (top : FrameState.t)
    (rest : list FrameState.t) :
  (∀ other, what ≠ PyTrace_other other) →
  last_instruction_ s1 = kCCall →
  c_functions_ s1 !! last_c_name_ s1 = Some b →
  frame_stack_ s1 = top :: rest →
  has_current_line top →
  ∃ s2,
    profile py now now' what frame arg s1 = Ok s2
    ∧ c_functions_ s2 !! last_c_name_ s1
      = Some (BaseFunction.mk (BaseFunction.name b)
                (BaseFunction.overhead b
                 + (now - last_instruction_start_ s1))).
Proof.
  intros Hwhat Hlast Hb Hstack [line Hline].
  destruct s1 as [fs cfs st li t0 t1 nm co pf tf]. cbn in *. subst.
  unfold profile, profile_finish. cbn.
  erewrite finish_ccall_Ok; [| cbn; eassumption | cbn; reflexivity
                             | eassumption].
  rewrite bind_Ok.
  match goal with
  | |- context [profile_begin py what frame arg ?s] =>
      destruct (profile_begin_total py what frame arg s Hwhat) as (s2 & H2)
  end.
  rewrite H2, bind_Ok. apply profile_begin_records in H2 as [_ Hcs].
  eexists. split; [reflexivity|]. cbn. apply Hcs. cbn.
  by rewrite lookup_insert_eq.
Qed.

(** After a restart, a foreign call under a name that has a record,
    made from an invocation whose current line is observed, and the event
    that follows it: the interval between the two is added to the
    overhead the foreign record had before the stop. *)
Lemma foreign_call_after_restart_adds_overhead (py : PyRuntime)
    (e1 e2 : Event) (s : Module_) (b : BaseFunction.t) (top : FrameState.t)
    (rest : list FrameState.t) :
  ev_what e1 = PyTrace_C_CALL →
  (∀ other, ev_what e2 ≠ PyTrace_other other) →
  c_functions_ s !! PyObject_Str py (ev_arg e1) = Some b →
  frame_stack_ s = top :: rest →
  has_current_line top →
  ∃ s2,
    run py [e1; e2] (start (stop s)) = Ok s2
    ∧ c_functions_ s2 !! PyObject_Str py (ev_arg e1)
      = Some (BaseFunction.mk (BaseFunction.name b)
                (BaseFunction.overhead b + (ev_now0 e2 - ev_now1 e1))).
Proof.
  intros Hcall Hwhat Hb Hstack Hline.
  destruct (foreign_call_of_known_name py (ev_now0 e1) (ev_now1 e1)
              (ev_frame e1) (ev_arg e1) (start (stop s)))
    as (s1 & H1 & _ & Hcs1 & Hst1 & Hlast1 & Hname1 & Hstart1);
    [done | by eauto |].
  destruct (dispatch_after_foreign_call_adds py (ev_now0 e2) (ev_now1 e2)
              (ev_what e2) (ev_frame e2) (ev_arg e2) s1 b top rest)
    as (s2 & H2 & Hcs2);
    [done | done | by rewrite Hname1, Hcs1 | by rewrite Hst1 | done |].
  exists s2. split.
  - unfold run, dispatch. rewrite Hcall, H1, bind_Ok, H2. reflexivity.
  - rewrite <- Hname1, Hcs2, Hstart1. reflexivity.
Qed.

(** C8. [stop()] followed by [start()] leaves both record maps and the
    stack as they were, and installs the hooks again. The first event
    after the restart finds every record as it was before the stop, and
    whatever is processed afterwards, every record of before the stop is
    still in the store under its key and name. What is processed after the
    restart is added to what the store held: the events that run on the
    restarted engine run as well on the same engine with every
    accumulator set to zero, and each record of before the stop ends up
    with, in every accumulator, what it held plus what the events leave in
    the zeroed one; a record created after the restart is the same in
    both. In particular the interval after a call of a callable that has
    a record is added to the overhead that record had, every other
    accumulator and record staying as it was, and the interval after a
    foreign call to the overhead its foreign record had. *)
Theorem stop_then_start_keeps_the_store (py : PyRuntime) (s : Module_) :
  functions_ (start (stop s)) = functions_ s
  ∧ c_functions_ (start (stop s)) = c_functions_ s
  ∧ frame_stack_ (start (stop s)) = frame_stack_ s
  ∧ c_profilefunc (start (stop s)) = true
  ∧ c_tracefunc (start (stop s)) = true
  ∧ (∀ e s',
       dispatch py e (start (stop s)) = Ok s' →
       (∀ code f, functions_ s !! code = Some f →
                  functions_ s' !! code = Some f)
       ∧ (∀ name f, c_functions_ s !! name = Some f →
                    c_functions_ s' !! name = Some f))
  ∧ (∀ events s',
       run py events (start (stop s)) = Ok s' → store_kept s s')
  ∧ (∀ events s',
       run py events (start (stop s)) = Ok s' →
       ∃ t, run py events (start (stop (cleared s))) = Ok t
            ∧ store_sum s t s')
  ∧ (∀ e1 e2 f,
       ev_what e1 = PyTrace_CALL →
       f_code (ev_frame e2) = f_code (ev_frame e1) →
       (∀ other, ev_what e2 ≠ PyTrace_other other) →
       functions_ s !! f_code (ev_frame e1) = Some f →
       ∃ s2,
         run py [e1; e2] (start (stop s)) = Ok s2
         ∧ functions_ s2
           = <[f_code (ev_frame e1) :=
                 Function.mk
                   (BaseFunction.mk (Function.name f)
                      (Function.overhead f + (ev_now0 e2 - ev_now1 e1)))
                   (Function.code_ f) (Function.lines_ f)
                   (Function.line_time_ f) (Function.line_time_internal_ f)]>
               (functions_ s))
  ∧ (∀ e1 e2 b top rest,
       ev_what e1 = PyTrace_C_CALL →
       (∀ other, ev_what e2 ≠ PyTrace_other other) →
       c_functions_ s !! PyObject_Str py (ev_arg e1) = Some b →
       frame_stack_ s = top :: rest →
       has_current_line top →
       ∃ s2,
         run py [e1; e2] (start (stop s)) = Ok s2
         ∧ c_functions_ s2 !! PyObject_Str py (ev_arg e1)
           = Some (BaseFunction.mk (BaseFunction.name b)
                     (BaseFunction.overhead b
                      + (ev_now0 e2 - ev_now1 e1)))).
Proof.
  repeat (split; [reflexivity|]). split; [|split; [|split; [|split]]].
  - intros e s'. unfold dispatch, profile, profile_finish, finish_origin.
    cbn. intros (s2 & H2 & [= <-])%bind_Ok_inv.
    by apply profile_begin_records in H2.
  - intros events s' Hrun. apply run_store_kept in Hrun. exact Hrun.
  - intros events s' Hrun.
    destruct (run_sum py events s (start (stop (cleared s))) (start (stop s))
                s' (same_control_cleared s) (store_sum_cleared s) Hrun)
      as (t & Ht & _ & Hsum).
    eauto.
  - intros e1 e2 f. apply call_after_restart_adds_overhead.
  - intros e1 e2 b top rest. apply foreign_call_after_restart_adds_overhead.
Qed.
(** ** The total of an invocation *)

Lemma foldl_total_shift (lines : list LineState.t) (a : Z) :
  foldl (λ result line,
           result + LineState.internal line + LineState.external line) a lines
  = a + (sum_internal lines + sum_external lines).
Proof.
  unfold sum_internal, sum_external.
  revert a. induction lines as [|line lines IH]; intros a; cbn; [lia|].
  rewrite IH. unfold LineState.internal, LineState.external. lia.
Qed.

(** [total_time] is the sum of the line accumulators: the overhead
    [internal_] of the invocation is not part of it. *)
Lemma total_time_sums (f : FrameState.t) :
  FrameState.total_time f
  = sum_internal (FrameState.lines_ f) + sum_external (FrameState.lines_ f).
Proof. unfold FrameState.total_time. by rewrite foldl_total_shift. Qed.


Lemma sums_replicate_zero (n : nat) :
  sum_internal (replicate n LineState.zero) = 0
  ∧ sum_external (replicate n LineState.zero) = 0.
Proof.
  unfold sum_internal, sum_external.
  induction n as [|n [IHi IHe]]; cbn; [done|]. by rewrite IHi, IHe.
Qed.

Lemma sums_insert (lines : list LineState.t) (i : nat) (old new : LineState.t) :
  lines !! i = Some old →
  sum_internal (<[i := new]> lines)
  = sum_internal lines - LineState.internal_ old + LineState.internal_ new
  ∧ sum_external (<[i := new]> lines)
    = sum_external lines - LineState.external_ old + LineState.external_ new.
Proof.
  unfold sum_internal, sum_external, LineState.internal, LineState.external.
  revert i. induction lines as [|line lines IH]; intros [|i] Hl;
    try discriminate.
  - cbn in Hl. injection Hl as ->. cbn. split; lia.
  - change (<[S i:=new]> (line :: lines)) with (line :: <[i:=new]> lines).
    cbn [foldr]. destruct (IH i Hl) as [Hi He]. rewrite Hi, He. split; lia.
Qed.

(** An invocation that has run one line only, for [d]: its total is [d]. *)
Lemma total_time_single_line (start current : Z) (code : N) (n i : nat)
    (d overhead : duration) :
  (i < n)%nat →
  FrameState.total_time
    (FrameState.mk start current code
       (<[i := LineState.add_internal d LineState.zero]>
          (replicate n LineState.zero)) overhead)
  = d.
Proof.
  intros Hi. rewrite total_time_sums. cbn [FrameState.lines_].
  destruct (sums_insert (replicate n LineState.zero) i LineState.zero
              (LineState.add_internal d LineState.zero)) as [Hint Hext].
  { by apply lookup_replicate_2. }
  rewrite Hint, Hext.
  destruct (sums_replicate_zero n) as [-> ->]. cbn. lia.
Qed.

(** ** Call, line, return: the dispatches one by one *)

Lemma profile_LINE_inv (py : PyRuntime) (now0 now1 : time_point)
    (frame : PyFrameObject) (arg : N) (s s1 : Module_) :
  profile py now0 now1 PyTrace_LINE frame arg s = Ok s1 →
  last_instruction_ s1 = kLine ∧ last_instruction_start_ s1 = now1.
Proof.
  unfold profile.
  intros (s0 & _ & (s2 & [= <-] & [= <-])%bind_Ok_inv)%bind_Ok_inv.
  cbn. by rewrite last_instruction_profile_line.
Qed.

(** A call dispatched after a line event. *)
Lemma call_after_line (py : PyRuntime) (now now' : time_point)
    (frame : PyFrameObject) (arg : N) (s : Module_)
    (top : FrameState.t) (rest : list FrameState.t) (line : LineState.t) :
  last_instruction_ s = kLine →
  frame_stack_ s = top :: rest →
  line_of top (current_pos top) = Some line →
  ∃ s',
    profile py now now' PyTrace_CALL frame arg s = Ok s'
    ∧ frame_stack_ s'
      = FrameState.new (f_code frame) (length (captured_lines py (f_code frame)))
          (PyLong_AsUnsignedLongLong
             (snd (inspect_getsourcelines py (f_code frame))))
        :: FrameState.mk (FrameState.starting_line_ top)
             (FrameState.current_line_ top) (FrameState.function_key_ top)
             (<[current_pos top :=
                  LineState.add_internal (now - last_instruction_start_ s)
                    line]> (FrameState.lines_ top))
             (FrameState.internal_ top)
        :: rest
    ∧ last_instruction_ s' = kCall
    ∧ last_instruction_start_ s' = now'
    ∧ is_Some (functions_ s' !! f_code frame)
    ∧ (∀ code f, functions_ s !! code = Some f →
                 functions_ s' !! code = Some f)
    ∧ c_functions_ s' = c_functions_ s.
Proof.
  intros Hlast Hstack Hline.
  destruct s as [fs cfs st li t0 t1 nm co pf tf]. cbn in *. subst.
  eexists. split.
  { unfold profile, profile_finish. cbn.
    rewrite (update_current_line_Ok _ _ line Hline). cbn. reflexivity. }
  match goal with
  | |- context [profile_call py frame ?s0] => set (s0' := s0)
  end.
  destruct (functions_add_function py frame s0') as (H1 & H2 & H3).
  split.
  { etransitivity; [exact (frame_stack_profile_call py frame s0')|].
    reflexivity. }
  split; [reflexivity|]. split; [reflexivity|].
  split; [exact H1|]. split; [exact H2 | exact H3].
Qed.

(** A line event dispatched after a call: the interval is the overhead of
    the record of the frame the event comes from. *)
Lemma line_after_call (py : PyRuntime) (now now' : time_point)
    (frame : PyFrameObject) (arg : N) (s : Module_) (f : Function.t)
    (top : FrameState.t) (rest : list FrameState.t) :
  last_instruction_ s = kCall →
  functions_ s !! f_code frame = Some f →
  frame_stack_ s = top :: rest →
  ∃ s',
    profile py now now' PyTrace_LINE frame arg s = Ok s'
    ∧ functions_ s'
      = <[f_code frame :=
            Function.mk
              (BaseFunction.mk (Function.name f)
                 (Function.overhead f + (now - last_instruction_start_ s)))
              (Function.code_ f) (Function.lines_ f) (Function.line_time_ f)
              (Function.line_time_internal_ f)]> (functions_ s)
    ∧ c_functions_ s' = c_functions_ s
    ∧ frame_stack_ s'
      = FrameState.set_current_line (to_size_t (f_lineno frame)) top :: rest
    ∧ last_instruction_ s' = kLine
    ∧ last_instruction_start_ s' = now'.
Proof.
  intros Hlast Hf Hstack.
  destruct s as [fs cfs st li t0 t1 nm co pf tf]. cbn in *. subst.
  eexists. split.
  { unfold profile, profile_finish. cbn.
    erewrite finish_call_Ok; [| cbn; eassumption].
    cbn. reflexivity. }
  cbn. done.
Qed.

(** A return dispatched after a line event: the interval goes to the
    current line of the returning invocation, which stays on the stack;
    no record is touched. *)
Lemma return_after_line (py : PyRuntime) (now now' : time_point)
    (frame : PyFrameObject) (arg : N) (s : Module_)
    (top : FrameState.t) (rest : list FrameState.t) (line : LineState.t) :
  last_instruction_ s = kLine →
  frame_stack_ s = top :: rest →
  line_of top (current_pos top) = Some line →
  ∃ s',
    profile py now now' PyTrace_RETURN frame arg s = Ok s'
    ∧ functions_ s' = functions_ s
    ∧ c_functions_ s' = c_functions_ s
    ∧ frame_stack_ s'
      = FrameState.mk (FrameState.starting_line_ top)
          (FrameState.current_line_ top) (FrameState.function_key_ top)
          (<[current_pos top :=
               LineState.add_internal (now - last_instruction_start_ s)
                 line]> (FrameState.lines_ top))
          (FrameState.internal_ top)
        :: rest
    ∧ last_instruction_ s' = kReturn
    ∧ last_instruction_start_ s' = now'.
Proof.
  intros Hlast Hstack Hline.
  destruct s as [fs cfs st li t0 t1 nm co pf tf]. cbn in *. subst.
  eexists. split.
  { unfold profile, profile_finish. cbn.
    rewrite (update_current_line_Ok _ _ line Hline). cbn. reflexivity. }
  cbn. done.
Qed.

(** [pop_frame] run forwards, with an invocation below the popped one. *)
Lemma pop_frame_Ok (s : Module_) (frame caller : FrameState.t)
    (rest : list FrameState.t) (f : Function.t) (line : LineState.t) :
  frame_stack_ s = frame :: caller :: rest →
  functions_ s !! FrameState.key frame = Some f →
  (FrameState.lines frame ≠ [] →
   Function.line_time_ f ≠ [] ∧ Function.line_time_internal_ f ≠ []) →
  line_of caller (current_pos caller) = Some line →
  ∃ s',
    pop_frame s = Ok s'
    ∧ frame_stack_ s'
      = FrameState.mk (FrameState.starting_line_ caller)
          (FrameState.current_line_ caller)
          (FrameState.function_key_ caller)
          (<[current_pos caller :=
               LineState.add_external (FrameState.total_time frame) line]>
             (FrameState.lines_ caller))
          (FrameState.internal_ caller)
        :: rest
    ∧ (∃ f', functions_ s' = <[FrameState.key frame := f']> (functions_ s)
             ∧ Function.name f' = Function.name f
             ∧ Function.overhead f'
               = Function.overhead f + FrameState.internal frame)
    ∧ c_functions_ s' = c_functions_ s
    ∧ last_instruction_ s' = last_instruction_ s
    ∧ last_instruction_start_ s' = last_instruction_start_ s.
Proof.
  intros Hstack Hf Hne Hline.
  destruct s as [fs cfs st li t0 t1 nm co pf tf]. cbn in *. subst.
  eexists. split.
  { unfold pop_frame. cbn. rewrite (map_at_lookup _ _ f Hf). cbn.
    rewrite pop_frame_loop_sums by (cbn; exact Hne). cbn.
    rewrite (update_current_line_Ok _ _ line Hline). cbn. reflexivity. }
  cbn. split; [done|]. split; [|done].
  eexists. split; [reflexivity|]. done.
Qed.

Lemma frame_stack_profile_line (frame : PyFrameObject) (s : Module_)
    (top : FrameState.t) (rest : list FrameState.t) :
  frame_stack_ s = top :: rest →
  frame_stack_ (profile_line frame s)
  = FrameState.set_current_line (to_size_t (f_lineno frame)) top :: rest.
Proof. intros Hs. unfold profile_line. cbn. by rewrite Hs. Qed.

Lemma functions_profile_line (frame : PyFrameObject) (s : Module_) :
  functions_ (profile_line frame s) = functions_ s.
Proof. unfold profile_line. cbn. by destruct (frame_stack_ s). Qed.

Lemma c_functions_profile_line (frame : PyFrameObject) (s : Module_) :
  c_functions_ (profile_line frame s) = c_functions_ s.
Proof. unfold profile_line. cbn. by destruct (frame_stack_ s). Qed.

(** The dispatch after a return: only now is the returned invocation
    folded and popped, and the invocation below is charged its
    [total_time] on the line it is at. *)
Lemma line_after_return (py : PyRuntime) (now now' : time_point)
    (frame : PyFrameObject) (arg : N) (s : Module_)
    (top caller : FrameState.t) (rest : list FrameState.t) (f : Function.t)
    (line : LineState.t) :
  last_instruction_ s = kReturn →
  frame_stack_ s = top :: caller :: rest →
  functions_ s !! FrameState.key top = Some f →
  (FrameState.lines top ≠ [] →
   Function.line_time_ f ≠ [] ∧ Function.line_time_internal_ f ≠ []) →
  line_of caller (current_pos caller) = Some line →
  ∃ s' f',
    profile py now now' PyTrace_LINE frame arg s = Ok s'
    ∧ frame_stack_ s'
      = FrameState.mk (FrameState.starting_line_ caller)
          (to_size_t (f_lineno frame)) (FrameState.function_key_ caller)
          (<[current_pos caller :=
               LineState.add_external (FrameState.total_time top) line]>
             (FrameState.lines_ caller))
          (FrameState.internal_ caller)
        :: rest
    ∧ functions_ s' = <[FrameState.key top := f']> (functions_ s)
    ∧ Function.name f' = Function.name f
    ∧ Function.overhead f'
      = Function.overhead f
        + (FrameState.internal top + (now - last_instruction_start_ s))
    ∧ c_functions_ s' = c_functions_ s.
Proof.
  intros Hlast Hstack Hf Hne Hline.
  destruct (pop_frame_Ok
              (set_frame_stack_
                 (FrameState.add_internal (now - last_instruction_start_ s)
                    top :: caller :: rest)
                 (set_last_instruction_end_ now s))
              (FrameState.add_internal (now - last_instruction_start_ s) top)
              caller rest f line)
    as (s1 & Hpop & Hst1 & (f' & Hfs1 & Hn1 & Ho1) & Hc1 & Hl1 & Ht1);
    [done..|].
  exists (set_last_instruction_start_ now' (profile_line frame s1)), f'.
  assert (Hfin : profile_finish frame (set_last_instruction_end_ now s)
                 = Ok s1).
  { unfold profile_finish.
    cbn [last_instruction_ set_last_instruction_end_]. rewrite Hlast.
    unfold finish_return. cbn [frame_stack_ set_last_instruction_end_].
    rewrite Hstack. exact Hpop. }
  split.
  { unfold profile. cbn zeta. rewrite Hfin. reflexivity. }
  split.
  { etransitivity; [exact (frame_stack_profile_line frame s1 _ _ Hst1)|].
    reflexivity. }
  split.
  { etransitivity; [exact (functions_profile_line frame s1)|]. exact Hfs1. }
  split; [exact Hn1|]. split.
  { rewrite Ho1. reflexivity. }
  etransitivity; [exact (c_functions_profile_line frame s1)|]. exact Hc1.
Qed.

(** C2 (amended). The events [Line(L1), Call(callee), Line(callee, l),
    Return] and the dispatch after them, [d1], [d2], [d3] and [d4] apart,
    in a reachable state whose top invocation holds [L1]: the call
    dispatch adds [d1] to the internal time of the caller's line [L1];
    the line dispatch adds [d2] to the overhead of the callee's record;
    the return dispatch adds [d3] to the internal time of the callee's
    line [l] and neither folds nor pops; the dispatch after the return
    adds [d4] to the callee's record as overhead, pops the callee and adds
    the callee's line total, [d3], to the external time of the caller's
    line [L1]. The scenario of the specification is [d1 = 10ms],
    [d2 = 5ms], [d3 = 2ms]. *)
Theorem call_line_return_attribution (py : PyRuntime)
    (t0 t0' t1 t1' t2 t2' t3 t3' t4 t4' : time_point)
    (frame_L1 frame_call frame_line frame_ret frame_next : PyFrameObject)
    (arg0 arg1 arg2 arg3 arg4 : N) (s s1 : Module_)
    (caller : FrameState.t) (rest : list FrameState.t) (line1 : LineState.t) :
  reachable py s →
  profile py t0 t0' PyTrace_LINE frame_L1 arg0 s = Ok s1 →
  frame_stack_ s1 = caller :: rest →
  line_of caller (current_pos caller) = Some line1 →
  f_code frame_line = f_code frame_call →
  let callee := f_code frame_call in
  let start :=
    PyLong_AsUnsignedLongLong (snd (inspect_getsourcelines py callee)) in
  let pos :=
    Z.to_nat (to_size_t (to_size_t (f_lineno frame_line) - start - 1)) in
  (pos < length (captured_lines py callee))%nat →
  let d1 := t1 - t0' in
  let d2 := t2 - t1' in
  let d3 := t3 - t2' in
  let d4 := t4 - t3' in
  ∃ s2 s3 s4 s5 o caller2 callee4 caller5,
    profile py t1 t1' PyTrace_CALL frame_call arg1 s1 = Ok s2
    ∧ profile py t2 t2' PyTrace_LINE frame_line arg2 s2 = Ok s3
    ∧ profile py t3 t3' PyTrace_RETURN frame_ret arg3 s3 = Ok s4
    ∧ profile py t4 t4' PyTrace_LINE frame_next arg4 s4 = Ok s5
    ∧ frame_stack_ s2
      = FrameState.new callee (length (captured_lines py callee)) start
        :: caller2 :: rest
    ∧ line_of caller2 (current_pos caller)
      = Some (LineState.add_internal d1 line1)
    ∧ record_overhead s2 callee = Some o
    ∧ record_overhead s3 callee = Some (o + d2)
    ∧ frame_stack_ s4 = callee4 :: caller2 :: rest
    ∧ line_of callee4 pos = Some (LineState.mk d3 0)
    ∧ FrameState.total_time callee4 = d3
    ∧ functions_ s4 = functions_ s3
    ∧ frame_stack_ s5 = caller5 :: rest
    ∧ line_of caller5 (current_pos caller)
      = Some (LineState.mk (LineState.internal line1 + d1)
                (LineState.external line1 + d3))
    ∧ record_overhead s5 callee = Some (o + d2 + d4).
Proof.
  intros Hreach HL1 Hstack1 Hline1 Hcode callee start pos Hpos d1 d2 d3 d4.
  assert (Hal1 : lines_aligned py s1).
  { eapply profile_aligned; [|exact HL1]. by apply reachable_aligned. }
  apply profile_LINE_inv in HL1 as [Hlast1 Hstart1].
  (* the call *)
  destruct (call_after_line py t1 t1' frame_call arg1 s1 caller rest line1
              Hlast1 Hstack1 Hline1)
    as (s2 & H2 & Hstack2 & Hlast2 & Hstart2 & [f2 Hf2] & _ & _).
  rewrite Hstart1 in Hstack2. fold callee start d1 in Hstack2, Hf2.
  assert (Hal2 : lines_aligned py s2) by (by eapply profile_aligned).
  destruct Hal2 as [Hrec2 _]. destruct (Hrec2 _ _ Hf2) as (_ & Hlt2 & Hlti2).
  (* the first line of the callee *)
  destruct (line_after_call py t2 t2' frame_line arg2 s2 f2 _ _ Hlast2
              ltac:(by rewrite Hcode) Hstack2)
    as (s3 & H3 & Hfs3 & _ & Hstack3 & Hlast3 & Hstart3).
  rewrite Hcode, Hstart2 in Hfs3. fold callee d2 in Hfs3.
  (* the return *)
  destruct (return_after_line py t3 t3' frame_ret arg3 s3 _ _ LineState.zero
              Hlast3 Hstack3)
    as (s4 & H4 & Hfs4 & _ & Hstack4 & Hlast4 & Hstart4).
  { by apply lookup_replicate_2. }
  rewrite Hstart3 in Hstack4. fold d3 in Hstack4.
  change (current_pos (FrameState.set_current_line _ _)) with pos in Hstack4.
  cbn [FrameState.starting_line_ FrameState.current_line_
       FrameState.function_key_ FrameState.lines_ FrameState.internal_
       FrameState.set_current_line FrameState.new] in Hstack4.
  (* the dispatch after the return *)
  match type of Hstack4 with
  | _ = ?top :: ?below :: _ =>
      destruct (line_after_return py t4 t4' frame_next arg4 s4 top below rest
                  (Function.mk
                     (BaseFunction.mk (Function.name f2)
                        (Function.overhead f2 + d2))
                     (Function.code_ f2) (Function.lines_ f2)
                     (Function.line_time_ f2) (Function.line_time_internal_ f2))
                  (LineState.add_internal d1 line1) Hlast4 Hstack4)
        as (s5 & f5 & H5 & Hstack5 & Hfs5 & _ & Ho5 & _)
  end.
  { rewrite Hfs4, Hfs3. apply lookup_insert_eq. }
  { cbn. intros Hne.
    assert (0 < length (captured_lines py callee))%nat by lia.
    split; intros Hnil; [rewrite Hnil in Hlt2 | rewrite Hnil in Hlti2];
      cbn in *; lia. }
  { unfold line_of. change (current_pos _) with (current_pos caller). cbn.
    apply list_lookup_insert_eq. by eapply lookup_lt_Some. }
  rewrite Hstart4 in Ho5. fold d4 in Ho5.
  rewrite total_time_single_line in Hstack5 by done.
  change (current_pos _) with (current_pos caller) in Hstack5.
  eexists s2, s3, s4, s5, (Function.overhead f2), _, _, _.
  repeat (split; [eassumption|]).
  split.
  { unfold line_of. cbn. apply list_lookup_insert_eq.
    by eapply lookup_lt_Some. }
  split; [unfold record_overhead; by rewrite Hf2|].
  split; [unfold record_overhead; by rewrite Hfs3, lookup_insert_eq|].
  split; [exact Hstack4|].
  split.
  { unfold line_of. cbn. rewrite list_lookup_insert_eq
      by (by rewrite length_replicate).
    unfold LineState.add_internal. cbn. by rewrite Z.add_0_l. }
  split; [by apply total_time_single_line|].
  split; [exact Hfs4|]. split; [exact Hstack5|]. split.
  { unfold line_of. cbn. rewrite list_lookup_insert_eq
      by (rewrite length_insert; by eapply lookup_lt_Some).
    done. }
  unfold record_overhead. rewrite Hfs5, lookup_insert_eq.
  change (Some (Function.overhead f5)
          = Some (Function.overhead f2 + d2 + d4)).
  rewrite Ho5. reflexivity.
Qed.

(** C2, as stated, fails: when the return has been processed no invocation
    of the caller holds 7ms of external time on its line. *)
Lemma return_dispatch_charges_no_caller :
  ¬ (∀ (py : PyRuntime) (frame_call frame_line frame_ret : PyFrameObject)
       (s1 s4 : Module_) (caller : FrameState.t) (rest : list FrameState.t)
       (line1 : LineState.t),
       last_instruction_ s1 = kLine →
       frame_stack_ s1 = caller :: rest →
       line_of caller (current_pos caller) = Some line1 →
       f_code frame_line = f_code frame_call →
       let t0 := last_instruction_start_ s1 in
       run py
         [mkEvent (t0 + 10 * ms) (t0 + 10 * ms) PyTrace_CALL frame_call 0;
          mkEvent (t0 + 15 * ms) (t0 + 15 * ms) PyTrace_LINE frame_line 0;
          mkEvent (t0 + 17 * ms) (t0 + 17 * ms) PyTrace_RETURN frame_ret 0]
         s1 = Ok s4 →
       ∃ caller4,
         caller4 ∈ frame_stack_ s4
         ∧ FrameState.key caller4 = FrameState.key caller
         ∧ (LineState.external <$> line_of caller4 (current_pos caller))
           = Some (LineState.external line1 + 7 * ms)).
Proof.
  intros H.
  pose (s1 := state_of demo_in_main).
  pose (s4 := state_of (run demo_py demo_call_helper s1)).
  pose (caller := FrameState.mk 10 12 1%N
                    [LineState.zero; LineState.zero; LineState.zero] 0).
  destruct (H demo_py {| f_code := 2%N; f_lineno := 20 |}
              {| f_code := 2%N; f_lineno := 22 |}
              {| f_code := 2%N; f_lineno := 22 |}
              s1 s4 caller [] LineState.zero)
    as (caller4 & Hin & Hkey & Hext); try (vm_compute; reflexivity).
  assert (Hs4 : frame_stack_ s4
                = [FrameState.mk 20 22 2%N
                     [LineState.zero; LineState.mk (2 * ms) 0] 0;
                   FrameState.mk 10 12 1%N
                     [LineState.zero; LineState.mk (10 * ms) 0;
                      LineState.zero] 0])
    by (vm_compute; reflexivity).
  rewrite Hs4 in Hin.
  apply elem_of_cons in Hin as [-> | Hin]; [discriminate Hkey|].
  apply elem_of_cons in Hin as [-> | Hin]; [discriminate Hext|].
  by apply elem_of_nil in Hin.
Qed.

(** Nor does the dispatch after the return charge 7ms: the caller's line
    gets the 2ms of the callee's lines, the 5ms of call overhead having
    gone to the callee's record only. *)
Lemma dispatch_after_return_charges_line_total :
  ∃ s4 s5,
    run demo_py demo_call_helper (state_of demo_in_main) = Ok s4
    ∧ dispatch demo_py (at_time (19 * ms) PyTrace_LINE 1 13 0) s4 = Ok s5
    ∧ depth s4 = 2%nat
    ∧ record_overhead s4 2 = Some (5 * ms)
    ∧ (Function.line_time_internal <$> functions_ s4 !! 2%N) = Some [0; 0]
    ∧ (fmap LineState.external ∘ FrameState.lines <$> frame_stack_ s5)
      = [[0; 2 * ms; 0]]
    ∧ record_overhead s5 2 = Some (6 * ms).
Proof.
  exists (state_of (run demo_py demo_call_helper (state_of demo_in_main))).
  exists (state_of
            (run demo_py
               (demo_call_helper ++ [at_time (19 * ms) PyTrace_LINE 1 13 0])
               (state_of demo_in_main))).
  split_and!; vm_compute; reflexivity.
Qed.

(** ** The properties on the small program *)

Lemma demo_entered_main_reachable :
  reachable demo_py (state_of demo_entered_main).
Proof.
  apply (reachable_run demo_py [at_time 0 PyTrace_CALL 1 10 0]
           (start Module_new)).
  - apply reachable_start, reachable_new.
  - vm_compute. reflexivity.
Qed.

Lemma demo_in_main_reachable : reachable demo_py (state_of demo_in_main).
Proof.
  apply (reachable_run demo_py
           [at_time 0 PyTrace_CALL 1 10 0;
            at_time (1 * ms) PyTrace_LINE 1 12 0] (start Module_new)).
  - apply reachable_start, reachable_new.
  - vm_compute. reflexivity.
Qed.

Lemma line_arrays_drop_first_source_line_witness :
  reachable demo_py demo_main_state
  ∧ ((∀ code f,
        functions_ demo_main_state !! code = Some f →
        let source := fst (inspect_getsourcelines demo_py code) in
        (∀ i, Function.lines f !! i = source !! S i)
        ∧ Function.n_lines f = (length source - 1)%nat
        ∧ length (Function.line_time f) = (length source - 1)%nat
        ∧ length (Function.line_time_internal f) = (length source - 1)%nat)
     ∧ (∀ frame,
          frame ∈ frame_stack_ demo_main_state →
          let source :=
            fst (inspect_getsourcelines demo_py (FrameState.key frame)) in
          length (FrameState.lines frame) = (length source - 1)%nat
          ∧ FrameState.current_line frame
            = vector_at (FrameState.lines frame)
                (to_size_t
                   (FrameState.current_line_ frame
                    - FrameState.starting_line_ frame - 1)))).
Proof.
  split; [exact demo_in_main_reachable|].
  exact (line_arrays_drop_first_source_line demo_py demo_main_state
           demo_in_main_reachable).
Defined.

Lemma stack_depth_follows_nesting_witness :
  frame_stack_ (start Module_new) = []
  ∧ last_instruction_ (start Module_new) ≠ kReturn
  ∧ Forall (λ e, records_kind (ev_what e) = true) demo_call_return
  ∧ nesting 0 (ev_what <$> demo_call_return) = Some 0%nat
  ∧ run demo_py demo_call_return (start Module_new) = Ok demo_returned_state
  ∧ depth demo_returned_state = (0 + pending_pop demo_returned_state)%nat
  ∧ (∀ e s'', ev_what e = PyTrace_LINE →
              dispatch demo_py e demo_returned_state = Ok s'' →
              depth s'' = 0%nat).
Proof.
  assert (H1 : frame_stack_ (start Module_new) = []) by reflexivity.
  assert (H2 : last_instruction_ (start Module_new) ≠ kReturn)
    by discriminate.
  assert (H3 : Forall (λ e, records_kind (ev_what e) = true)
                 demo_call_return) by (repeat constructor).
  assert (H4 : nesting 0 (ev_what <$> demo_call_return) = Some 0%nat)
    by reflexivity.
  assert (H5 : run demo_py demo_call_return (start Module_new)
               = Ok demo_returned_state) by (vm_compute; reflexivity).
  destruct (stack_depth_follows_nesting demo_py demo_call_return
              (start Module_new) demo_returned_state 0 H1 H2 H3 H4 H5)
    as (Hd & Hnext & _).
  repeat (split; [assumption|]). exact Hnext.
Defined.


Lemma foreign_records_keyed_by_printed_name_witness :
  profile demo_py (2 * ms) (2 * ms) PyTrace_C_CALL demo_frame_main_12 100
    demo_main_state = Ok demo_foreign_state
  ∧ frame_stack_ demo_foreign_state = [demo_main_frame_1ms]
  ∧ has_current_line demo_main_frame_1ms
  ∧ ∃ s2 s3 s4 f1,
      profile demo_py (5 * ms) (5 * ms) PyTrace_C_RETURN demo_frame_main_12
        100 demo_foreign_state = Ok s2
      ∧ profile demo_py (6 * ms) (6 * ms) PyTrace_C_CALL demo_frame_main_12
          101 s2 = Ok s3
      ∧ profile demo_py (8 * ms) (8 * ms) PyTrace_C_RETURN demo_frame_main_12
          101 s3 = Ok s4
      ∧ c_functions_ demo_foreign_state !! PyObject_Str demo_py 100 = Some f1
      ∧ (PyObject_Str demo_py 100 = PyObject_Str demo_py 101 →
         c_functions_ s3 = c_functions_ s2
         ∧ c_functions_ s4 !! PyObject_Str demo_py 100
           = Some (BaseFunction.mk (BaseFunction.name f1)
                     (BaseFunction.overhead f1 + 3 * ms + 2 * ms))
         ∧ dom (c_functions_ s4) = dom (c_functions_ demo_foreign_state))
      ∧ (PyObject_Str demo_py 100 ≠ PyObject_Str demo_py 101 →
         c_functions_ s4 !! PyObject_Str demo_py 100
         = Some (BaseFunction.mk (BaseFunction.name f1)
                   (BaseFunction.overhead f1 + 3 * ms))
         ∧ ∃ f2, c_functions_ s3 !! PyObject_Str demo_py 101 = Some f2
                 ∧ c_functions_ s4 !! PyObject_Str demo_py 101
                   = Some (BaseFunction.mk (BaseFunction.name f2)
                             (BaseFunction.overhead f2 + 2 * ms)))
      ∧ (∀ name s0, is_Some (c_functions_ s0 !! name) →
                    add_c_function name s0 = s0).
Proof.
  assert (H1 : profile demo_py (2 * ms) (2 * ms) PyTrace_C_CALL
                 demo_frame_main_12 100 demo_main_state
               = Ok demo_foreign_state) by (vm_compute; reflexivity).
  assert (H2 : frame_stack_ demo_foreign_state = [demo_main_frame_1ms])
    by (vm_compute; reflexivity).
  assert (H3 : has_current_line demo_main_frame_1ms)
    by (exists (LineState.mk (1 * ms) 0); vm_compute; reflexivity).
  repeat (split; [assumption|]).
  exact (foreign_records_keyed_by_printed_name demo_py (2 * ms) (2 * ms)
           (5 * ms) (5 * ms) (6 * ms) (6 * ms) (8 * ms) (8 * ms)
           demo_frame_main_12 demo_frame_main_12 demo_frame_main_12
           demo_frame_main_12 100 101 100 101 demo_main_state
           demo_foreign_state demo_main_frame_1ms [] H1 H2 H3).
Defined.

Lemma exception_events_attribution_witness :
  profile demo_py (2 * ms) (2 * ms) PyTrace_C_EXCEPTION demo_frame_main_12
    100 demo_main_state = Ok demo_raised_state
  ∧ frame_stack_ demo_raised_state = [demo_main_frame_1ms]
  ∧ profile_begin demo_py PyTrace_EXCEPTION demo_frame_main_12 100
      demo_main_state = Ok demo_main_state
  ∧ profile_begin demo_py PyTrace_C_EXCEPTION demo_frame_main_12 100
      demo_main_state = Ok (set_last_instruction_ kCReturn demo_main_state)
  ∧ last_instruction_ demo_raised_state = kCReturn
  ∧ profile_finish demo_frame_main_12
      (set_last_instruction_end_ (6 * ms) demo_raised_state)
    = Ok (set_frame_stack_
            [FrameState.add_internal (6 * ms - 2 * ms) demo_main_frame_1ms]
            (set_last_instruction_end_ (6 * ms) demo_raised_state))
  ∧ (∀ s0, last_instruction_ s0 = kException
           ∨ last_instruction_ s0 = kCException →
           profile_finish demo_frame_main_12 s0 = Ok s0).
Proof.
  assert (H1 : profile demo_py (2 * ms) (2 * ms) PyTrace_C_EXCEPTION
                 demo_frame_main_12 100 demo_main_state
               = Ok demo_raised_state) by (vm_compute; reflexivity).
  assert (H2 : frame_stack_ demo_raised_state = [demo_main_frame_1ms])
    by (vm_compute; reflexivity).
  repeat (split; [assumption|]).
  exact (exception_events_attribution demo_py (2 * ms) (2 * ms) (6 * ms)
           demo_frame_main_12 demo_frame_main_12 100 demo_main_state
           demo_raised_state demo_main_frame_1ms [] H1 H2).
Defined.

Lemma dump_ignores_destination_witness :
  arrays_sized demo_main_state
  ∧ dump "report.txt" demo_main_state = dump "/dev/null" demo_main_state
  ∧ ∃ out, dump "report.txt" demo_main_state
           = Ok (write_cout out demo_main_state, 0)
           ∧ dump "/dev/null" demo_main_state
             = Ok (write_cout out demo_main_state, 0).
Proof.
  assert (H1 : arrays_sized demo_main_state)
    by exact (reachable_arrays_sized demo_py _ demo_in_main_reachable).
  split; [assumption|].
  destruct (dump_ignores_destination "report.txt" "/dev/null"
              demo_main_state) as [Heq Hok].
  split; [exact Heq | exact (Hok H1)].
Defined.

Lemma call_line_return_attribution_witness :
  reachable demo_py demo_entered_state
  ∧ profile demo_py (1 * ms) (1 * ms) PyTrace_LINE demo_frame_main_12 0
      demo_entered_state = Ok demo_main_state
  ∧ frame_stack_ demo_main_state = [demo_main_frame]
  ∧ line_of demo_main_frame (current_pos demo_main_frame)
    = Some LineState.zero
  ∧ (1 < length (captured_lines demo_py 2))%nat
  ∧ ∃ s2 s3 s4 s5 o caller2 callee4 caller5,
      profile demo_py (11 * ms) (11 * ms) PyTrace_CALL
        {| f_code := 2%N; f_lineno := 20 |} 0 demo_main_state = Ok s2
      ∧ profile demo_py (16 * ms) (16 * ms) PyTrace_LINE
          {| f_code := 2%N; f_lineno := 22 |} 0 s2 = Ok s3
      ∧ profile demo_py (18 * ms) (18 * ms) PyTrace_RETURN
          {| f_code := 2%N; f_lineno := 22 |} 0 s3 = Ok s4
      ∧ profile demo_py (19 * ms) (19 * ms) PyTrace_LINE
          {| f_code := 1%N; f_lineno := 13 |} 0 s4 = Ok s5
      ∧ frame_stack_ s2 = [FrameState.new 2 2 20; caller2]
      ∧ line_of caller2 (current_pos demo_main_frame)
        = Some (LineState.add_internal (10 * ms) LineState.zero)
      ∧ record_overhead s2 2 = Some o
      ∧ record_overhead s3 2 = Some (o + 5 * ms)
      ∧ frame_stack_ s4 = [callee4; caller2]
      ∧ line_of callee4 1 = Some (LineState.mk (2 * ms) 0)
      ∧ FrameState.total_time callee4 = 2 * ms
      ∧ functions_ s4 = functions_ s3
      ∧ frame_stack_ s5 = [caller5]
      ∧ line_of caller5 (current_pos demo_main_frame)
        = Some (LineState.mk (0 + 10 * ms) (0 + 2 * ms))
      ∧ record_overhead s5 2 = Some (o + 5 * ms + 1 * ms).
Proof.
  assert (H0 : reachable demo_py demo_entered_state)
    by exact demo_entered_main_reachable.
  assert (H1 : profile demo_py (1 * ms) (1 * ms) PyTrace_LINE
                 demo_frame_main_12 0 demo_entered_state
               = Ok demo_main_state) by (vm_compute; reflexivity).
  assert (H2 : frame_stack_ demo_main_state = [demo_main_frame])
    by (vm_compute; reflexivity).
  assert (H3 : line_of demo_main_frame (current_pos demo_main_frame)
               = Some LineState.zero) by (vm_compute; reflexivity).
  assert (H4 : (1 < length (captured_lines demo_py 2))%nat)
    by (vm_compute; lia).
  repeat (split; [assumption|]).
  exact (call_line_return_attribution demo_py (1 * ms) (1 * ms) (11 * ms)
           (11 * ms) (16 * ms) (16 * ms) (18 * ms) (18 * ms) (19 * ms)
           (19 * ms) demo_frame_main_12 {| f_code := 2%N; f_lineno := 20 |}
           {| f_code := 2%N; f_lineno := 22 |}
           {| f_code := 2%N; f_lineno := 22 |}
           {| f_code := 1%N; f_lineno := 13 |} 0 0 0 0 0 demo_entered_state
           demo_main_state demo_main_frame [] LineState.zero H0 H1 H2 H3
           eq_refl H4).
Defined.

(** * Further properties of the engine *)

(** ** The recorded kind and the time stamps *)

Lemma pop_frame_bookkeeping (s s' : Module_) :
  pop_frame s = Ok s' →
  last_instruction_ s' = last_instruction_ s
  ∧ last_instruction_start_ s' = last_instruction_start_ s
  ∧ last_instruction_end_ s' = last_instruction_end_ s
  ∧ last_c_name_ s' = last_c_name_ s.
Proof.
  unfold pop_frame. destruct (frame_stack_ s) as [|frame rest];
    [discriminate|].
  intros (function & _ & H)%bind_Ok_inv. cbn in H.
  apply bind_Ok_inv in H as (function' & _ & H).
  destruct rest as [|top rest'].
  - by injection H as <-.
  - by apply bind_Ok_inv in H as (top' & _ & [= <-]).
Qed.

Lemma profile_finish_bookkeeping (frame : PyFrameObject) (s s' : Module_) :
  profile_finish frame s = Ok s' →
  last_instruction_ s' = last_instruction_ s
  ∧ last_instruction_start_ s' = last_instruction_start_ s
  ∧ last_instruction_end_ s' = last_instruction_end_ s
  ∧ last_c_name_ s' = last_c_name_ s.
Proof.
  unfold profile_finish, finish_origin. destruct (last_instruction_ s) eqn:Hl.
  - by intros [= <-].
  - unfold finish_line. destruct (frame_stack_ s) as [|top rest].
    + by intros [= <-].
    + by intros (top' & _ & [= <-])%bind_Ok_inv.
  - unfold finish_call. by intros (function & _ & [= <-])%bind_Ok_inv.
  - unfold finish_return. destruct (frame_stack_ s) as [|top rest];
      [discriminate|].
    intros (H1 & H2 & H3 & H4)%pop_frame_bookkeeping. cbn in *.
    split; [congruence | done].
  - by intros [= <-].
  - unfold finish_ccall. intros (function & _ & H)%bind_Ok_inv. cbn in H.
    destruct (frame_stack_ s) as [|top rest]; [discriminate|].
    by apply bind_Ok_inv in H as (top' & _ & [= <-]).
  - unfold finish_creturn. destruct (frame_stack_ s) as [|top rest];
      [discriminate|].
    by intros [= <-].
  - by intros [= <-].
  - by intros [= <-].
Qed.

Lemma profile_begin_bookkeeping (py : PyRuntime) (what : PyTrace)
    (frame : PyFrameObject) (arg : N) (s s' : Module_) :
  profile_begin py what frame arg s = Ok s' →
  recorded_kind what (last_instruction_ s) = Some (last_instruction_ s')
  ∧ last_instruction_start_ s' = last_instruction_start_ s
  ∧ last_instruction_end_ s' = last_instruction_end_ s.
Proof.
  destruct what; cbn; try discriminate; intros [= <-]; try done.
  - split; [done|]. unfold profile_call. cbn. unfold add_function.
    by destruct (functions_ s !! f_code frame).
  - rewrite last_instruction_profile_line. split; [done|].
    unfold profile_line. cbn. by destruct (frame_stack_ s).
Qed.

(** X1. The kind a successful dispatch records is a function of [what]:
    line, call, return and foreign call record their own kind, a foreign
    return and a foreign exception both record [kCReturn], an exception
    and an opcode event leave the recorded kind as it was, and no other
    value of [what] is ever dispatched successfully. No finish rule
    changes the recorded kind. *)
Theorem dispatch_records_kind (py : PyRuntime) (now0 now1 : time_point)
    (what : PyTrace) (frame : PyFrameObject) (arg : N) (s s' : Module_) :
  profile py now0 now1 what frame arg s = Ok s' →
  recorded_kind what (last_instruction_ s) = Some (last_instruction_ s').
Proof.
  unfold profile.
  intros (s1 & H1 & (s2 & H2 & [= <-])%bind_Ok_inv)%bind_Ok_inv.
  apply profile_finish_bookkeeping in H1 as (Hl1 & _).
  apply profile_begin_bookkeeping in H2 as (Hk & _).
  cbn in Hl1. rewrite Hl1 in Hk. exact Hk.
Qed.

(** X2. [kException] and [kCException] are never recorded: in no state
    the engine can reach is [last_instruction_] one of them, so the two
    cases the first [switch] of [profile] has for them are never taken. *)
Theorem exception_kinds_never_recorded (py : PyRuntime) (s : Module_) :
  reachable py s →
  last_instruction_ s ≠ kException ∧ last_instruction_ s ≠ kCException.
Proof.
  induction 1 as [|s _ IH|s _ IH|path s s' status _ IH Hd|e s s' _ IH Hd].
  - split; discriminate.
  - split; discriminate.
  - exact IH.
  - unfold dump in Hd. apply bind_Ok_inv in Hd as (out & _ & [= <- _]).
    exact IH.
  - unfold dispatch, profile in Hd.
    apply bind_Ok_inv in Hd as (s1 & H1 & (s2 & H2 & [= <-])%bind_Ok_inv).
    apply profile_finish_bookkeeping in H1 as (Hl1 & _).
    apply profile_begin_bookkeeping in H2 as (Hd & _).
    cbn in Hl1. rewrite Hl1 in Hd.
    change (last_instruction_ s2 ≠ kException
            ∧ last_instruction_ s2 ≠ kCException).
    destruct (ev_what e); cbn in Hd; try discriminate;
      injection Hd as Hd; rewrite <- Hd; try (split; discriminate).
    + exact IH.
    + exact IH.
Qed.

(** X3. After a successful dispatch [last_instruction_start_] is the
    second clock reading of that dispatch and [last_instruction_end_] the
    first: the interval the next dispatch attributes runs from the end of
    this call of [profile] to the start of the next, and the time between
    the two readings of one call is part of no interval. *)
Theorem dispatch_stamps (py : PyRuntime) (now0 now1 next0 : time_point)
    (what : PyTrace) (frame : PyFrameObject) (arg : N) (s s' : Module_) :
  profile py now0 now1 what frame arg s = Ok s' →
  last_instruction_start_ s' = now1
  ∧ last_instruction_end_ s' = now0
  ∧ elapsed (set_last_instruction_end_ next0 s') = next0 - now1.
Proof.
  unfold profile.
  intros (s1 & H1 & (s2 & H2 & [= <-])%bind_Ok_inv)%bind_Ok_inv.
  apply profile_finish_bookkeeping in H1 as (_ & _ & He1 & _).
  apply profile_begin_bookkeeping in H2 as (_ & _ & He2).
  cbn in He1. split; [done|]. split; [|done]. cbn. congruence.
Qed.

(** ** Which line numbers an invocation accepts *)

Lemma current_line_in_range (f : FrameState.t) :
  0 ≤ FrameState.starting_line_ f →
  FrameState.starting_line_ f + Z.of_nat (length (FrameState.lines_ f))
    < size_t_modulus →
  FrameState.starting_line_ f < FrameState.current_line_ f
    ≤ FrameState.starting_line_ f + Z.of_nat (length (FrameState.lines_ f)) →
  ∃ l,
    FrameState.lines_ f
      !! Z.to_nat (FrameState.current_line_ f - FrameState.starting_line_ f - 1)
    = Some l
    ∧ FrameState.current_line f = Ok l.
Proof.
  intros H0 Hfit Hin. unfold FrameState.current_line, FrameState.current_index.
  rewrite to_size_t_small by lia.
  destruct (lookup_lt_is_Some_2 (FrameState.lines_ f)
              (Z.to_nat (FrameState.current_line_ f
                         - FrameState.starting_line_ f - 1))) as [l Hl];
    [lia|].
  exists l. split; [done|]. apply vector_at_lookup; [lia | done].
Qed.

Lemma current_line_out_of_range (f : FrameState.t) :
  0 ≤ FrameState.starting_line_ f →
  0 ≤ FrameState.current_line_ f < size_t_modulus →
  FrameState.starting_line_ f + Z.of_nat (length (FrameState.lines_ f))
    < size_t_modulus →
  ¬ (FrameState.starting_line_ f < FrameState.current_line_ f
     ≤ FrameState.starting_line_ f + Z.of_nat (length (FrameState.lines_ f))) →
  FrameState.current_line f = Throw out_of_range.
Proof.
  intros H0 Hcur Hfit Hout.
  unfold FrameState.current_line, FrameState.current_index.
  apply vector_at_ge.
  destruct (decide (FrameState.starting_line_ f < FrameState.current_line_ f))
    as [Hlt|Hge].
  - rewrite to_size_t_small by lia. lia.
  - unfold to_size_t.
    replace (FrameState.current_line_ f - FrameState.starting_line_ f - 1)
      with (size_t_modulus + FrameState.current_line_ f
            - FrameState.starting_line_ f - 1 + (-1) * size_t_modulus)
      by lia.
    rewrite Z.mod_add by (unfold size_t_modulus; lia).
    rewrite Z.mod_small by lia. lia.
Qed.

(** X4. For an invocation whose lines fit below [2^64], [current_line()]
    succeeds exactly when the current line number lies in
    [starting_line_+1 .. starting_line_+lines_.size()], and then it is the
    cell [current_line_-starting_line_-1]; for every other line number,
    the starting line itself and the initial 0 included, it throws
    [out_of_range]. *)
Theorem current_line_accepts_lines_after_the_first (f : FrameState.t) :
  0 ≤ FrameState.starting_line_ f →
  0 ≤ FrameState.current_line_ f < size_t_modulus →
  FrameState.starting_line_ f + Z.of_nat (length (FrameState.lines_ f))
    < size_t_modulus →
  let valid :=
    FrameState.starting_line_ f < FrameState.current_line_ f
    ≤ FrameState.starting_line_ f + Z.of_nat (length (FrameState.lines_ f)) in
  (valid →
   ∃ l,
     FrameState.lines_ f
       !! Z.to_nat
            (FrameState.current_line_ f - FrameState.starting_line_ f - 1)
     = Some l
     ∧ FrameState.current_line f = Ok l)
  ∧ (¬ valid → FrameState.current_line f = Throw out_of_range).
Proof.
  intros H0 Hcur Hfit valid. split.
  - by apply current_line_in_range.
  - by apply current_line_out_of_range.
Qed.

Lemma update_current_line_Throw (g : LineState.t → LineState.t)
    (f : FrameState.t) (e : exn) :
  FrameState.current_line f = Throw e →
  FrameState.update_current_line g f = Throw e.
Proof. intros H. unfold FrameState.update_current_line. by rewrite H. Qed.

(** The dispatch after a line event on an invocation whose current line
    has no cell. *)
Lemma dispatch_after_line_Throw (py : PyRuntime) (now now' : time_point)
    (what : PyTrace) (frame : PyFrameObject) (arg : N) (s : Module_)
    (top : FrameState.t) (rest : list FrameState.t) (e : exn) :
  last_instruction_ s = kLine →
  frame_stack_ s = top :: rest →
  FrameState.current_line top = Throw e →
  profile py now now' what frame arg s = Throw e.
Proof.
  intros Hlast Hstack Hthrow.
  destruct s as [fs cfs st li t0 t1 nm co pf tf]. cbn in *. subst.
  unfold profile, profile_finish. cbn.
  by rewrite (update_current_line_Throw _ _ e Hthrow).
Qed.

Lemma call_on_started_engine (py : PyRuntime) (now now' : time_point)
    (frame : PyFrameObject) (arg : N) (s0 : Module_) :
  profile py now now' PyTrace_CALL frame arg (start s0)
  = Ok (set_last_instruction_start_ now'
          (profile_call py frame (set_last_instruction_end_ now (start s0)))).
Proof. reflexivity. Qed.

(** X5. A line event whose number is not one of
    [start+1 .. start+n] for the invocation on top (the first source
    line of the callable, which is the only line of a one-line [def] or
    [lambda], is such a number) is accepted, and the dispatch that follows
    it, whatever it is, throws [out_of_range]. Shown for a callable
    entered on a freshly started engine. *)
Theorem line_without_cell_breaks_next_dispatch (py : PyRuntime)
    (t1 t1' t2 t2' t3 t3' : time_point)
    (frame_call frame_line frame_next : PyFrameObject)
    (arg1 arg2 arg3 : N) (what : PyTrace) (s0 : Module_) :
  let code := f_code frame_call in
  let source := fst (inspect_getsourcelines py code) in
  let first := snd (inspect_getsourcelines py code) in
  f_code frame_line = code →
  0 ≤ first →
  first + Z.of_nat (length source) < size_t_modulus →
  0 ≤ f_lineno frame_line < size_t_modulus →
  ¬ (first < f_lineno frame_line ≤ first + (Z.of_nat (length source) - 1)) →
  ∃ s1 s2,
    profile py t1 t1' PyTrace_CALL frame_call arg1 (start s0) = Ok s1
    ∧ profile py t2 t2' PyTrace_LINE frame_line arg2 s1 = Ok s2
    ∧ profile py t3 t3' what frame_next arg3 s2 = Throw out_of_range.
Proof.
  intros code source first Hcode H0 Hfit Hln Hout.
  set (s00 := set_last_instruction_end_ t1 (start s0)).
  destruct (functions_add_function py frame_call s00) as ([f Hf] & _ & _).
  destruct (line_after_call py t2 t2' frame_line arg2
              (set_last_instruction_start_ t1' (profile_call py frame_call s00))
              f
              (FrameState.new code (length (get_lines py frame_call).1)
                 (get_lines py frame_call).2)
              (frame_stack_ s00))
    as (s2 & H2 & _ & _ & Hstack2 & Hlast2 & _).
  { reflexivity. }
  { rewrite Hcode. exact Hf. }
  { exact (frame_stack_profile_call py frame_call s00). }
  exists (set_last_instruction_start_ t1' (profile_call py frame_call s00)),
    s2.
  split; [apply call_on_started_engine|]. split; [exact H2|].
  eapply dispatch_after_line_Throw; [exact Hlast2 | exact Hstack2 |].
  assert (Hlen : length source ≠ 0%nat → Z.of_nat (length (drop 1 source))
                 = Z.of_nat (length source) - 1)
    by (rewrite length_drop; lia).
  assert (Hlen0 : length source = 0%nat → length (drop 1 source) = 0%nat)
    by (rewrite length_drop; lia).
  apply current_line_out_of_range;
    cbn [FrameState.set_current_line FrameState.new FrameState.starting_line_
         FrameState.current_line_ FrameState.lines_ get_lines fst snd];
    fold code; fold source; fold first;
    rewrite ?length_replicate;
    unfold PyLong_AsUnsignedLongLong;
    (destruct (decide (0 ≤ first < size_t_modulus)) as [_|Hn]; [|lia]);
    rewrite ?to_size_t_small by lia.
  - lia.
  - lia.
  - rewrite length_drop. lia.
  - rewrite length_drop. lia.
Qed.

(** ** Events that find no invocation or no record *)

(** X6. A return dispatched on a started engine whose stack is empty (the
    profiler was started inside the function that now returns) is
    accepted: its begin rule only records the kind. The dispatch that
    follows, whatever it is, takes [top()] of the empty stack. *)
Theorem return_on_empty_stack_breaks_next_dispatch (py : PyRuntime)
    (t1 t1' t2 t2' : time_point) (frame1 frame2 : PyFrameObject)
    (arg1 arg2 : N) (what : PyTrace) (s0 : Module_) :
  frame_stack_ s0 = [] →
  ∃ s1,
    profile py t1 t1' PyTrace_RETURN frame1 arg1 (start s0) = Ok s1
    ∧ frame_stack_ s1 = []
    ∧ functions_ s1 = functions_ s0
    ∧ c_functions_ s1 = c_functions_ s0
    ∧ profile py t2 t2' what frame2 arg2 s1 = Throw empty_stack_top.
Proof.
  intros Hstack.
  destruct s0 as [fs cfs st li t0 t1_ nm co pf tf]. cbn in Hstack. subst st.
  eexists. split; [reflexivity|]. repeat (split; [reflexivity|]).
  reflexivity.
Qed.

(** X7. Line events that arrive while the stack is empty, on an engine
    whose recorded kind is [kOrigin] or [kLine] (just started, or after
    such line events), are all accepted and change neither a record nor
    the stack nor [std::cout]: the lines of the code that called
    [start()] are not measured. *)
Theorem line_events_on_empty_stack_are_ignored (py : PyRuntime)
    (events : list Event) (s : Module_) :
  frame_stack_ s = [] →
  last_instruction_ s = kOrigin ∨ last_instruction_ s = kLine →
  all_of_kind PyTrace_LINE events →
  ∃ s',
    run py events s = Ok s'
    ∧ functions_ s' = functions_ s
    ∧ c_functions_ s' = c_functions_ s
    ∧ frame_stack_ s' = []
    ∧ cout s' = cout s
    ∧ (last_instruction_ s' = kOrigin ∨ last_instruction_ s' = kLine).
Proof.
  intros Hstack Hlast Hall. revert s Hstack Hlast.
  induction Hall as [|e events He _ IH]; intros s Hstack Hlast.
  - exists s. cbn. by rewrite Hstack.
  - assert (Hstep : ∃ s1,
              dispatch py e s = Ok s1
              ∧ functions_ s1 = functions_ s
              ∧ c_functions_ s1 = c_functions_ s
              ∧ frame_stack_ s1 = []
              ∧ cout s1 = cout s
              ∧ last_instruction_ s1 = kLine).
    { unfold dispatch. rewrite He.
      destruct s as [fs cfs st li t0 t1 nm co pf tf]. cbn in *. subst st.
      destruct Hlast as [-> | ->]; eexists; (split; [reflexivity|]);
        cbn; done. }
    destruct Hstep as (s1 & H1 & Hf1 & Hc1 & Hs1 & Ho1 & Hl1).
    destruct (IH s1 Hs1 (or_intror Hl1))
      as (s' & Hrun & Hf & Hc & Hs & Ho & Hl).
    exists s'. cbn. rewrite H1. cbn. split; [exact Hrun|].
    repeat split; congruence || exact Hl.
Qed.

(** The dispatch after a call, from a frame whose code has no record. *)
Lemma dispatch_after_call_Throw (py : PyRuntime) (now now' : time_point)
    (what : PyTrace) (frame : PyFrameObject) (arg : N) (s : Module_) :
  last_instruction_ s = kCall →
  functions_ s !! f_code frame = None →
  profile py now now' what frame arg s = Throw out_of_range.
Proof.
  intros Hlast Hnone.
  destruct s as [fs cfs st li t0 t1 nm co pf tf]. cbn in *. subst.
  unfold profile, profile_finish. cbn. unfold finish_call, map_at. cbn.
  by rewrite Hnone.
Qed.

(** X8. The finish rule of a call looks up the record of the frame of
    the incoming event, before the begin rule of that event runs. So a
    call dispatched directly after another call (no line event between
    them), for a callable that has no record yet, throws [out_of_range]
    instead of registering the callable. *)
Theorem call_after_call_of_new_callable_throws (py : PyRuntime)
    (t1 t1' t2 t2' : time_point) (frame1 frame2 : PyFrameObject)
    (arg1 arg2 : N) (s0 : Module_) :
  f_code frame2 ≠ f_code frame1 →
  functions_ s0 !! f_code frame2 = None →
  ∃ s1,
    profile py t1 t1' PyTrace_CALL frame1 arg1 (start s0) = Ok s1
    ∧ profile py t2 t2' PyTrace_CALL frame2 arg2 s1 = Throw out_of_range.
Proof.
  intros Hne Hnone. eexists. split; [apply call_on_started_engine|].
  apply dispatch_after_call_Throw; [reflexivity|].
  change (functions_
            (add_function py frame1
               (set_last_instruction_end_ t1 (start s0)))
          !! f_code frame2 = None).
  unfold add_function. cbn.
  destruct (functions_ s0 !! f_code frame1); [exact Hnone|]. cbn.
  by rewrite map_emplace_other.
Qed.

(** ** Records and invocations agree on identities *)

Lemma pop_frame_filed (py : PyRuntime) (s s' : Module_) :
  records_filed py s → pop_frame s = Ok s' → records_filed py s'.
Proof.
  intros [Hf Hc] (frame & rest & function & function' & _ & Hfun & Hloop
                  & Hfs & Hcs & _)%pop_frame_inv.
  apply pop_frame_loop_inv in Hloop as (Hb & Hcode & _).
  split; [|by rewrite Hcs].
  intros code f. rewrite Hfs, lookup_insert.
  case_decide as Heq; [|apply Hf]. intros [= <-]. subst code.
  destruct (Hf _ _ Hfun) as [Hc0 Hn0].
  unfold Function.code, Function.name in *. rewrite Hb, Hcode. done.
Qed.

Lemma profile_finish_filed (py : PyRuntime) (frame : PyFrameObject)
    (s s' : Module_) :
  records_filed py s → profile_finish frame s = Ok s' → records_filed py s'.
Proof.
  intros Hfiled. pose proof Hfiled as [Hf Hc].
  unfold profile_finish, finish_origin. destruct (last_instruction_ s).
  - by intros [= <-].
  - unfold finish_line. destruct (frame_stack_ s) as [|top rest].
    + by intros [= <-].
    + by intros (top' & _ & [= <-])%bind_Ok_inv.
  - unfold finish_call.
    intros (function & Hfun%map_at_Ok & [= <-])%bind_Ok_inv.
    split; [|done]. intros code f. cbn. rewrite lookup_insert.
    case_decide as Heq; [|apply Hf]. intros [= <-]. subst code.
    exact (Hf _ _ Hfun).
  - unfold finish_return. destruct (frame_stack_ s) as [|top rest];
      [discriminate|].
    by apply pop_frame_filed.
  - by intros [= <-].
  - unfold finish_ccall.
    intros (function & Hfun%map_at_Ok & H)%bind_Ok_inv. cbn in H.
    destruct (frame_stack_ s) as [|top rest]; [discriminate|].
    apply bind_Ok_inv in H as (top' & _ & [= <-]).
    split; [done|]. intros name b. cbn. rewrite lookup_insert.
    case_decide as Heq; [|apply Hc]. intros [= <-]. subst name.
    exact (Hc _ _ Hfun).
  - unfold finish_creturn. destruct (frame_stack_ s) as [|top rest];
      [discriminate|].
    by intros [= <-].
  - by intros [= <-].
  - by intros [= <-].
Qed.

Lemma profile_begin_filed (py : PyRuntime) (what : PyTrace)
    (frame : PyFrameObject) (arg : N) (s s' : Module_) :
  records_filed py s → profile_begin py what frame arg s = Ok s' →
  records_filed py s'.
Proof.
  intros Hfiled. pose proof Hfiled as [Hf Hc].
  destruct what; cbn; try discriminate; intros [= <-]; try done.
  - split.
    + intros code f. unfold profile_call. cbn. unfold add_function.
      destruct (functions_ s !! f_code frame) eqn:Hk; [apply Hf|]. cbn.
      unfold map_emplace. rewrite Hk, lookup_insert.
      case_decide as Heq; [|apply Hf]. intros [= <-]. by subst code.
    + intros name b. unfold profile_call. cbn.
      destruct (functions_add_function py frame s) as (_ & _ & ->).
      apply Hc.
  - unfold profile_line. cbn. by destruct (frame_stack_ s).
  - split; [done|]. intros name b. cbn. unfold map_emplace.
    destruct (c_functions_ s !! PyObject_Str py arg) eqn:Hk; [apply Hc|].
    rewrite lookup_insert. case_decide as Heq; [|apply Hc].
    intros [= <-]. done.
Qed.

(** X9. In every state the engine can reach, each interpreted record is
    stored under the code object it carries and bears that code object's
    name, and each foreign record is stored under its own name: neither a
    finish rule nor the fold ever renames or re-keys a record. *)
Theorem records_are_filed_under_their_identity (py : PyRuntime)
    (s : Module_) :
  reachable py s →
  (∀ code f,
     functions_ s !! code = Some f →
     Function.code f = code ∧ Function.name f = co_name py code)
  ∧ (∀ name b,
       c_functions_ s !! name = Some b → BaseFunction.name b = name).
Proof.
  change (reachable py s → records_filed py s).
  induction 1 as [|s _ IH|s _ IH|path s s' status _ IH Hd|e s s' _ IH Hd].
  - split; intros k v; cbn; by rewrite lookup_empty.
  - exact IH.
  - exact IH.
  - unfold dump in Hd. apply bind_Ok_inv in Hd as (out & _ & [= <- _]).
    exact IH.
  - unfold dispatch, profile in Hd.
    apply bind_Ok_inv in Hd as (s1 & H1 & (s2 & H2 & [= <-])%bind_Ok_inv).
    eapply profile_finish_filed in H1; [|exact IH].
    eapply profile_begin_filed in H2; [|exact H1]. exact H2.
Qed.

(** The finish rule keeps the codes on the stack, or drops the top one. *)
Lemma profile_finish_keys (frame : PyFrameObject) (s s' : Module_) :
  profile_finish frame s = Ok s' →
  stack_keys s' = stack_keys s ∨ stack_keys s' = tail (stack_keys s).
Proof.
  unfold profile_finish, finish_origin, stack_keys.
  destruct (last_instruction_ s).
  - intros [= <-]. by left.
  - unfold finish_line. destruct (frame_stack_ s) as [|top rest] eqn:Hs.
    + intros [= <-]. left. by rewrite Hs.
    + intros (top' & (l & _ & ->)%update_current_line_inv
              & [= <-])%bind_Ok_inv.
      by left.
  - unfold finish_call. intros (function & _ & [= <-])%bind_Ok_inv. by left.
  - unfold finish_return. destruct (frame_stack_ s) as [|top rest];
      [discriminate|].
    intros (frame' & rest0 & function & function' & Hstack & _ & _ & _ & _
            & _ & Hrest)%pop_frame_inv.
    cbn in Hstack. injection Hstack as _ <-. right. cbn.
    destruct rest as [|top1 rest1].
    + by rewrite Hrest.
    + destruct Hrest as (top' & (l & _ & ->)%update_current_line_inv & ->).
      done.
  - intros [= <-]. by left.
  - unfold finish_ccall. intros (function & _ & H)%bind_Ok_inv. cbn in H.
    destruct (frame_stack_ s) as [|top rest]; [discriminate|].
    apply bind_Ok_inv in H
      as (top' & (l & _ & ->)%update_current_line_inv & [= <-]).
    by left.
  - unfold finish_creturn. destruct (frame_stack_ s) as [|top rest];
      [discriminate|].
    intros [= <-]. by left.
  - intros [= <-]. by left.
  - intros [= <-]. by left.
Qed.

Lemma profile_begin_keys (py : PyRuntime) (what : PyTrace)
    (frame : PyFrameObject) (arg : N) (s s' : Module_) :
  profile_begin py what frame arg s = Ok s' →
  stack_keys s' = stack_keys s
  ∨ (stack_keys s' = f_code frame :: stack_keys s
     ∧ is_Some (functions_ s' !! f_code frame)).
Proof.
  unfold stack_keys.
  destruct what; cbn; try discriminate; intros [= <-]; try (by left).
  - right. rewrite frame_stack_profile_call. split; [reflexivity|].
    exact (proj1 (functions_add_function py frame s)).
  - left. destruct (frame_stack_ s) as [|top rest] eqn:Hs.
    + unfold profile_line. cbn. rewrite Hs. cbn. by rewrite Hs.
    + by rewrite (frame_stack_profile_line _ _ _ _ Hs).
Qed.

Lemma store_kept_keys (s s' : Module_) (keys : list N) :
  store_kept s s' →
  Forall (λ code, is_Some (functions_ s !! code)) keys →
  Forall (λ code, is_Some (functions_ s' !! code)) keys.
Proof.
  intros [Hkept _] Hall. eapply Forall_impl; [exact Hall|].
  intros code [f Hf].
  destruct (Hkept _ _ Hf) as (f' & Hf' & _). eauto.
Qed.

(** X10. In every state the engine can reach, each invocation on the
    stack has a record in [functions_] under its code object: the lookup
    [functions_.at(frame.key())] of [pop_frame] cannot miss. *)
Theorem stack_frames_have_records (py : PyRuntime) (s : Module_) :
  reachable py s →
  ∀ frame,
    frame ∈ frame_stack_ s →
    ∃ f, map_at (functions_ s) (FrameState.key frame) = Ok f.
Proof.
  intros Hreach.
  assert (Hkeys : Forall (λ code, is_Some (functions_ s !! code))
                    (stack_keys s)).
  { induction Hreach
      as [|s _ IH|s _ IH|path s s' status _ IH Hd|e s s' _ IH Hd].
    - constructor.
    - exact IH.
    - exact IH.
    - unfold dump in Hd. apply bind_Ok_inv in Hd as (out & _ & [= <- _]).
      exact IH.
    - unfold dispatch, profile in Hd.
      apply bind_Ok_inv in Hd as (s1 & H1 & (s2 & H2 & [= <-])%bind_Ok_inv).
      change (Forall (λ code, is_Some (functions_ s2 !! code))
                (stack_keys s2)).
      pose proof (profile_finish_store_kept _ _ _ H1) as Hk1.
      pose proof (profile_begin_store_kept _ _ _ _ _ _ H2) as Hk2.
      apply (store_kept_keys _ _ _ Hk1) in IH.
      change (stack_keys (set_last_instruction_end_ (ev_now0 e) s))
        with (stack_keys s) in IH.
      assert (H1keys : Forall (λ code, is_Some (functions_ s1 !! code))
                         (stack_keys s1)).
      { destruct (profile_finish_keys _ _ _ H1) as [-> | ->]; [exact IH|].
        change (stack_keys (set_last_instruction_end_ (ev_now0 e) s))
          with (stack_keys s).
        destruct (stack_keys s) as [|k ks]; [constructor|].
        by apply Forall_cons in IH as [_ IH]. }
      apply (store_kept_keys _ _ _ Hk2) in H1keys.
      destruct (profile_begin_keys _ _ _ _ _ _ H2) as [-> | [-> Hnew]];
        [exact H1keys|].
      by constructor. }
  intros frame Hin. rewrite Forall_forall in Hkeys.
  destruct (Hkeys (FrameState.key frame)) as [f Hf].
  { unfold stack_keys. apply list_elem_of_fmap. eauto. }
  exists f. by apply map_at_lookup.
Qed.

(** ** The fold moves all the time of an invocation into its record *)

Lemma add_elapsed_head (time : duration) (f f' : Function.t) :
  Function.add_elapsed 0 time f = Ok f' →
  ∃ old ts,
    Function.line_time_ f = old :: ts
    ∧ f' = Function.mk (Function.base f) (Function.code_ f)
             (Function.lines_ f) ((old + time) :: ts)
             (Function.line_time_internal_ f).
Proof.
  unfold Function.add_elapsed.
  intros (old & [_ Hold]%vector_at_Ok & [= <-])%bind_Ok_inv.
  change (Z.to_nat 0) with 0%nat in *.
  destruct (Function.line_time_ f) as [|t ts]; [discriminate|].
  injection Hold as ->. by exists old, ts.
Qed.

Lemma add_elapsed_internal_head (time : duration) (f f' : Function.t) :
  Function.add_elapsed_internal 0 time f = Ok f' →
  ∃ old ts,
    Function.line_time_internal_ f = old :: ts
    ∧ f' = Function.mk (Function.base f) (Function.code_ f)
             (Function.lines_ f) (Function.line_time_ f)
             ((old + time) :: ts).
Proof.
  unfold Function.add_elapsed_internal.
  intros (old & [_ Hold]%vector_at_Ok & [= <-])%bind_Ok_inv.
  change (Z.to_nat 0) with 0%nat in *.
  destruct (Function.line_time_internal_ f) as [|t ts]; [discriminate|].
  injection Hold as ->. by exists old, ts.
Qed.

Lemma pop_frame_loop_totals (lines : list LineState.t) (f f' : Function.t) :
  pop_frame_loop 0 lines f = Ok f' →
  sum_durations (Function.line_time_ f')
  = sum_durations (Function.line_time_ f) + sum_external lines
  ∧ sum_durations (Function.line_time_internal_ f')
    = sum_durations (Function.line_time_internal_ f) + sum_internal lines
  ∧ tail (Function.line_time_ f') = tail (Function.line_time_ f)
  ∧ tail (Function.line_time_internal_ f')
    = tail (Function.line_time_internal_ f).
Proof.
  unfold sum_durations, sum_external, sum_internal.
  revert f. induction lines as [|line lines IH]; intros f; cbn.
  - intros [= ->]. repeat split; lia.
  - intros (f1 & H1 & (f2 & H2 & Hrec)%bind_Ok_inv)%bind_Ok_inv.
    apply add_elapsed_head in H1 as (old1 & ts1 & Hlt & ->).
    apply add_elapsed_internal_head in H2 as (old2 & ts2 & Hlti & ->).
    cbn in Hlti.
    apply IH in Hrec as (Hs1 & Hs2 & Ht1 & Ht2). cbn in Hs1, Hs2, Ht1, Ht2.
    rewrite Hs1, Hs2, Ht1, Ht2, Hlt, Hlti. cbn.
    unfold LineState.external, LineState.internal. repeat split; lia.
Qed.

(** X11. Whatever cell the fold of [pop_frame] writes to, it loses no
    time: the total a record holds (overhead plus both line arrays) grows
    by exactly what the popped invocation held (its overhead plus its
    [total_time]). All of the line time goes into cell 0 (the cells after
    the first are left as they were) and no other record changes. *)
Theorem pop_frame_conserves_time (s s' : Module_) (frame : FrameState.t)
    (rest : list FrameState.t) (f : Function.t) :
  pop_frame s = Ok s' →
  frame_stack_ s = frame :: rest →
  functions_ s !! FrameState.key frame = Some f →
  ∃ f',
    functions_ s' !! FrameState.key frame = Some f'
    ∧ record_total f' = record_total f + invocation_total frame
    ∧ Function.overhead f' = Function.overhead f + FrameState.internal frame
    ∧ tail (Function.line_time f') = tail (Function.line_time f)
    ∧ tail (Function.line_time_internal f')
      = tail (Function.line_time_internal f)
    ∧ (∀ code, code ≠ FrameState.key frame →
               functions_ s' !! code = functions_ s !! code).
Proof.
  intros (frame0 & rest0 & f0 & f' & Hstack0 & Hf0 & Hloop & Hfs & _)
    %pop_frame_inv Hstack Hf.
  rewrite Hstack in Hstack0. injection Hstack0 as <- <-.
  rewrite Hf in Hf0. injection Hf0 as <-.
  pose proof (pop_frame_loop_inv _ _ _ _ Hloop) as (Hb & _).
  apply pop_frame_loop_totals in Hloop as (Hs1 & Hs2 & Ht1 & Ht2).
  cbn in Hb, Hs1, Hs2, Ht1, Ht2.
  exists f'. split; [by rewrite Hfs, lookup_insert_eq|].
  assert (Ho : Function.overhead f'
               = Function.overhead f + FrameState.internal frame).
  { unfold Function.overhead. by rewrite Hb. }
  split.
  { unfold record_total, invocation_total, Function.line_time,
      Function.line_time_internal.
    rewrite Ho, Hs1, Hs2, total_time_sums.
    unfold FrameState.lines, sum_durations. lia. }
  split; [exact Ho|]. split; [exact Ht1|]. split; [exact Ht2|].
  intros code Hne. by rewrite Hfs, lookup_insert_ne.
Qed.

(** ** The two line arrays of a record *)

(** X12. [add_elapsed] and [add_elapsed_internal] are bounds-checked
    updates of two separate arrays: each throws [out_of_range] exactly
    when its index is not below the size of its array, otherwise adds the
    time to that one cell and leaves every other cell, the other array,
    the name, the overhead and the lines as they were. Whether one of
    them throws does not depend on whether the other was done before it,
    and when both go through, the two orders give the same record. *)
Theorem line_adds_are_checked_and_commute (i j : Z) (t u : duration)
    (f : Function.t) :
  (Function.add_elapsed i t f = Throw out_of_range
   ↔ ¬ (0 ≤ i < Z.of_nat (length (Function.line_time f))))
  ∧ (Function.add_elapsed_internal j u f = Throw out_of_range
     ↔ ¬ (0 ≤ j < Z.of_nat (length (Function.line_time_internal f))))
  ∧ (∀ f', Function.add_elapsed i t f = Ok f' →
           Function.line_time f' !! Z.to_nat i
           = (λ old, old + t) <$> Function.line_time f !! Z.to_nat i
           ∧ (∀ k, k ≠ Z.to_nat i →
                   Function.line_time f' !! k = Function.line_time f !! k)
           ∧ Function.line_time_internal f' = Function.line_time_internal f
           ∧ Function.base f' = Function.base f
           ∧ Function.lines f' = Function.lines f)
  ∧ (∀ f', Function.add_elapsed_internal j u f = Ok f' →
           Function.line_time_internal f' !! Z.to_nat j
           = (λ old, old + u) <$> Function.line_time_internal f !! Z.to_nat j
           ∧ (∀ k, k ≠ Z.to_nat j →
                   Function.line_time_internal f' !! k
                   = Function.line_time_internal f !! k)
           ∧ Function.line_time f' = Function.line_time f
           ∧ Function.base f' = Function.base f
           ∧ Function.lines f' = Function.lines f)
  ∧ (∀ f1, Function.add_elapsed i t f = Ok f1 →
           (Function.add_elapsed_internal j u f1 = Throw out_of_range
            ↔ Function.add_elapsed_internal j u f = Throw out_of_range))
  ∧ (∀ g1, Function.add_elapsed_internal j u f = Ok g1 →
           (Function.add_elapsed i t g1 = Throw out_of_range
            ↔ Function.add_elapsed i t f = Throw out_of_range))
  ∧ (∀ f1 f2 g1 g2,
       Function.add_elapsed i t f = Ok f1 →
       Function.add_elapsed_internal j u f1 = Ok f2 →
       Function.add_elapsed_internal j u f = Ok g1 →
       Function.add_elapsed i t g1 = Ok g2 →
       f2 = g2)
  ∧ (∀ f1 f2,
       Function.add_elapsed i t f = Ok f1 →
       Function.add_elapsed_internal j u f1 = Ok f2 →
       ∃ g1, Function.add_elapsed_internal j u f = Ok g1
             ∧ Function.add_elapsed i t g1 = Ok f2).
Proof.
  unfold Function.add_elapsed, Function.add_elapsed_internal,
    Function.line_time, Function.line_time_internal, Function.lines.
  split_and!.
  - unfold vector_at. destruct (decide (0 ≤ i < _)) as [Hin|Hout].
    + destruct (lookup_lt_is_Some_2 (Function.line_time_ f) (Z.to_nat i))
        as [x Hx]; [lia|].
      rewrite Hx. cbn. split; [discriminate | done].
    + cbn. done.
  - unfold vector_at. destruct (decide (0 ≤ j < _)) as [Hin|Hout].
    + destruct (lookup_lt_is_Some_2 (Function.line_time_internal_ f)
                  (Z.to_nat j)) as [x Hx]; [lia|].
      rewrite Hx. cbn. split; [discriminate | done].
    + cbn. done.
  - intros f' (old & [_ Hold]%vector_at_Ok & [= <-])%bind_Ok_inv.
    cbn [Function.line_time_ Function.line_time_internal_ Function.base
         Function.lines_].
    unfold duration in *. rewrite Hold. cbn [fmap option_fmap option_map].
    split.
    + apply list_lookup_insert_eq. by eapply lookup_lt_Some.
    + split; [|done]. intros k Hk. by apply list_lookup_insert_ne.
  - intros f' (old & [_ Hold]%vector_at_Ok & [= <-])%bind_Ok_inv.
    cbn [Function.line_time_ Function.line_time_internal_ Function.base
         Function.lines_].
    unfold duration in *. rewrite Hold. cbn [fmap option_fmap option_map].
    split.
    + apply list_lookup_insert_eq. by eapply lookup_lt_Some.
    + split; [|done]. intros k Hk. by apply list_lookup_insert_ne.
  - intros f1 (old & _ & [= <-])%bind_Ok_inv. cbn.
    by destruct (vector_at (Function.line_time_internal_ f) j).
  - intros g1 (old & _ & [= <-])%bind_Ok_inv. cbn.
    by destruct (vector_at (Function.line_time_ f) i).
  - intros f1 f2 g1 g2 (a & Ha & [= <-])%bind_Ok_inv.
    cbn. intros (b & Hb & [= <-])%bind_Ok_inv.
    rewrite Hb, bind_Ok. intros [= <-]. cbn. rewrite Ha, bind_Ok.
    by intros [= <-].
  - intros f1 f2 (a & Ha & [= <-])%bind_Ok_inv.
    cbn. intros (b & Hb & [= <-])%bind_Ok_inv.
    rewrite Hb, bind_Ok. eexists. split; [reflexivity|]. cbn.
    by rewrite Ha, bind_Ok.
Qed.

(** ** No negative time under a monotone clock *)











(** ** Upper bounds under a monotone clock *)






















(** ** What a dispatch writes to [std::cout] *)

Lemma pop_frame_cout (s s' : Module_) :
  pop_frame s = Ok s' →
  ∃ count,
    cout s' = cout s ++ [cout_string "Internal: "; cout_seconds count;
                         cout_endl].
Proof.
  unfold pop_frame. destruct (frame_stack_ s) as [|frame rest];
    [discriminate|].
  intros (function & _ & H)%bind_Ok_inv. cbn in H.
  apply bind_Ok_inv in H as (function' & _ & H).
  destruct rest as [|top rest'].
  - injection H as <-. cbn. eauto.
  - apply bind_Ok_inv in H as (top' & _ & [= <-]). cbn. eauto.
Qed.

Lemma profile_begin_cout (py : PyRuntime) (what : PyTrace)
    (frame : PyFrameObject) (arg : N) (s s' : Module_) :
  profile_begin py what frame arg s = Ok s' → cout s' = cout s.
Proof.
  destruct what; cbn; try discriminate; intros [= <-]; try done.
  - unfold profile_call. cbn. unfold add_function.
    by destruct (functions_ s !! f_code frame).
  - unfold profile_line. cbn. by destruct (frame_stack_ s).
Qed.

(** X14. A successful dispatch writes to [std::cout] exactly when the
    recorded kind is [kCall], [kCCall] or [kReturn] (the finish rules that
    add to the overhead of a record), and then exactly one line,
    ["Internal: "], a number of seconds and [endl]; after any other kind
    it writes nothing. No begin rule writes. *)
Theorem dispatch_prints_on_overhead_updates (py : PyRuntime)
    (now0 now1 : time_point) (what : PyTrace) (frame : PyFrameObject)
    (arg : N) (s s' : Module_) :
  profile py now0 now1 what frame arg s = Ok s' →
  if finish_rule_prints (last_instruction_ s)
  then ∃ count,
         cout s' = cout s ++ [cout_string "Internal: "; cout_seconds count;
                              cout_endl]
  else cout s' = cout s.
Proof.
  unfold profile.
  intros (s1 & H1 & (s2 & H2 & [= <-])%bind_Ok_inv)%bind_Ok_inv.
  apply profile_begin_cout in H2.
  change (cout (set_last_instruction_start_ now1 s2)) with (cout s2).
  rewrite H2. clear H2 s2. revert H1.
  unfold profile_finish, finish_origin.
  change (last_instruction_ (set_last_instruction_end_ now0 s))
    with (last_instruction_ s).
  destruct (last_instruction_ s); cbn [finish_rule_prints].
  - by intros [= <-].
  - unfold finish_line.
    change (frame_stack_ (set_last_instruction_end_ now0 s))
      with (frame_stack_ s).
    destruct (frame_stack_ s) as [|top rest].
    + by intros [= <-].
    + by intros (top' & _ & [= <-])%bind_Ok_inv.
  - unfold finish_call. intros (function & _ & [= <-])%bind_Ok_inv.
    cbn. eauto.
  - unfold finish_return.
    change (frame_stack_ (set_last_instruction_end_ now0 s))
      with (frame_stack_ s).
    destruct (frame_stack_ s) as [|top rest]; [discriminate|].
    intros [count Hc]%pop_frame_cout. cbn in Hc. eauto.
  - by intros [= <-].
  - unfold finish_ccall. intros (function & _ & H)%bind_Ok_inv. cbn in H.
    destruct (frame_stack_ s) as [|top rest]; [discriminate|].
    apply bind_Ok_inv in H as (top' & _ & [= <-]). cbn. eauto.
  - unfold finish_creturn.
    change (frame_stack_ (set_last_instruction_end_ now0 s))
      with (frame_stack_ s).
    destruct (frame_stack_ s) as [|top rest]; [discriminate|].
    by intros [= <-].
  - by intros [= <-].
  - by intros [= <-].
Qed.

(** ** Reporting twice *)

(** X15. [dump] reads the records and changes nothing but [std::cout]:
    when it returns, a second [dump], to whatever destination, returns 0
    as well and writes the same items again. *)
Theorem dump_can_be_repeated (path path' : string) (s s1 : Module_)
    (status : Z) :
  dump path s = Ok (s1, status) →
  ∃ out,
    s1 = write_cout out s
    ∧ status = 0
    ∧ dump path' s1 = Ok (write_cout out s1, 0)
    ∧ functions_ s1 = functions_ s
    ∧ c_functions_ s1 = c_functions_ s
    ∧ frame_stack_ s1 = frame_stack_ s
    ∧ last_instruction_ s1 = last_instruction_ s.
Proof.
  unfold dump. intros (out & Hout & [= <- <-])%bind_Ok_inv.
  eexists. split; [reflexivity|]. split; [reflexivity|].
  cbn. rewrite Hout. cbn. done.
Qed.

(** ** The further properties on the small program *)

Lemma dispatch_records_kind_witness :
  profile demo_py (2 * ms) (2 * ms) PyTrace_C_EXCEPTION demo_frame_main_12
    100 demo_main_state = Ok demo_raised_state
  ∧ recorded_kind PyTrace_C_EXCEPTION (last_instruction_ demo_main_state)
    = Some (last_instruction_ demo_raised_state).
Proof.
  assert (H1 : profile demo_py (2 * ms) (2 * ms) PyTrace_C_EXCEPTION
                 demo_frame_main_12 100 demo_main_state
               = Ok demo_raised_state) by (vm_compute; reflexivity).
  split; [assumption|].
  exact (dispatch_records_kind demo_py _ _ _ _ _ _ _ H1).
Defined.

Lemma exception_kinds_never_recorded_witness :
  reachable demo_py demo_main_state
  ∧ last_instruction_ demo_main_state ≠ kException
  ∧ last_instruction_ demo_main_state ≠ kCException.
Proof.
  split; [exact demo_in_main_reachable|].
  exact (exception_kinds_never_recorded demo_py demo_main_state
           demo_in_main_reachable).
Defined.

Lemma dispatch_stamps_witness :
  profile demo_py (2 * ms) (3 * ms) PyTrace_LINE demo_frame_main_12 0
    demo_main_state
  = Ok (state_of (profile demo_py (2 * ms) (3 * ms) PyTrace_LINE
                    demo_frame_main_12 0 demo_main_state))
  ∧ last_instruction_start_
      (state_of (profile demo_py (2 * ms) (3 * ms) PyTrace_LINE
                   demo_frame_main_12 0 demo_main_state)) = 3 * ms
  ∧ last_instruction_end_
      (state_of (profile demo_py (2 * ms) (3 * ms) PyTrace_LINE
                   demo_frame_main_12 0 demo_main_state)) = 2 * ms
  ∧ elapsed
      (set_last_instruction_end_ (7 * ms)
         (state_of (profile demo_py (2 * ms) (3 * ms) PyTrace_LINE
                      demo_frame_main_12 0 demo_main_state)))
    = 7 * ms - 3 * ms.
Proof.
  assert (H1 : profile demo_py (2 * ms) (3 * ms) PyTrace_LINE
                 demo_frame_main_12 0 demo_main_state
               = Ok (state_of (profile demo_py (2 * ms) (3 * ms) PyTrace_LINE
                                 demo_frame_main_12 0 demo_main_state)))
    by (vm_compute; reflexivity).
  split; [assumption|].
  exact (dispatch_stamps demo_py _ _ (7 * ms) _ _ _ _ _ H1).
Defined.

Lemma current_line_accepts_lines_after_the_first_witness :
  0 ≤ FrameState.starting_line_ demo_main_frame
  ∧ 0 ≤ FrameState.current_line_ demo_main_frame < size_t_modulus
  ∧ FrameState.starting_line_ demo_main_frame
    + Z.of_nat (length (FrameState.lines_ demo_main_frame)) < size_t_modulus
  ∧ ((10 < 12 ≤ 10 + 3 →
      ∃ l, FrameState.lines_ demo_main_frame !! Z.to_nat (12 - 10 - 1)
           = Some l
           ∧ FrameState.current_line demo_main_frame = Ok l)
     ∧ (¬ (10 < 12 ≤ 10 + 3) →
        FrameState.current_line demo_main_frame = Throw out_of_range)).
Proof.
  assert (H1 : 0 ≤ FrameState.starting_line_ demo_main_frame)
    by (vm_compute; discriminate).
  assert (H2 : 0 ≤ FrameState.current_line_ demo_main_frame < size_t_modulus)
    by (split; [vm_compute; discriminate | vm_compute; reflexivity]).
  assert (H3 : FrameState.starting_line_ demo_main_frame
               + Z.of_nat (length (FrameState.lines_ demo_main_frame))
               < size_t_modulus) by (vm_compute; reflexivity).
  repeat (split; [assumption|]).
  exact (current_line_accepts_lines_after_the_first demo_main_frame H1 H2 H3).
Defined.

Lemma line_without_cell_breaks_next_dispatch_witness :
  0 ≤ snd (inspect_getsourcelines demo_py 2)
  ∧ snd (inspect_getsourcelines demo_py 2)
    + Z.of_nat (length (fst (inspect_getsourcelines demo_py 2)))
    < size_t_modulus
  ∧ 0 ≤ 20 < size_t_modulus
  ∧ ¬ (snd (inspect_getsourcelines demo_py 2) < 20
       ≤ snd (inspect_getsourcelines demo_py 2)
         + (Z.of_nat (length (fst (inspect_getsourcelines demo_py 2))) - 1))
  ∧ ∃ s1 s2,
      profile demo_py 0 0 PyTrace_CALL {| f_code := 2%N; f_lineno := 20 |} 0
        (start Module_new) = Ok s1
      ∧ profile demo_py (1 * ms) (1 * ms) PyTrace_LINE
          {| f_code := 2%N; f_lineno := 20 |} 0 s1 = Ok s2
      ∧ profile demo_py (2 * ms) (2 * ms) PyTrace_RETURN
          {| f_code := 2%N; f_lineno := 20 |} 0 s2 = Throw out_of_range.
Proof.
  assert (H1 : 0 ≤ snd (inspect_getsourcelines demo_py 2))
    by (vm_compute; discriminate).
  assert (H2 : snd (inspect_getsourcelines demo_py 2)
               + Z.of_nat (length (fst (inspect_getsourcelines demo_py 2)))
               < size_t_modulus) by (vm_compute; reflexivity).
  assert (H3 : 0 ≤ 20 < size_t_modulus)
    by (split; [vm_compute; discriminate | vm_compute; reflexivity]).
  assert (H4 : ¬ (snd (inspect_getsourcelines demo_py 2) < 20
                  ≤ snd (inspect_getsourcelines demo_py 2)
                    + (Z.of_nat
                         (length (fst (inspect_getsourcelines demo_py 2)))
                       - 1)))
    by (intros [Hlt _]; vm_compute in Hlt; discriminate).
  repeat (split; [assumption|]).
  exact (line_without_cell_breaks_next_dispatch demo_py 0 0 (1 * ms) (1 * ms)
           (2 * ms) (2 * ms) {| f_code := 2%N; f_lineno := 20 |}
           {| f_code := 2%N; f_lineno := 20 |}
           {| f_code := 2%N; f_lineno := 20 |} 0 0 0 PyTrace_RETURN
           Module_new eq_refl H1 H2 H3 H4).
Defined.

Lemma return_on_empty_stack_breaks_next_dispatch_witness :
  frame_stack_ Module_new = []
  ∧ ∃ s1,
      profile demo_py 0 0 PyTrace_RETURN demo_frame_main_12 0
        (start Module_new) = Ok s1
      ∧ frame_stack_ s1 = []
      ∧ functions_ s1 = functions_ Module_new
      ∧ c_functions_ s1 = c_functions_ Module_new
      ∧ profile demo_py (1 * ms) (1 * ms) PyTrace_LINE demo_frame_main_12 0
          s1 = Throw empty_stack_top.
Proof.
  assert (H1 : frame_stack_ Module_new = []) by reflexivity.
  split; [assumption|].
  exact (return_on_empty_stack_breaks_next_dispatch demo_py 0 0 (1 * ms)
           (1 * ms) demo_frame_main_12 demo_frame_main_12 0 0 PyTrace_LINE
           Module_new H1).
Defined.

Lemma line_events_on_empty_stack_are_ignored_witness :
  frame_stack_ (start Module_new) = []
  ∧ (last_instruction_ (start Module_new) = kOrigin
     ∨ last_instruction_ (start Module_new) = kLine)
  ∧ all_of_kind PyTrace_LINE demo_top_level_lines
  ∧ ∃ s',
      run demo_py demo_top_level_lines (start Module_new) = Ok s'
      ∧ functions_ s' = functions_ (start Module_new)
      ∧ c_functions_ s' = c_functions_ (start Module_new)
      ∧ frame_stack_ s' = []
      ∧ cout s' = cout (start Module_new)
      ∧ (last_instruction_ s' = kOrigin ∨ last_instruction_ s' = kLine).
Proof.
  assert (H1 : frame_stack_ (start Module_new) = []) by reflexivity.
  assert (H2 : last_instruction_ (start Module_new) = kOrigin
               ∨ last_instruction_ (start Module_new) = kLine)
    by (left; reflexivity).
  assert (H3 : all_of_kind PyTrace_LINE demo_top_level_lines)
    by (repeat constructor).
  repeat (split; [assumption|]).
  exact (line_events_on_empty_stack_are_ignored demo_py demo_top_level_lines
           (start Module_new) H1 H2 H3).
Defined.

Lemma call_after_call_of_new_callable_throws_witness :
  f_code {| f_code := 2%N; f_lineno := 20 |} ≠ f_code demo_frame_main_12
  ∧ functions_ Module_new !! f_code {| f_code := 2%N; f_lineno := 20 |} = None
  ∧ ∃ s1,
      profile demo_py 0 0 PyTrace_CALL demo_frame_main_12 0
        (start Module_new) = Ok s1
      ∧ profile demo_py (1 * ms) (1 * ms) PyTrace_CALL
          {| f_code := 2%N; f_lineno := 20 |} 0 s1 = Throw out_of_range.
Proof.
  assert (H1 : f_code {| f_code := 2%N; f_lineno := 20 |}
               ≠ f_code demo_frame_main_12) by discriminate.
  assert (H2 : functions_ Module_new
               !! f_code {| f_code := 2%N; f_lineno := 20 |} = None)
    by (vm_compute; reflexivity).
  repeat (split; [assumption|]).
  exact (call_after_call_of_new_callable_throws demo_py 0 0 (1 * ms) (1 * ms)
           demo_frame_main_12 {| f_code := 2%N; f_lineno := 20 |} 0 0
           Module_new H1 H2).
Defined.

Lemma records_are_filed_under_their_identity_witness :
  reachable demo_py demo_main_state
  ∧ (∀ code f,
       functions_ demo_main_state !! code = Some f →
       Function.code f = code ∧ Function.name f = co_name demo_py code)
  ∧ (∀ name b,
       c_functions_ demo_main_state !! name = Some b →
       BaseFunction.name b = name).
Proof.
  split; [exact demo_in_main_reachable|].
  exact (records_are_filed_under_their_identity demo_py demo_main_state
           demo_in_main_reachable).
Defined.

Lemma stack_frames_have_records_witness :
  reachable demo_py demo_main_state
  ∧ ∀ frame,
      frame ∈ frame_stack_ demo_main_state →
      ∃ f, map_at (functions_ demo_main_state) (FrameState.key frame) = Ok f.
Proof.
  split; [exact demo_in_main_reachable|].
  exact (stack_frames_have_records demo_py demo_main_state
           demo_in_main_reachable).
Defined.

Lemma pop_frame_conserves_time_witness :
  pop_frame demo_helper_state = Ok (state_of (pop_frame demo_helper_state))
  ∧ frame_stack_ demo_helper_state = [demo_helper_frame]
  ∧ functions_ demo_helper_state !! FrameState.key demo_helper_frame
    = Some demo_helper_record
  ∧ ∃ f',
      functions_ (state_of (pop_frame demo_helper_state))
        !! FrameState.key demo_helper_frame = Some f'
      ∧ record_total f'
        = record_total demo_helper_record + invocation_total demo_helper_frame
      ∧ Function.overhead f'
        = Function.overhead demo_helper_record
          + FrameState.internal demo_helper_frame
      ∧ tail (Function.line_time f')
        = tail (Function.line_time demo_helper_record)
      ∧ tail (Function.line_time_internal f')
        = tail (Function.line_time_internal demo_helper_record)
      ∧ (∀ code, code ≠ FrameState.key demo_helper_frame →
                 functions_ (state_of (pop_frame demo_helper_state)) !! code
                 = functions_ demo_helper_state !! code).
Proof.
  assert (H1 : pop_frame demo_helper_state
               = Ok (state_of (pop_frame demo_helper_state)))
    by (vm_compute; reflexivity).
  assert (H2 : frame_stack_ demo_helper_state = [demo_helper_frame])
    by (vm_compute; reflexivity).
  assert (H3 : functions_ demo_helper_state
               !! FrameState.key demo_helper_frame = Some demo_helper_record)
    by (vm_compute; reflexivity).
  repeat (split; [assumption|]).
  exact (pop_frame_conserves_time demo_helper_state _ demo_helper_frame []
           demo_helper_record H1 H2 H3).
Defined.




Lemma dispatch_prints_on_overhead_updates_witness :
  profile demo_py (1 * ms) (1 * ms) PyTrace_LINE demo_frame_main_12 0
    demo_entered_state = Ok demo_main_state
  ∧ ∃ count,
      cout demo_main_state
      = cout demo_entered_state
        ++ [cout_string "Internal: "; cout_seconds count; cout_endl].
Proof.
  assert (H1 : profile demo_py (1 * ms) (1 * ms) PyTrace_LINE
                 demo_frame_main_12 0 demo_entered_state
               = Ok demo_main_state) by (vm_compute; reflexivity).
  split; [assumption|].
  exact (dispatch_prints_on_overhead_updates demo_py _ _ _ _ _ _ _ H1).
Defined.

Lemma dump_can_be_repeated_witness :
  dump "report.txt" demo_main_state = Ok (demo_dumped.1, demo_dumped.2)
  ∧ ∃ out,
      demo_dumped.1 = write_cout out demo_main_state
      ∧ demo_dumped.2 = 0
      ∧ dump "again.txt" demo_dumped.1 = Ok (write_cout out demo_dumped.1, 0)
      ∧ functions_ demo_dumped.1 = functions_ demo_main_state
      ∧ c_functions_ demo_dumped.1 = c_functions_ demo_main_state
      ∧ frame_stack_ demo_dumped.1 = frame_stack_ demo_main_state
      ∧ last_instruction_ demo_dumped.1 = last_instruction_ demo_main_state.
Proof.
  assert (H1 : dump "report.txt" demo_main_state
               = Ok (demo_dumped.1, demo_dumped.2))
    by (vm_compute; reflexivity).
  split; [assumption|].
  exact (dump_can_be_repeated "report.txt" "again.txt" demo_main_state
           demo_dumped.1 demo_dumped.2 H1).
Defined.

Lemma stop_then_start_keeps_the_store_witness :
  functions_ demo_main_state !! 1%N = Some demo_main_record
  ∧ run demo_py demo_after_restart (start (stop demo_main_state))
    = Ok demo_restarted_state
  ∧ record_overhead demo_restarted_state 1 = Some (3 * ms)
  ∧ record_overhead demo_restarted_cleared_state 1 = Some (2 * ms)
  ∧ (∃ t, run demo_py demo_after_restart
            (start (stop (cleared demo_main_state))) = Ok t
          ∧ store_sum demo_main_state t demo_restarted_state)
  ∧ (∃ s2,
       run demo_py demo_after_restart (start (stop demo_main_state)) = Ok s2
       ∧ functions_ s2
         = <[1%N := Function.mk (BaseFunction.mk "main" (1 * ms + 2 * ms))
                      1%N ["    setup()"; "    helper()"; "    return 0"]
                      [0; 0; 0] [0; 0; 0]]> (functions_ demo_main_state)).
Proof.
  assert (H1 : functions_ demo_main_state !! 1%N = Some demo_main_record)
    by (vm_compute; reflexivity).
  assert (H2 : run demo_py demo_after_restart (start (stop demo_main_state))
               = Ok demo_restarted_state) by (vm_compute; reflexivity).
  assert (H3 : record_overhead demo_restarted_state 1 = Some (3 * ms))
    by (vm_compute; reflexivity).
  assert (H4 : record_overhead demo_restarted_cleared_state 1
               = Some (2 * ms)) by (vm_compute; reflexivity).
  repeat (split; [assumption|]).
  destruct (stop_then_start_keeps_the_store demo_py demo_main_state)
    as (_ & _ & _ & _ & _ & _ & _ & Hsum & Hcall & _).
  split.
  - exact (Hsum demo_after_restart demo_restarted_state H2).
  - refine (Hcall (at_time (11 * ms) PyTrace_CALL 1 10 0)
              (at_time (13 * ms) PyTrace_LINE 1 11 0) demo_main_record
              eq_refl eq_refl _ H1).
    intros other. discriminate.
Defined.
